(** * Stockfish endgame knowledge (src/endgame.cpp)

    A shallow embedding of the specialised endgame evaluators of
    [endgame.cpp] and the properties of its Value and ScaleFactor
    evaluators.

    Integers of the program ([Square], [File], [Rank], [Value],
    [ScaleFactor]) are modelled as [Z]; a [Bitboard] is a 64-bit word
    kept in [Z] with the bit operations written out.  The headers
    [types.h], [bitboard.h], [position.h], [movegen.h] are not part of
    the translated file: their enumerations and inline helpers are
    written out below as [endgame.cpp] uses them, the tuning constants
    are left abstract in the class [Constants], and the bitbase and the
    move generator are the class [Collaborators]. *)

From Stdlib Require Import ZArith List Bool Lia.
From Stdlib Require Ascii String.
Import ListNotations.
Local Open Scope Z_scope.

(** ** types.h: enumerations and square arithmetic *)

(** Modelled from the spec: types.h is not under src/.  Squares are the
    integers 0 (a1) to 63 (h8), file = s & 7 and rank = s >> 3, as the
    64-entry tables of endgame.cpp and its [square ^ 7] mirror
    "SQ_H1 -> SQ_A1" require; the inline helpers are written as the
    bit operations they are. *)
Module Types.

Inductive Color : Type := WHITE | BLACK.

Inductive PieceType : Type := PAWN | KNIGHT | BISHOP | ROOK | QUEEN | KING.

Definition Square := Z.
Definition File := Z.
Definition Rank := Z.
Definition Value := Z.
Definition ScaleFactor := Z.
Definition Bitboard := Z.

Definition Color_eqb (a b : Color) : bool :=
  match a, b with
  | WHITE, WHITE | BLACK, BLACK => true
  | _, _ => false
  end.

(** [~c] on a colour *)
Definition opp (c : Color) : Color :=
  match c with WHITE => BLACK | BLACK => WHITE end.

(** the integer value of the enumerator *)
Definition color_int (c : Color) : Z :=
  match c with WHITE => 0 | BLACK => 1 end.

Definition FILE_A : File := 0.
Definition FILE_B : File := 1.
Definition FILE_C : File := 2.
Definition FILE_D : File := 3.
Definition FILE_E : File := 4.
Definition FILE_F : File := 5.
Definition FILE_G : File := 6.
Definition FILE_H : File := 7.

Definition RANK_1 : Rank := 0.
Definition RANK_2 : Rank := 1.
Definition RANK_3 : Rank := 2.
Definition RANK_4 : Rank := 3.
Definition RANK_5 : Rank := 4.
Definition RANK_6 : Rank := 5.
Definition RANK_7 : Rank := 6.
Definition RANK_8 : Rank := 7.

Definition SQ_A1 : Square := 0.
Definition SQ_H1 : Square := 7.
Definition SQ_H5 : Square := 39.
Definition SQ_A7 : Square := 48.
Definition SQ_G7 : Square := 54.
Definition SQ_H7 : Square := 55.
Definition SQ_A8 : Square := 56.
Definition SQ_NONE : Square := 64.
Definition SQUARE_NB : Z := 64.

Definition DELTA_N : Square := 8.
Definition DELTA_S : Square := -8.

Definition is_ok (s : Square) : bool := (SQ_A1 <=? s) && (s <? SQUARE_NB).

(** [s & 7] *)
Definition file_of (s : Square) : File := Z.land s 7.

(** [s >> 3] *)
Definition rank_of (s : Square) : Rank := Z.shiftr s 3.

(** [(r << 3) | f] *)
Definition make_square (f : File) (r : Rank) : Square :=
  Z.lor (Z.shiftl r 3) f.

(** [~s] on a square: [s ^ 56], the vertical flip SQ_A1 -> SQ_A8 *)
Definition flip (s : Square) : Square := Z.lxor s 56.

(** [s ^ (c * 56)] *)
Definition relative_square (c : Color) (s : Square) : Square :=
  Z.lxor s (color_int c * 56).

(** [r ^ (c * 7)] *)
Definition relative_rank_of_rank (c : Color) (r : Rank) : Rank :=
  Z.lxor r (color_int c * 7).

Definition relative_rank (c : Color) (s : Square) : Rank :=
  relative_rank_of_rank c (rank_of s).

(** [((s >> 3) ^ s) & 1] with [s = s1 ^ s2] *)
Definition opposite_colors (s1 s2 : Square) : bool :=
  let s := Z.lxor s1 s2 in
  negb (Z.land (Z.lxor (Z.shiftr s 3) s) 1 =? 0).

Definition pawn_push (c : Color) : Square :=
  match c with WHITE => DELTA_N | BLACK => DELTA_S end.

(** Modelled from the spec: the values of the enumerators of types.h
    that endgame.cpp reads (drawn score, known-win bonus, piece values,
    scale factors) are not under src/ and are left as parameters. *)
Class Constants : Type := {
  VALUE_ZERO : Value;
  VALUE_DRAW : Value;
  VALUE_KNOWN_WIN : Value;
  PawnValueEg : Value;
  KnightValueMg : Value;
  BishopValueMg : Value;
  RookValueMg : Value;
  RookValueEg : Value;
  QueenValueMg : Value;
  QueenValueEg : Value;
  SCALE_FACTOR_DRAW : ScaleFactor;
  SCALE_FACTOR_MAX : ScaleFactor;
  SCALE_FACTOR_NONE : ScaleFactor
}.

End Types.
Export Types.

(** ** bitboard.h: distances and bitboards *)

(** Modelled from the spec: bitboard.h is not under src/.  A bitboard
    is a 64-bit word with bit s set for square s; the distance of two
    squares is the number of king steps between them, which indexes
    the 8-entry tables PushClose and PushAway. *)
Module Bitboards.

(** [distance(x, y)] on files, ranks and plain integers *)
Definition distance_int (x y : Z) : Z := if x <? y then y - x else x - y.

(** [distance<File>(s1, s2)] *)
Definition distance_file (s1 s2 : Square) : Z :=
  distance_int (file_of s1) (file_of s2).

(** [distance<Rank>(s1, s2)] *)
Definition distance_rank (s1 s2 : Square) : Z :=
  distance_int (rank_of s1) (rank_of s2).

(** [distance(s1, s2)] on squares: the entry of the [SquareDistance]
    table, the larger of the file and the rank distance. *)
Definition distance (s1 s2 : Square) : Z :=
  Z.max (distance_file s1 s2) (distance_rank s1 s2).

Definition mask64 : Bitboard := Z.ones 64.

(** [~b] on a 64-bit word *)
Definition bb_not (b : Bitboard) : Bitboard := Z.land (Z.lnot b) mask64.

(** [b << n] on a 64-bit word *)
Definition bb_shl (b : Bitboard) (n : Z) : Bitboard :=
  Z.land (Z.shiftl b n) mask64.

(** a bitboard used as a condition *)
Definition nonzero (b : Bitboard) : bool := negb (b =? 0).

Definition SquareBB (s : Square) : Bitboard := bb_shl 1 s.

(** [b & s] with a square on the right *)
Definition bb_and_sq (b : Bitboard) (s : Square) : Bitboard :=
  Z.land b (SquareBB s).

Definition FileABB : Bitboard := 0x0101010101010101.
Definition FileBBB : Bitboard := bb_shl FileABB 1.
Definition FileCBB : Bitboard := bb_shl FileABB 2.
Definition FileDBB : Bitboard := bb_shl FileABB 3.
Definition FileEBB : Bitboard := bb_shl FileABB 4.
Definition FileFBB : Bitboard := bb_shl FileABB 5.
Definition FileGBB : Bitboard := bb_shl FileABB 6.
Definition FileHBB : Bitboard := bb_shl FileABB 7.
Definition Rank1BB : Bitboard := 0xFF.

Definition file_bb (f : File) : Bitboard := bb_shl FileABB f.
Definition rank_bb (r : Rank) : Bitboard := bb_shl Rank1BB (8 * r).

Definition squares : list Square := map Z.of_nat (seq 0 64).

(** the bitboard of the squares of a list *)
Definition bb_of_list (l : list Square) : Bitboard :=
  fold_right (fun s b => Z.lor (SquareBB s) b) 0 l.

(** the bitboard of the squares that satisfy [p] *)
Definition bb_where (p : Square -> bool) : Bitboard :=
  bb_of_list (filter p squares).

Definition adjacent_files_bb (f : File) : Bitboard :=
  Z.lor (if FILE_A <? f then file_bb (f - 1) else 0)
        (if f <? FILE_H then file_bb (f + 1) else 0).

(** [InFrontBB[c][r]]: the ranks in front of [r] from [c]'s side *)
Definition in_front_bb (c : Color) (r : Rank) : Bitboard :=
  bb_where (fun s => match c with
                     | WHITE => r <? rank_of s
                     | BLACK => rank_of s <? r
                     end).

(** [ForwardBB[c][s] = InFrontBB[c][rank_of(s)] & FileBB[file_of(s)]] *)
Definition forward_bb (c : Color) (s : Square) : Bitboard :=
  Z.land (in_front_bb c (rank_of s)) (file_bb (file_of s)).

(** [PawnAttackSpan[c][s] = InFrontBB[c][rank_of(s)] & AdjacentFilesBB[file_of(s)]] *)
Definition pawn_attack_span (c : Color) (s : Square) : Bitboard :=
  Z.land (in_front_bb c (rank_of s)) (adjacent_files_bb (file_of s)).

(** [PassedPawnMask[c][s] = ForwardBB[c][s] | PawnAttackSpan[c][s]] *)
Definition passed_pawn_mask (c : Color) (s : Square) : Bitboard :=
  Z.lor (forward_bb c s) (pawn_attack_span c s).

(** [lsb] and [msb] of a non-empty bitboard *)
Definition lsb (b : Bitboard) : Square := Z.log2 (Z.land b (- b)).
Definition msb (b : Bitboard) : Square := Z.log2 b.

Definition backmost_sq (c : Color) (b : Bitboard) : Square :=
  match c with WHITE => lsb b | BLACK => msb b end.

(** One ray of [sliding_attack]: from [s] step by [delta] while the new
    square is on the board and one king step from the previous one; a
    square of [occupied] is included and ends the ray. *)
Fixpoint slide (fuel : nat) (delta : Z) (s : Square) (occupied : Bitboard)
  : Bitboard :=
  match fuel with
  | O => 0
  | S fuel' =>
      let s' := s + delta in
      if is_ok s' && (distance s' s =? 1)
      then Z.lor (SquareBB s')
                 (if nonzero (bb_and_sq occupied s') then 0
                  else slide fuel' delta s' occupied)
      else 0
  end.

Definition sliding_attack (deltas : list Z) (sq : Square) (occupied : Bitboard)
  : Bitboard :=
  fold_right (fun d b => Z.lor (slide 8 d sq occupied) b) 0 deltas.

Definition BishopDeltas : list Z := [9; 7; -7; -9].

(** [attacks_bb<BISHOP>(s, occupied)] *)
Definition attacks_bb_bishop (s : Square) (occupied : Bitboard) : Bitboard :=
  sliding_attack BishopDeltas s occupied.

(** [PseudoAttacks[BISHOP][s]]: the attacks on an empty board *)
Definition PseudoAttacks_bishop (s : Square) : Bitboard :=
  attacks_bb_bishop s 0.

(** [StepAttacksBB] of a king on [s] *)
Definition StepAttacks_king (s : Square) : Bitboard :=
  bb_where (fun t => distance s t =? 1).

(** [StepAttacksBB] of a pawn of colour [c] on [s] *)
Definition StepAttacks_pawn (c : Color) (s : Square) : Bitboard :=
  bb_where (fun t => (distance_file s t =? 1)
                     && (rank_of t =? rank_of s + match c with
                                                  | WHITE => 1
                                                  | BLACK => -1
                                                  end)).

End Bitboards.
Export Bitboards.

(** ** position.h: the queries of a position that endgame.cpp uses *)

(** Modelled from the spec: position.h is not under src/.  The queries
    are those of the spec's Position query interface (side to move,
    king square, ordered piece squares, piece count, non-pawn material,
    bishop pair, passed pawn, attacks, piece bitboards), all derived
    from the piece lists. *)
Module Pos.

(** A position is its side to move and its piece lists
    ([pieceList[c][pt]], in the order the program keeps them). *)
Record Position : Type := {
  side_to_move : Color;
  pieceList : Color -> PieceType -> list Square
}.

(** [pos.list<Pt>(c)[i]]; the list ends in [SQ_NONE] *)
Definition list_at (pos : Position) (pt : PieceType) (c : Color) (i : nat)
  : Square :=
  nth i (pieceList pos c pt) SQ_NONE.

(** [pos.count<Pt>(c)] *)
Definition count (pos : Position) (pt : PieceType) (c : Color) : Z :=
  Z.of_nat (length (pieceList pos c pt)).

Definition king_square (pos : Position) (c : Color) : Square :=
  list_at pos KING c 0.

(** [pos.pieces(c, pt)] *)
Definition pieces_of (pos : Position) (c : Color) (pt : PieceType) : Bitboard :=
  bb_of_list (pieceList pos c pt).

(** [pos.pieces(pt)] *)
Definition pieces_pt (pos : Position) (pt : PieceType) : Bitboard :=
  Z.lor (pieces_of pos WHITE pt) (pieces_of pos BLACK pt).

(** [pos.pieces()] *)
Definition pieces (pos : Position) : Bitboard :=
  fold_right (fun pt b => Z.lor (pieces_pt pos pt) b) 0
             [PAWN; KNIGHT; BISHOP; ROOK; QUEEN; KING].

(** Modelled from the spec: [pos.bishop_pair(c)], two bishops on squares
    of opposite colours. *)
Definition bishop_pair (pos : Position) (c : Color) : bool :=
  (count pos BISHOP c >=? 2)
  && opposite_colors (list_at pos BISHOP c 0) (list_at pos BISHOP c 1).

(** Modelled from the spec: [pos.pawn_passed(c, s)], no enemy pawn in
    front of [s] on its file or an adjacent file. *)
Definition pawn_passed (pos : Position) (c : Color) (s : Square) : bool :=
  negb (nonzero (Z.land (pieces_of pos (opp c) PAWN) (passed_pawn_mask c s))).

(** [pos.attacks_from<BISHOP>(s)] *)
Definition attacks_from_bishop (pos : Position) (s : Square) : Bitboard :=
  attacks_bb_bishop s (pieces pos).

(** [pos.attacks_from<KING>(s)] *)
Definition attacks_from_king (pos : Position) (s : Square) : Bitboard :=
  StepAttacks_king s.

(** [pos.attacks_from<PAWN>(s, c)] *)
Definition attacks_from_pawn (pos : Position) (s : Square) (c : Color)
  : Bitboard :=
  StepAttacks_pawn c s.

(** The position with only the side to move exchanged. *)
Definition swap_side_to_move (pos : Position) : Position :=
  {| side_to_move := opp (side_to_move pos); pieceList := pieceList pos |}.

Section Material.
Context {K : Constants}.

(** Modelled from the spec: [pos.non_pawn_material(c)], the middlegame
    values of the pieces of [c] other than king and pawns. *)
Definition non_pawn_material (pos : Position) (c : Color) : Value :=
    count pos KNIGHT c * KnightValueMg
  + count pos BISHOP c * BishopValueMg
  + count pos ROOK c * RookValueMg
  + count pos QUEEN c * QueenValueMg.

End Material.

(** The squares of all pieces, over both colours and all piece types. *)
Definition all_squares (pos : Position) : list Square :=
  flat_map (fun c => flat_map (pieceList pos c)
                              [PAWN; KNIGHT; BISHOP; ROOK; QUEEN; KING])
           [WHITE; BLACK].

Fixpoint distinct (l : list Square) : bool :=
  match l with
  | [] => true
  | x :: r => negb (existsb (Z.eqb x) r) && distinct r
  end.

(** What every position of a game satisfies: one king a side, every
    piece on a square of the board, no two pieces on one square, and
    pawns on their second to seventh rank only. *)
Definition well_formed (pos : Position) : bool :=
  (count pos KING WHITE =? 1) && (count pos KING BLACK =? 1)
  && forallb is_ok (all_squares pos)
  && distinct (all_squares pos)
  && forallb (fun s => (RANK_2 <=? rank_of s) && (rank_of s <=? RANK_7))
             (pieceList pos WHITE PAWN ++ pieceList pos BLACK PAWN).

(** Modelled from the spec: the bitbase and the move generator, the
    two collaborators outside src/, are parameters. *)
Class Collaborators : Type := {
  (** [Bitbases::probe_kpk(wksq, wpsq, bksq, us)] *)
  probe_kpk : Square -> Square -> Square -> Color -> bool;
  (** [MoveList<LEGAL>(pos).size()] *)
  legal_moves : Position -> nat
}.

End Pos.
Export Pos.

(** ** endgame.cpp *)

Module Endgame.

Definition table_at (t : list Z) (i : Z) : Z := nth (Z.to_nat i) t 0.

Definition PushToEdges : list Z := [
  100; 90; 80; 70; 70; 80; 90; 100;
   90; 70; 60; 50; 50; 60; 70;  90;
   80; 60; 40; 30; 30; 40; 60;  80;
   70; 50; 30; 20; 20; 30; 50;  70;
   70; 50; 30; 20; 20; 30; 50;  70;
   80; 60; 40; 30; 30; 40; 60;  80;
   90; 70; 60; 50; 50; 60; 70;  90;
  100; 90; 80; 70; 70; 80; 90; 100 ].

Definition PushToCorners : list Z := [
  200; 190; 180; 170; 160; 150; 140; 130;
  190; 180; 170; 160; 150; 140; 130; 140;
  180; 170; 155; 140; 140; 125; 140; 150;
  170; 160; 140; 120; 110; 140; 150; 160;
  160; 150; 140; 110; 120; 140; 160; 170;
  150; 140; 125; 140; 140; 155; 170; 180;
  140; 130; 140; 150; 160; 170; 180; 190;
  130; 140; 150; 160; 170; 180; 190; 200 ].

Definition PushClose : list Z := [0; 0; 100; 80; 60; 40; 20; 10].
Definition PushAway : list Z := [0; 5; 20; 40; 60; 80; 90; 100].

Section Evaluators.
Context {K : Constants} {C : Collaborators}.

Definition verify_material (pos : Position) (color : Color)
           (nonPawnMaterial : Value) (numPawns : Z) : bool :=
  (non_pawn_material pos color =? nonPawnMaterial)
  && (count pos PAWN color =? numPawns).

(** Map the square as if strongSide is white and strongSide's only pawn
    is on the left half of the board. *)
Definition normalize (pos : Position) (strongSide : Color) (square : Square)
  : Square :=
  let square :=
    if file_of (list_at pos PAWN strongSide 0) >=? FILE_E
    then Z.lxor square 7
    else square in
  let square :=
    if Color_eqb strongSide BLACK then flip square else square in
  square.

(** *** Value evaluators *)

Definition KXK (strongSide : Color) (pos : Position) : Value :=
  let weakSide := opp strongSide in
  if Color_eqb (side_to_move pos) weakSide && (legal_moves pos =? 0)%nat
  then VALUE_DRAW
  else
    let winnerKingSquare := king_square pos strongSide in
    let loserKingSquare := king_square pos weakSide in
    let result := non_pawn_material pos strongSide
                  + count pos PAWN strongSide * PawnValueEg
                  + table_at PushToEdges loserKingSquare
                  + table_at PushClose (distance winnerKingSquare loserKingSquare) in
    let result :=
      if negb (count pos QUEEN strongSide =? 0)
         || negb (count pos ROOK strongSide =? 0)
         || (negb (count pos BISHOP strongSide =? 0)
             && negb (count pos KNIGHT strongSide =? 0))
         || bishop_pair pos strongSide
      then result + VALUE_KNOWN_WIN
      else result in
    if Color_eqb strongSide (side_to_move pos) then result else - result.

Definition KBNK (strongSide : Color) (pos : Position) : Value :=
  let weakSide := opp strongSide in
  let winnerKingSquare := king_square pos strongSide in
  let loserKingSquare := king_square pos weakSide in
  let bishopSquare := list_at pos BISHOP strongSide 0 in
  let flipped := opposite_colors bishopSquare SQ_A1 in
  let winnerKingSquare :=
    if flipped then flip winnerKingSquare else winnerKingSquare in
  let loserKingSquare :=
    if flipped then flip loserKingSquare else loserKingSquare in
  let result := VALUE_KNOWN_WIN
                + table_at PushClose (distance winnerKingSquare loserKingSquare)
                + table_at PushToCorners loserKingSquare in
  if Color_eqb strongSide (side_to_move pos) then result else - result.

Definition KPK (strongSide : Color) (pos : Position) : Value :=
  let weakSide := opp strongSide in
  let whiteKingSquare := normalize pos strongSide (king_square pos strongSide) in
  let blackKingSquare := normalize pos strongSide (king_square pos weakSide) in
  let pawnSquare := normalize pos strongSide (list_at pos PAWN strongSide 0) in
  let us := if Color_eqb strongSide (side_to_move pos) then WHITE else BLACK in
  if negb (probe_kpk whiteKingSquare pawnSquare blackKingSquare us)
  then VALUE_DRAW
  else
    let result := VALUE_KNOWN_WIN + PawnValueEg + rank_of pawnSquare in
    if Color_eqb strongSide (side_to_move pos) then result else - result.

(** a comparison used as an integer *)
Definition b2z (b : bool) : Z := if b then 1 else 0.

Definition KRKP (strongSide : Color) (pos : Position) : Value :=
  let weakSide := opp strongSide in
  let whiteKingSquare := relative_square strongSide (king_square pos strongSide) in
  let blackKingSquare := relative_square strongSide (king_square pos weakSide) in
  let rookSquare := relative_square strongSide (list_at pos ROOK strongSide 0) in
  let pawnSquare := relative_square strongSide (list_at pos PAWN weakSide 0) in
  let queeningSquare := make_square (file_of pawnSquare) RANK_1 in
  let result :=
    if (whiteKingSquare <? pawnSquare)
       && (file_of whiteKingSquare =? file_of pawnSquare)
    then RookValueEg - distance whiteKingSquare pawnSquare
    else if (distance blackKingSquare pawnSquare
               >=? 3 + b2z (Color_eqb (side_to_move pos) weakSide))
            && (distance blackKingSquare rookSquare >=? 3)
    then RookValueEg - distance whiteKingSquare pawnSquare
    else if (rank_of blackKingSquare <=? RANK_3)
            && (distance blackKingSquare pawnSquare =? 1)
            && (rank_of whiteKingSquare >=? RANK_4)
            && (distance whiteKingSquare pawnSquare
                  >? 2 + b2z (Color_eqb (side_to_move pos) strongSide))
    then 80 - 8 * distance whiteKingSquare pawnSquare
    else 200 - 8 * (distance whiteKingSquare (pawnSquare + DELTA_S)
                    - distance blackKingSquare (pawnSquare + DELTA_S)
                    - distance pawnSquare queeningSquare) in
  if Color_eqb strongSide (side_to_move pos) then result else - result.

Definition KRKB (strongSide : Color) (pos : Position) : Value :=
  let weakSide := opp strongSide in
  let result := table_at PushToEdges (king_square pos weakSide) in
  if Color_eqb strongSide (side_to_move pos) then result else - result.

Definition KRKN (strongSide : Color) (pos : Position) : Value :=
  let weakSide := opp strongSide in
  let blackKingSquare := king_square pos weakSide in
  let knightSquare := list_at pos KNIGHT weakSide 0 in
  let result := table_at PushToEdges blackKingSquare
                + table_at PushAway (distance blackKingSquare knightSquare) in
  if Color_eqb strongSide (side_to_move pos) then result else - result.

Definition KQKP (strongSide : Color) (pos : Position) : Value :=
  let weakSide := opp strongSide in
  let winnerKingSquare := king_square pos strongSide in
  let loserKingSquare := king_square pos weakSide in
  let pawnSquare := list_at pos PAWN weakSide 0 in
  let result := table_at PushClose (distance winnerKingSquare loserKingSquare) in
  let result :=
    if negb (relative_rank weakSide pawnSquare =? RANK_7)
       || negb (distance loserKingSquare pawnSquare =? 1)
       || negb (nonzero (bb_and_sq
                  (Z.lor (Z.lor (Z.lor FileABB FileCBB) FileFBB) FileHBB)
                  pawnSquare))
    then result + (QueenValueEg - PawnValueEg)
    else result in
  if Color_eqb strongSide (side_to_move pos) then result else - result.

Definition KQKR (strongSide : Color) (pos : Position) : Value :=
  let weakSide := opp strongSide in
  let winnerKingSquare := king_square pos strongSide in
  let loserKingSquare := king_square pos weakSide in
  let result := QueenValueEg
                - RookValueEg
                + table_at PushToEdges loserKingSquare
                + table_at PushClose (distance winnerKingSquare loserKingSquare) in
  if Color_eqb strongSide (side_to_move pos) then result else - result.

Definition KNNK (strongSide : Color) (pos : Position) : Value := VALUE_DRAW.

(** *** ScaleFactor evaluators *)

Definition KBPsK (strongSide : Color) (pos : Position) : ScaleFactor :=
  let weakSide := opp strongSide in
  let pawns := pieces_of pos strongSide PAWN in
  let pawnFile := file_of (list_at pos PAWN strongSide 0) in
  let rule1 :=
    if ((pawnFile =? FILE_A) || (pawnFile =? FILE_H))
       && negb (nonzero (Z.land pawns (bb_not (file_bb pawnFile))))
    then
      let bishopSquare := list_at pos BISHOP strongSide 0 in
      let queeningSquare :=
        relative_square strongSide (make_square pawnFile RANK_8) in
      let kingSquare := king_square pos weakSide in
      opposite_colors queeningSquare bishopSquare
      && (distance queeningSquare kingSquare <=? 1)
    else false in
  if rule1 then SCALE_FACTOR_DRAW
  else
  let rule2 :=
    if ((pawnFile =? FILE_B) || (pawnFile =? FILE_G))
       && negb (nonzero (Z.land (pieces_pt pos PAWN) (bb_not (file_bb pawnFile))))
       && (non_pawn_material pos weakSide =? 0)
       && (count pos PAWN weakSide >=? 1)
    then
      let weakPawnSquare := backmost_sq weakSide (pieces_of pos weakSide PAWN) in
      let strongKingSquare := king_square pos strongSide in
      let weakKingSquare := king_square pos weakSide in
      let bishopSquare := list_at pos BISHOP strongSide 0 in
      if (relative_rank strongSide weakPawnSquare =? RANK_7)
         && nonzero (bb_and_sq (pieces_of pos strongSide PAWN)
                               (weakPawnSquare + pawn_push weakSide))
         && (opposite_colors bishopSquare weakPawnSquare
             || (count pos PAWN strongSide =? 1))
      then
        let strongKingDistance := distance weakPawnSquare strongKingSquare in
        let weakKingDistance := distance weakPawnSquare weakKingSquare in
        (relative_rank strongSide weakKingSquare >=? RANK_7)
        && (weakKingDistance <=? 2)
        && (weakKingDistance <=? strongKingDistance)
      else false
    else false in
  if rule2 then SCALE_FACTOR_DRAW else SCALE_FACTOR_NONE.

Definition KQKRPs (strongSide : Color) (pos : Position) : ScaleFactor :=
  let weakSide := opp strongSide in
  let kingSquare := king_square pos weakSide in
  let rookSquare := list_at pos ROOK weakSide 0 in
  if (relative_rank weakSide kingSquare <=? RANK_2)
     && (relative_rank weakSide (king_square pos strongSide) >=? RANK_4)
     && (relative_rank weakSide rookSquare =? RANK_3)
     && nonzero (Z.land (Z.land (pieces_of pos weakSide PAWN)
                                (attacks_from_king pos kingSquare))
                        (attacks_from_pawn pos rookSquare strongSide))
  then SCALE_FACTOR_DRAW
  else SCALE_FACTOR_NONE.

Definition KRPKR (strongSide : Color) (pos : Position) : ScaleFactor :=
  let weakSide := opp strongSide in
  let whiteKingSquare := normalize pos strongSide (king_square pos strongSide) in
  let blackKingSquare := normalize pos strongSide (king_square pos weakSide) in
  let whiteRookSquare := normalize pos strongSide (list_at pos ROOK strongSide 0) in
  let whitePawnSquare := normalize pos strongSide (list_at pos PAWN strongSide 0) in
  let blackRookSquare := normalize pos strongSide (list_at pos ROOK weakSide 0) in
  let file := file_of whitePawnSquare in
  let rank := rank_of whitePawnSquare in
  let queeningSquare := make_square file RANK_8 in
  let tempo := b2z (Color_eqb (side_to_move pos) strongSide) in
  if (rank <=? RANK_5)
     && (distance blackKingSquare queeningSquare <=? 1)
     && (whiteKingSquare <=? SQ_H5)
     && ((rank_of blackRookSquare =? RANK_6)
         || ((rank <=? RANK_3) && negb (rank_of whiteRookSquare =? RANK_6)))
  then SCALE_FACTOR_DRAW
  else if (rank =? RANK_6)
     && (distance blackKingSquare queeningSquare <=? 1)
     && (rank_of whiteKingSquare + tempo <=? RANK_6)
     && ((rank_of blackRookSquare =? RANK_1)
         || ((tempo =? 0)
             && (distance_int (file_of blackRookSquare) file >=? 3)))
  then SCALE_FACTOR_DRAW
  else if (rank >=? RANK_6)
     && (blackKingSquare =? queeningSquare)
     && (rank_of blackRookSquare =? RANK_1)
     && ((tempo =? 0) || (distance whiteKingSquare whitePawnSquare >=? 2))
  then SCALE_FACTOR_DRAW
  else if (whitePawnSquare =? SQ_A7)
     && (whiteRookSquare =? SQ_A8)
     && ((blackKingSquare =? SQ_H7) || (blackKingSquare =? SQ_G7))
     && (file_of blackRookSquare =? FILE_A)
     && ((rank_of blackRookSquare <=? RANK_3)
         || (file_of whiteKingSquare >=? FILE_D)
         || (rank_of whiteKingSquare <=? RANK_5))
  then SCALE_FACTOR_DRAW
  else if (rank <=? RANK_5)
     && (blackKingSquare =? whitePawnSquare + DELTA_N)
     && (distance whiteKingSquare whitePawnSquare - tempo >=? 2)
     && (distance whiteKingSquare blackRookSquare - tempo >=? 2)
  then SCALE_FACTOR_DRAW
  else if (rank =? RANK_7)
     && negb (file =? FILE_A)
     && (file_of whiteRookSquare =? file)
     && negb (whiteRookSquare =? queeningSquare)
     && (distance whiteKingSquare queeningSquare
           <? distance blackKingSquare queeningSquare - 2 + tempo)
     && (distance whiteKingSquare queeningSquare
           <? distance blackKingSquare whiteRookSquare + tempo)
  then SCALE_FACTOR_MAX - 2 * distance whiteKingSquare queeningSquare
  else if negb (file =? FILE_A)
     && (file_of whiteRookSquare =? file)
     && (whiteRookSquare <? whitePawnSquare)
     && (distance whiteKingSquare queeningSquare
           <? distance blackKingSquare queeningSquare - 2 + tempo)
     && (distance whiteKingSquare (whitePawnSquare + DELTA_N)
           <? distance blackKingSquare (whitePawnSquare + DELTA_N) - 2 + tempo)
     && ((distance blackKingSquare whiteRookSquare + tempo >=? 3)
         || ((distance whiteKingSquare queeningSquare
                <? distance blackKingSquare whiteRookSquare + tempo)
             && (distance whiteKingSquare (whitePawnSquare + DELTA_N)
                   <? distance blackKingSquare whiteRookSquare + tempo)))
  then SCALE_FACTOR_MAX
       - 8 * distance whitePawnSquare queeningSquare
       - 2 * distance whiteKingSquare queeningSquare
  else if (rank <=? RANK_4) && (blackKingSquare >? whitePawnSquare)
  then
    if file_of blackKingSquare =? file_of whitePawnSquare
    then 10
    else if (distance_file blackKingSquare whitePawnSquare =? 1)
            && (distance whiteKingSquare blackKingSquare >? 2)
    then 24 - 2 * distance whiteKingSquare blackKingSquare
    else SCALE_FACTOR_NONE
  else SCALE_FACTOR_NONE.

Definition KRPKB (strongSide : Color) (pos : Position) : ScaleFactor :=
  let weakSide := opp strongSide in
  if nonzero (Z.land (pieces_pt pos PAWN) (Z.lor FileABB FileHBB))
  then
    let kingSquare := king_square pos weakSide in
    let bishopSquare := list_at pos BISHOP weakSide 0 in
    let pawnSquare := list_at pos PAWN strongSide 0 in
    let rank := relative_rank strongSide pawnSquare in
    let push := pawn_push strongSide in
    if (rank =? RANK_5) && negb (opposite_colors bishopSquare pawnSquare)
    then
      let kingDistance := distance (pawnSquare + 3 * push) kingSquare in
      if (kingDistance <=? 2)
         && negb ((kingDistance =? 0)
                  && (kingSquare =? king_square pos strongSide + 2 * push))
      then 24
      else 48
    else if (rank =? RANK_6)
       && (distance (pawnSquare + 2 * push) kingSquare <=? 1)
       && nonzero (bb_and_sq (PseudoAttacks_bishop bishopSquare)
                             (pawnSquare + push))
       && (distance_file bishopSquare pawnSquare >=? 2)
    then 8
    else SCALE_FACTOR_NONE
  else SCALE_FACTOR_NONE.

(** What a call of an evaluator with a reachable [assert(false)] does. *)
Inductive Outcome : Type :=
| Returns (sf : ScaleFactor)
| AssertionFailure.

Definition KRPPKRP (strongSide : Color) (pos : Position) : Outcome :=
  let weakSide := opp strongSide in
  let whitePawnSquare1 := list_at pos PAWN strongSide 0 in
  let whitePawnSquare2 := list_at pos PAWN strongSide 1 in
  let blackKingSquare := king_square pos weakSide in
  if pawn_passed pos strongSide whitePawnSquare1
     || pawn_passed pos strongSide whitePawnSquare2
  then Returns SCALE_FACTOR_NONE
  else
    let rank := Z.max (relative_rank strongSide whitePawnSquare1)
                      (relative_rank strongSide whitePawnSquare2) in
    if (distance_file blackKingSquare whitePawnSquare1 <=? 1)
       && (distance_file blackKingSquare whitePawnSquare2 <=? 1)
       && (relative_rank strongSide blackKingSquare >? rank)
    then
      if rank =? RANK_2 then Returns 10
      else if rank =? RANK_3 then Returns 10
      else if rank =? RANK_4 then Returns 15
      else if rank =? RANK_5 then Returns 20
      else if rank =? RANK_6 then Returns 40
      else AssertionFailure
    else Returns SCALE_FACTOR_NONE.

Definition KPsK (strongSide : Color) (pos : Position) : ScaleFactor :=
  let weakSide := opp strongSide in
  let kingSquare := king_square pos weakSide in
  let pawns := pieces_of pos strongSide PAWN in
  let pawnSquare := list_at pos PAWN strongSide 0 in
  if negb (nonzero (Z.land pawns
                      (bb_not (in_front_bb weakSide (rank_of kingSquare)))))
     && negb (nonzero (Z.land pawns (bb_not FileABB))
              && nonzero (Z.land pawns (bb_not FileHBB)))
     && (distance_file kingSquare pawnSquare <=? 1)
  then SCALE_FACTOR_DRAW
  else SCALE_FACTOR_NONE.

Definition KBPKB (strongSide : Color) (pos : Position) : ScaleFactor :=
  let weakSide := opp strongSide in
  let pawnSquare := list_at pos PAWN strongSide 0 in
  let strongBishopSquare := list_at pos BISHOP strongSide 0 in
  let weakBishopSquare := list_at pos BISHOP weakSide 0 in
  let weakKingSquare := king_square pos weakSide in
  if (file_of weakKingSquare =? file_of pawnSquare)
     && (relative_rank strongSide pawnSquare
           <? relative_rank strongSide weakKingSquare)
     && (opposite_colors weakKingSquare strongBishopSquare
         || (relative_rank strongSide weakKingSquare <=? RANK_6))
  then SCALE_FACTOR_DRAW
  else if opposite_colors strongBishopSquare weakBishopSquare
  then
    if relative_rank strongSide pawnSquare <=? RANK_5
    then SCALE_FACTOR_DRAW
    else
      let path := forward_bb strongSide pawnSquare in
      if nonzero (Z.land path (pieces_of pos weakSide KING))
      then SCALE_FACTOR_DRAW
      else if nonzero (Z.land (attacks_from_bishop pos weakBishopSquare) path)
              && (distance weakBishopSquare pawnSquare >=? 3)
      then SCALE_FACTOR_DRAW
      else SCALE_FACTOR_NONE
  else SCALE_FACTOR_NONE.

Definition KBPPKB (strongSide : Color) (pos : Position) : ScaleFactor :=
  let weakSide := opp strongSide in
  let whiteBishopSquare := list_at pos BISHOP strongSide 0 in
  let blackBishopSquare := list_at pos BISHOP weakSide 0 in
  if negb (opposite_colors whiteBishopSquare blackBishopSquare)
  then SCALE_FACTOR_NONE
  else
    let kingSquare := king_square pos weakSide in
    let pawnSquare1 := list_at pos PAWN strongSide 0 in
    let pawnSquare2 := list_at pos PAWN strongSide 1 in
    let rank1 := rank_of pawnSquare1 in
    let rank2 := rank_of pawnSquare2 in
    let '(blockSquare1, blockSquare2) :=
      if relative_rank strongSide pawnSquare1
           >? relative_rank strongSide pawnSquare2
      then (pawnSquare1 + pawn_push strongSide,
            make_square (file_of pawnSquare2) (rank_of pawnSquare1))
      else (pawnSquare2 + pawn_push strongSide,
            make_square (file_of pawnSquare1) (rank_of pawnSquare2)) in
    let fileDistance := distance_file pawnSquare1 pawnSquare2 in
    if fileDistance =? 0 then
      if (file_of kingSquare =? file_of blockSquare1)
         && (relative_rank strongSide kingSquare
               >=? relative_rank strongSide blockSquare1)
         && opposite_colors kingSquare whiteBishopSquare
      then SCALE_FACTOR_DRAW
      else SCALE_FACTOR_NONE
    else if fileDistance =? 1 then
      if (kingSquare =? blockSquare1)
         && opposite_colors kingSquare whiteBishopSquare
         && ((blackBishopSquare =? blockSquare2)
             || nonzero (Z.land (attacks_from_bishop pos blockSquare2)
                                (pieces_of pos weakSide BISHOP))
             || (distance_int rank1 rank2 >=? 2))
      then SCALE_FACTOR_DRAW
      else if (kingSquare =? blockSquare2)
         && opposite_colors kingSquare whiteBishopSquare
         && ((blackBishopSquare =? blockSquare1)
             || nonzero (Z.land (attacks_from_bishop pos blockSquare1)
                                (pieces_of pos weakSide BISHOP)))
      then SCALE_FACTOR_DRAW
      else SCALE_FACTOR_NONE
    else SCALE_FACTOR_NONE.

Definition KBPKN (strongSide : Color) (pos : Position) : ScaleFactor :=
  let weakSide := opp strongSide in
  let pawnSquare := list_at pos PAWN strongSide 0 in
  let strongBishopSquare := list_at pos BISHOP strongSide 0 in
  let weakKingSquare := king_square pos weakSide in
  if (file_of weakKingSquare =? file_of pawnSquare)
     && (relative_rank strongSide pawnSquare
           <? relative_rank strongSide weakKingSquare)
     && (opposite_colors weakKingSquare strongBishopSquare
         || (relative_rank strongSide weakKingSquare <=? RANK_6))
  then SCALE_FACTOR_DRAW
  else SCALE_FACTOR_NONE.

Definition KNPK (strongSide : Color) (pos : Position) : ScaleFactor :=
  let weakSide := opp strongSide in
  let pawnSquare := normalize pos strongSide (list_at pos PAWN strongSide 0) in
  let weakKingSquare := normalize pos strongSide (king_square pos weakSide) in
  if (pawnSquare =? SQ_A7) && (distance SQ_A8 weakKingSquare <=? 1)
  then SCALE_FACTOR_DRAW
  else SCALE_FACTOR_NONE.

Definition KNPKB (strongSide : Color) (pos : Position) : ScaleFactor :=
  let weakSide := opp strongSide in
  let pawnSquare := list_at pos PAWN strongSide 0 in
  let bishopSquare := list_at pos BISHOP weakSide 0 in
  let weakKingSquare := king_square pos weakSide in
  if nonzero (Z.land (forward_bb strongSide pawnSquare)
                     (attacks_from_bishop pos bishopSquare))
  then distance weakKingSquare pawnSquare
  else SCALE_FACTOR_NONE.

Definition KPKP (strongSide : Color) (pos : Position) : ScaleFactor :=
  let weakSide := opp strongSide in
  let whiteKingSquare := normalize pos strongSide (king_square pos strongSide) in
  let blackKingSquare := normalize pos strongSide (king_square pos weakSide) in
  let pawnSquare := normalize pos strongSide (list_at pos PAWN strongSide 0) in
  let us := if Color_eqb strongSide (side_to_move pos) then WHITE else BLACK in
  if (rank_of pawnSquare >=? RANK_5) && negb (file_of pawnSquare =? FILE_A)
  then SCALE_FACTOR_NONE
  else if probe_kpk whiteKingSquare pawnSquare blackKingSquare us
  then SCALE_FACTOR_NONE
  else SCALE_FACTOR_DRAW.

End Evaluators.

End Endgame.
Export Endgame.

(** ** Concrete data for evaluation *)

Module Samples.

(** The values of types.h in the revision of endgame.cpp at hand. *)
Definition types_h : Constants := {|
  VALUE_ZERO := 0;
  VALUE_DRAW := 0;
  VALUE_KNOWN_WIN := 10000;
  PawnValueEg := 258;
  KnightValueMg := 817;
  BishopValueMg := 836;
  RookValueMg := 1270;
  RookValueEg := 1278;
  QueenValueMg := 2521;
  QueenValueEg := 2558;
  SCALE_FACTOR_DRAW := 0;
  SCALE_FACTOR_MAX := 128;
  SCALE_FACTOR_NONE := 255
|}.

(** Collaborators that answer "win" and "one legal move" everywhere;
    they only serve to run the evaluators on sample positions. *)
Definition always_win : Collaborators := {|
  probe_kpk := fun _ _ _ _ => true;
  legal_moves := fun _ => 1%nat
|}.

(** A position from its side to move and the (colour, piece, square)
    triples of its pieces, kept in the order given. *)
Definition PieceType_eqb (a b : PieceType) : bool :=
  match a, b with
  | PAWN, PAWN | KNIGHT, KNIGHT | BISHOP, BISHOP
  | ROOK, ROOK | QUEEN, QUEEN | KING, KING => true
  | _, _ => false
  end.

Definition mk_position (stm : Color)
           (placement : list (Color * PieceType * Square)) : Position :=
  {| side_to_move := stm;
     pieceList := fun c pt =>
       map snd (filter (fun x => Color_eqb (fst (fst x)) c
                                 && PieceType_eqb (snd (fst x)) pt)
                       placement) |}.

(** squares by name: file letter index and rank number *)
Definition sq (file : Z) (rank_number : Z) : Square :=
  make_square file (rank_number - 1).

End Samples.
Export Samples.

(** ** Sample positions *)

(** The position 4k3/8/8/8/8/8/7P/4K3 w: the only white pawn is on h2. *)
Definition pawn_on_h2 : Position :=
  mk_position WHITE [(WHITE, KING, sq 4 1); (WHITE, PAWN, sq 7 2);
                     (BLACK, KING, sq 4 8)].

(** 4k3/8/8/8/8/8/8/2B1K3 w: king and bishop against the lone king. *)
Definition bishop_only : Position :=
  mk_position WHITE [(WHITE, KING, sq 4 1); (WHITE, BISHOP, sq 2 1);
                     (BLACK, KING, sq 4 8)].

(** 7R/8/8/8/3K4/p7/1k6/8 w: rook against a far advanced a-pawn. *)
Definition rook_vs_a_pawn : Position :=
  mk_position WHITE [(WHITE, KING, sq 3 4); (WHITE, ROOK, sq 7 8);
                     (BLACK, KING, sq 1 2); (BLACK, PAWN, sq 0 3)].

(** 4Q3/8/8/6K1/8/8/1kp5/8 w: queen against a c-pawn on its seventh
    rank with its king next to it. *)
Definition queen_vs_c_pawn : Position :=
  mk_position WHITE [(WHITE, KING, sq 6 5); (WHITE, QUEEN, sq 4 8);
                     (BLACK, KING, sq 1 2); (BLACK, PAWN, sq 2 2)].

(** r3k3/8/8/8/8/8/8/3QK3 w: queen against rook. *)
Definition queen_vs_rook : Position :=
  mk_position WHITE [(WHITE, KING, sq 4 1); (WHITE, QUEEN, sq 3 1);
                     (BLACK, KING, sq 4 8); (BLACK, ROOK, sq 0 8)].

(** r7/6k1/7p/8/6P1/7P/6K1/R7 w: no strong pawn is passed and the weak
    king stands in front of both. *)
Definition rooks_and_pawns : Position :=
  mk_position WHITE [(WHITE, KING, sq 6 2); (WHITE, ROOK, sq 0 1);
                     (WHITE, PAWN, sq 6 4); (WHITE, PAWN, sq 7 3);
                     (BLACK, KING, sq 6 7); (BLACK, ROOK, sq 0 8);
                     (BLACK, PAWN, sq 7 6)].

(** 8/1P6/2K5/8/7r/8/2k5/1R6 w: the weak king attacks the rook that
    supports the b-pawn. *)
Definition harassed_rook : Position :=
  mk_position WHITE [(WHITE, KING, sq 2 6); (WHITE, ROOK, sq 1 1);
                     (WHITE, PAWN, sq 1 7);
                     (BLACK, KING, sq 2 2); (BLACK, ROOK, sq 7 4)].

(** 8/1PK5/8/8/7r/6k1/8/1R6 w: the weak king is far from the queening
    square and from the rook; the strong king is next to b8. *)
Definition supported_pawn_king_c7 : Position :=
  mk_position WHITE [(WHITE, KING, sq 2 7); (WHITE, ROOK, sq 1 1);
                     (WHITE, PAWN, sq 1 7);
                     (BLACK, KING, sq 6 3); (BLACK, ROOK, sq 7 4)].

(** 8/1P6/3K4/8/7r/6k1/8/1R6 w: the same with the strong king one
    step further from b8. *)
Definition supported_pawn_king_d6 : Position :=
  mk_position WHITE [(WHITE, KING, sq 3 6); (WHITE, ROOK, sq 1 1);
                     (WHITE, PAWN, sq 1 7);
                     (BLACK, KING, sq 6 3); (BLACK, ROOK, sq 7 4)].

(** 1k6/7p/8/P6n/P3K3/8/8/2B5 w: doubled a-pawns, a dark-squared bishop
    and the weak king next to a8; the weak side has a knight and a
    pawn. *)
Definition wrong_bishop : Position :=
  mk_position WHITE [(WHITE, KING, sq 4 4); (WHITE, BISHOP, sq 2 1);
                     (WHITE, PAWN, sq 0 4); (WHITE, PAWN, sq 0 5);
                     (BLACK, KING, sq 1 8); (BLACK, KNIGHT, sq 7 5);
                     (BLACK, PAWN, sq 7 7)].

(** ** The vocabulary of the properties *)

(** A magnitude seen from the side to move: kept when strongSide is to
    move, negated when the weak side is. *)
Definition for_side_to_move (strongSide : Color) (pos : Position) (v : Value)
  : Value :=
  match strongSide, side_to_move pos with
  | WHITE, WHITE | BLACK, BLACK => v
  | _, _ => - v
  end.

(** The material that the claim on KXK lists as enough to force mate:
    a queen, a rook, a bishop pair, or bishop and knight together. *)
Definition mating_material (pos : Position) (c : Color) : bool :=
  (0 <? count pos QUEEN c)
  || (0 <? count pos ROOK c)
  || bishop_pair pos c
  || ((0 <? count pos BISHOP c) && (0 <? count pos KNIGHT c)).

(** The pattern in which KQKP withholds the material difference: the
    weak pawn on its seventh relative rank on file A, C, F or H with
    its king next to it. *)
Definition KQKP_fortress (weakSide : Color) (pawnSquare kingSquare : Square)
  : bool :=
  (relative_rank weakSide pawnSquare =? RANK_7)
  && (distance kingSquare pawnSquare =? 1)
  && ((file_of pawnSquare =? FILE_A) || (file_of pawnSquare =? FILE_C)
      || (file_of pawnSquare =? FILE_F) || (file_of pawnSquare =? FILE_H)).

(** The position with the weak side of [strongSide] to move. *)
Definition weak_to_move (strongSide : Color) (pos : Position) : Position :=
  if Color_eqb (side_to_move pos) (opp strongSide) then pos
  else swap_side_to_move pos.

(** What the claim on KQKP says as it stands: the difference is withheld
    only for a pawn on a rook file. *)
Definition KQKP_as_claimed {K : Constants} (strongSide : Color) (pos : Position)
  : Value :=
  let weakSide := opp strongSide in
  let pawnSquare := list_at pos PAWN weakSide 0 in
  let close := table_at PushClose
                 (distance (king_square pos strongSide)
                           (king_square pos weakSide)) in
  for_side_to_move strongSide pos
    (close + (if (relative_rank weakSide pawnSquare =? RANK_7)
                 && (distance (king_square pos weakSide) pawnSquare =? 1)
                 && ((file_of pawnSquare =? FILE_A)
                     || (file_of pawnSquare =? FILE_H))
              then 0 else QueenValueEg - PawnValueEg)).

(** The rank-indexed table of the claim on KRPPKRP. *)
Definition KRPPKRP_table : list (Rank * ScaleFactor) :=
  [(RANK_2, 10); (RANK_3, 10); (RANK_4, 15); (RANK_5, 20); (RANK_6, 40)].

(** The distance from the normalized strong king to the queening square
    of the normalized pawn, as KRPKR computes it. *)
Definition king_to_queening_square (strongSide : Color) (pos : Position) : Z :=
  let whiteKingSquare := normalize pos strongSide (king_square pos strongSide) in
  let whitePawnSquare := normalize pos strongSide (list_at pos PAWN strongSide 0) in
  distance whiteKingSquare (make_square (file_of whitePawnSquare) RANK_8).

(** The premises of the claim on the pawn on the seventh rank supported
    by the rook from behind, in the normalized frame. *)
Definition rook_behind_seventh_rank_pawn (strongSide : Color) (pos : Position)
  : Prop :=
  let weakSide := opp strongSide in
  let whiteKingSquare := normalize pos strongSide (king_square pos strongSide) in
  let blackKingSquare := normalize pos strongSide (king_square pos weakSide) in
  let whiteRookSquare := normalize pos strongSide (list_at pos ROOK strongSide 0) in
  let whitePawnSquare := normalize pos strongSide (list_at pos PAWN strongSide 0) in
  let file := file_of whitePawnSquare in
  let queeningSquare := make_square file RANK_8 in
  let tempo := b2z (Color_eqb (side_to_move pos) strongSide) in
  rank_of whitePawnSquare = RANK_7
  /\ file_of whiteRookSquare = file
  /\ rank_of whiteRookSquare < rank_of whitePawnSquare
  /\ distance whiteKingSquare queeningSquare
     < distance blackKingSquare queeningSquare - 2 + tempo.

(** The two further tests that the rule of KRPKR makes: the pawn is not
    an a-pawn, and the weak king is not closer to the strong rook than
    the strong king is to the queening square (tempo counted). *)
Definition rook_not_harassed (strongSide : Color) (pos : Position) : Prop :=
  let weakSide := opp strongSide in
  let whiteKingSquare := normalize pos strongSide (king_square pos strongSide) in
  let blackKingSquare := normalize pos strongSide (king_square pos weakSide) in
  let whiteRookSquare := normalize pos strongSide (list_at pos ROOK strongSide 0) in
  let whitePawnSquare := normalize pos strongSide (list_at pos PAWN strongSide 0) in
  let file := file_of whitePawnSquare in
  let queeningSquare := make_square file RANK_8 in
  let tempo := b2z (Color_eqb (side_to_move pos) strongSide) in
  file <> FILE_A
  /\ distance whiteKingSquare queeningSquare
     < distance blackKingSquare whiteRookSquare + tempo.

(** The two results of a rule without grading: the forced draw or the
    sentinel. *)
Definition draw_or_none {K : Constants} (v : ScaleFactor) : Prop :=
  v = SCALE_FACTOR_DRAW \/ v = SCALE_FACTOR_NONE.

(** A graded value: above SCALE_FACTOR_DRAW and at most
    SCALE_FACTOR_MAX. *)
Definition graded {K : Constants} (v : ScaleFactor) : Prop :=
  SCALE_FACTOR_DRAW < v <= SCALE_FACTOR_MAX.

(** The result of an evaluator whose rules all grade: the sentinel, or
    a graded value that is one of [values]. *)
Definition graded_among {K : Constants} (values : list ScaleFactor)
           (v : ScaleFactor) : Prop :=
  v = SCALE_FACTOR_NONE \/ (graded v /\ In v values).

(** One of the five rules of KRPKR that return SCALE_FACTOR_DRAW
    applies: the tests of these rules, in the order of the source. *)
Definition KRPKR_draw_rule (strongSide : Color) (pos : Position) : bool :=
  let weakSide := opp strongSide in
  let whiteKingSquare := normalize pos strongSide (king_square pos strongSide) in
  let blackKingSquare := normalize pos strongSide (king_square pos weakSide) in
  let whiteRookSquare := normalize pos strongSide (list_at pos ROOK strongSide 0) in
  let whitePawnSquare := normalize pos strongSide (list_at pos PAWN strongSide 0) in
  let blackRookSquare := normalize pos strongSide (list_at pos ROOK weakSide 0) in
  let file := file_of whitePawnSquare in
  let rank := rank_of whitePawnSquare in
  let queeningSquare := make_square file RANK_8 in
  let tempo := b2z (Color_eqb (side_to_move pos) strongSide) in
  ((rank <=? RANK_5)
   && (distance blackKingSquare queeningSquare <=? 1)
   && (whiteKingSquare <=? SQ_H5)
   && ((rank_of blackRookSquare =? RANK_6)
       || ((rank <=? RANK_3) && negb (rank_of whiteRookSquare =? RANK_6))))
  || ((rank =? RANK_6)
      && (distance blackKingSquare queeningSquare <=? 1)
      && (rank_of whiteKingSquare + tempo <=? RANK_6)
      && ((rank_of blackRookSquare =? RANK_1)
          || ((tempo =? 0)
              && (distance_int (file_of blackRookSquare) file >=? 3))))
  || ((rank >=? RANK_6)
      && (blackKingSquare =? queeningSquare)
      && (rank_of blackRookSquare =? RANK_1)
      && ((tempo =? 0) || (distance whiteKingSquare whitePawnSquare >=? 2)))
  || ((whitePawnSquare =? SQ_A7)
      && (whiteRookSquare =? SQ_A8)
      && ((blackKingSquare =? SQ_H7) || (blackKingSquare =? SQ_G7))
      && (file_of blackRookSquare =? FILE_A)
      && ((rank_of blackRookSquare <=? RANK_3)
          || (file_of whiteKingSquare >=? FILE_D)
          || (rank_of whiteKingSquare <=? RANK_5)))
  || ((rank <=? RANK_5)
      && (blackKingSquare =? whitePawnSquare + DELTA_N)
      && (distance whiteKingSquare whitePawnSquare - tempo >=? 2)
      && (distance whiteKingSquare blackRookSquare - tempo >=? 2)).

(** 8/2k5/8/8/P2b4/8/8/1N2K3 w: knight and a-pawn against a bishop that
    attacks a7, a square in front of the pawn; the weak king is three
    squares from the pawn. *)
Definition knight_pawn_vs_bishop : Position :=
  mk_position WHITE [(WHITE, KING, sq 4 1); (WHITE, KNIGHT, sq 1 1);
                     (WHITE, PAWN, sq 0 4); (BLACK, KING, sq 2 7);
                     (BLACK, BISHOP, sq 3 4)].

(** ** Symmetries of the board *)

(** The position mirrored left to right: every piece moves from file f
    to file 7 - f ([s ^ 7]), the side to move is kept. *)
Definition mirror_files (pos : Position) : Position :=
  {| side_to_move := side_to_move pos;
     pieceList := fun c pt => map (fun s => Z.lxor s 7) (pieceList pos c pt) |}.

(** The position with the colours exchanged: every piece changes colour
    and moves to the vertically flipped square ([~s]), and the other
    side is to move. *)
Definition flip_colors (pos : Position) : Position :=
  {| side_to_move := opp (side_to_move pos);
     pieceList := fun c pt => map flip (pieceList pos (opp c) pt) |}.

(** One of the four corner squares a1, h1, a8, h8. *)
Definition is_corner (s : Square) : bool :=
  ((file_of s =? FILE_A) || (file_of s =? FILE_H))
  && ((rank_of s =? RANK_1) || (rank_of s =? RANK_8)).

(** A score that does not count against the strong side: a magnitude
    [m >= 0] seen from the side to move. *)
Definition favours_strong_side (strongSide : Color) (pos : Position)
           (v : Value) : Prop :=
  exists m, 0 <= m /\ v = for_side_to_move strongSide pos m.

(** 7k/8/5K2/8/8/8/8/1NB5 w: bishop and knight, the weak king in the
    dark corner h8 and the bishop on the dark square c1. *)
Definition bishop_and_knight : Position :=
  mk_position WHITE [(WHITE, KING, sq 5 6); (WHITE, BISHOP, sq 2 1);
                     (WHITE, KNIGHT, sq 1 1); (BLACK, KING, sq 7 8)].

(** 1n2k3/8/8/8/8/8/8/R3K3 w: rook against knight. *)
Definition rook_vs_knight : Position :=
  mk_position WHITE [(WHITE, KING, sq 4 1); (WHITE, ROOK, sq 0 1);
                     (BLACK, KING, sq 4 8); (BLACK, KNIGHT, sq 1 8)].

(** r3k3/8/4K3/8/8/8/8/3Q4 w: queen against rook with the kings two
    squares apart. *)
Definition queen_vs_rook_close : Position :=
  mk_position WHITE [(WHITE, KING, sq 4 6); (WHITE, QUEEN, sq 3 1);
                     (BLACK, KING, sq 4 8); (BLACK, ROOK, sq 0 8)].

(** What the checks on the constants of types.h below ask: a drawn
    score of 0 and piece values that are not negative, with the rook
    worth at least 7 and the queen at least a rook and a pawn in the
    endgame. *)
Definition plausible_values {K : Constants} : Prop :=
  VALUE_DRAW = 0 /\ 0 <= VALUE_KNOWN_WIN
  /\ 0 <= PawnValueEg <= QueenValueEg
  /\ 7 <= RookValueEg <= QueenValueEg
  /\ 0 <= KnightValueMg /\ 0 <= BishopValueMg
  /\ 0 <= RookValueMg /\ 0 <= QueenValueMg.

(** [normalize] as a function of the strong pawn's square alone. *)
Definition normalize_by (pawnSquare : Square) (strongSide : Color)
           (square : Square) : Square :=
  let square :=
    if file_of pawnSquare >=? FILE_E then Z.lxor square 7 else square in
  if Color_eqb strongSide BLACK then flip square else square.

(** The promotion square of a pawn of [c] on [pawnSquare]. *)
Definition queening_square (c : Color) (pawnSquare : Square) : Square :=
  relative_square c (make_square (file_of pawnSquare) RANK_8).

(** [a] is on a rank in front of the rank of [k], seen from [c]. *)
Definition ahead_of (c : Color) (k a : Square) : bool :=
  match c with
  | WHITE => rank_of k <? rank_of a
  | BLACK => rank_of a <? rank_of k
  end.

(** A pawn of the colour other than [strongSide] on [p] attacks the
    square [r]. *)
Definition defends (strongSide : Color) (p r : Square) : bool :=
  (distance_file r p =? 1)
  && (rank_of p =? rank_of r + match strongSide with
                               | WHITE => 1
                               | BLACK => -1
                               end).

(** 4k3/p7/8/4P3/8/4K3/8/8 w: an e-pawn on its fifth rank against an
    a-pawn. *)
Definition advanced_e_pawn : Position :=
  mk_position WHITE [(WHITE, KING, sq 4 3); (WHITE, PAWN, sq 4 5);
                     (BLACK, KING, sq 4 8); (BLACK, PAWN, sq 0 7)].

(** 6k1/7P/8/8/8/8/8/1N2K3 w: knight and h-pawn on the seventh rank,
    the weak king next to h8. *)
Definition knight_and_h_pawn : Position :=
  mk_position WHITE [(WHITE, KING, sq 4 1); (WHITE, KNIGHT, sq 1 1);
                     (WHITE, PAWN, sq 7 7); (BLACK, KING, sq 6 8)].

(** k7/8/P7/P7/8/8/8/4K3 w: doubled a-pawns with the weak king in front
    of them. *)
Definition doubled_a_pawns : Position :=
  mk_position WHITE [(WHITE, KING, sq 4 1); (WHITE, PAWN, sq 0 5);
                     (WHITE, PAWN, sq 0 6); (BLACK, KING, sq 0 8)].

(** 1k6/p7/1r6/3Q4/4K3/8/8/8 w: the rook on its third rank defended by
    the a-pawn next to its king. *)
Definition rook_fortress : Position :=
  mk_position WHITE [(WHITE, KING, sq 4 4); (WHITE, QUEEN, sq 3 5);
                     (BLACK, KING, sq 1 8); (BLACK, ROOK, sq 1 6);
                     (BLACK, PAWN, sq 0 7)].

(** 3b4/6k1/8/P7/8/8/8/4K2R w: rook and a-pawn on its fifth rank
    against a bishop on squares of the pawn's colour. *)
Definition rook_a_pawn_vs_bishop : Position :=
  mk_position WHITE [(WHITE, KING, sq 4 1); (WHITE, ROOK, sq 7 1);
                     (WHITE, PAWN, sq 0 5); (BLACK, KING, sq 6 7);
                     (BLACK, BISHOP, sq 3 8)].

(** ** Material keys and the registry of endgames *)

Module Registry.

Import Ascii String.
Local Open Scope string_scope.

Definition Key := Z.

(** [std::string::find(c, pos)]: the index of the first [c] at or after
    [pos], [None] for [npos]. *)
Fixpoint find (c : ascii) (pos : nat) (s : string) : option nat :=
  match s with
  | EmptyString => None
  | String a r =>
      match pos with
      | O => if Ascii.eqb a c then Some O else option_map S (find c O r)
      | S p => option_map S (find c p r)
      end
  end.

(** [s.substr(pos)] for [pos <= s.length()] *)
Fixpoint substr_from (pos : nat) (s : string) : string :=
  match pos, s with
  | O, _ => s
  | S p, EmptyString => EmptyString
  | S p, String _ r => substr_from p r
  end.

(** [s.substr(0, n)] *)
Fixpoint substr_to (n : nat) (s : string) : string :=
  match n, s with
  | O, _ => EmptyString
  | S p, EmptyString => EmptyString
  | S p, String a r => String a (substr_to p r)
  end.

(** [tolower] in the C locale *)
Definition tolower (a : ascii) : ascii :=
  let n := nat_of_ascii a in
  if (65 <=? n)%nat && (n <=? 90)%nat then ascii_of_nat (n + 32) else a.

Fixpoint transform_tolower (s : string) : string :=
  match s with
  | EmptyString => EmptyString
  | String a r => String (tolower a) (transform_tolower r)
  end.

(** [char(8 - len + '0')], computed in unsigned arithmetic and cut to
    a byte. *)
Definition empty_squares (len : nat) : ascii :=
  ascii_of_N (Z.to_N ((8 - Z.of_nat len + 48) mod 256)).

(** The FEN string that [key] forges from a code such as "KBPKN";
    [None] stands for the [std::out_of_range] that [substr] throws when
    [find] returns [npos]. *)
Definition fenString (code : string) (color : Color) : option string :=
  match find "K" 1 code with
  | None => None
  | Some k =>
      let weak := substr_from k code in
      let strong := substr_to k code in
      let side0 := match color with
                   | WHITE => transform_tolower weak
                   | BLACK => weak
                   end in
      let side1 := match color with
                   | WHITE => strong
                   | BLACK => transform_tolower strong
                   end in
      Some (side0 ++ String (empty_squares (length side0)) "/8/8/8/8/8/8/"
            ++ side1 ++ String (empty_squares (length side1)) " w - - 0 10")
  end.

(** Modelled from the spec: [Position(fenString, false,
    NULL).material_key()], the signature of the piece census of the
    position that the board-construction collaborator builds, is a
    parameter. *)
Class PositionSetup : Type := {
  material_key : string -> Key
}.

Definition key {P : PositionSetup} (code : string) (color : Color)
  : option Key :=
  option_map material_key (fenString code color).

(** Modelled from the spec: endgame.h is not under src/.  The
    configurations are the template arguments of endgame.cpp; a binding
    is a configuration with its strong side, and the registry holds one
    map for the Value evaluators and one for the ScaleFactor
    evaluators. *)
Inductive EndgameType : Type :=
| KNNK | KXK | KBNK | KPK | KRKP | KRKB | KRKN | KQKP | KQKR
| KBPsK | KQKRPs | KRPKR | KRPKB | KRPPKRP | KPsK | KBPKB | KBPPKB
| KBPKN | KNPK | KNPKB | KPKP.

(** The return type of [Endgame<E>::operator()] in endgame.cpp. *)
Definition returns_scale_factor (E : EndgameType) : bool :=
  match E with
  | KNNK | KXK | KBNK | KPK | KRKP | KRKB | KRKN | KQKP | KQKR => false
  | _ => true
  end.

Definition Binding : Type := (EndgameType * Color)%type.

Definition Map : Type := Key -> option Binding.

Definition empty_map : Map := fun _ => None.

(** [m[k] = v] *)
Definition assign (k : Key) (v : Binding) (m : Map) : Map :=
  fun k' => if (k' =? k)%Z then Some v else m k'.

Record Endgames : Type := { m1 : Map; m2 : Map }.

(** the call [map] on a null pointer to [Endgame<E>]: the map for the
    return type of [E] *)
Definition map_of (E : EndgameType) (eg : Endgames) : Map :=
  if returns_scale_factor E then m2 eg else m1 eg.

Definition with_map (E : EndgameType) (m : Map) (eg : Endgames) : Endgames :=
  if returns_scale_factor E
  then {| m1 := m1 eg; m2 := m |}
  else {| m1 := m; m2 := m2 eg |}.

Section Construction.
Context {P : PositionSetup}.

(** [Endgames::add<E>(code)] *)
Definition add (E : EndgameType) (code : string) (eg : Endgames)
  : option Endgames :=
  match key code WHITE with
  | None => None
  | Some kw =>
      let eg := with_map E (assign kw (E, WHITE) (map_of E eg)) eg in
      match key code BLACK with
      | None => None
      | Some kb => Some (with_map E (assign kb (E, BLACK) (map_of E eg)) eg)
      end
  end.

Definition and_then (r : option Endgames) (f : Endgames -> option Endgames)
  : option Endgames :=
  match r with
  | None => None
  | Some eg => f eg
  end.

(** [Endgames::Endgames()] *)
Definition Endgames_ctor : option Endgames :=
  and_then (and_then (and_then (and_then (and_then (and_then (and_then (and_then
  (and_then (and_then (and_then (and_then (and_then (and_then (and_then (and_then
    (Some {| m1 := empty_map; m2 := empty_map |})
    (add KPK "KPK"))
    (add KNNK "KNNK"))
    (add KBNK "KBNK"))
    (add KRKP "KRKP"))
    (add KRKB "KRKB"))
    (add KRKN "KRKN"))
    (add KQKP "KQKP"))
    (add KQKR "KQKR"))
    (add KNPK "KNPK"))
    (add KNPKB "KNPKB"))
    (add KRPKR "KRPKR"))
    (add KRPKB "KRPKB"))
    (add KBPKB "KBPKB"))
    (add KBPKN "KBPKN"))
    (add KBPPKB "KBPPKB"))
    (add KRPPKRP "KRPPKRP").

End Construction.

(** The calls of the constructor, by map. *)
Definition value_endgames : list (EndgameType * string) :=
  [(KPK, "KPK"); (KNNK, "KNNK"); (KBNK, "KBNK"); (KRKP, "KRKP");
   (KRKB, "KRKB"); (KRKN, "KRKN"); (KQKP, "KQKP"); (KQKR, "KQKR")].

Definition scale_endgames : list (EndgameType * string) :=
  [(KNPK, "KNPK"); (KNPKB, "KNPKB"); (KRPKR, "KRPKR"); (KRPKB, "KRPKB");
   (KBPKB, "KBPKB"); (KBPKN, "KBPKN"); (KBPPKB, "KBPPKB");
   (KRPPKRP, "KRPPKRP")].

(** The keys that the constructor forges for a list of calls, White
    first. *)
Definition forged_keys {P : PositionSetup} (l : list (EndgameType * string))
  : list (option Key) :=
  flat_map (fun x => [key (snd x) WHITE; key (snd x) BLACK]) l.

Fixpoint all_distinct (l : list (option Key)) : bool :=
  match l with
  | [] => true
  | None :: _ => false
  | Some k :: r =>
      negb (existsb (fun o => match o with
                              | Some k' => (k' =? k)%Z
                              | None => false
                              end) r)
      && all_distinct r
  end.

(** A letter of a FEN rank that stands for a white piece. *)
Definition is_upper (a : ascii) : bool :=
  let n := nat_of_ascii a in (65 <=? n)%nat && (n <=? 90)%nat.

Fixpoint all_upper (s : string) : bool :=
  match s with
  | EmptyString => true
  | String a r => is_upper a && all_upper r
  end.

Fixpoint has_K (s : string) : bool :=
  match s with
  | EmptyString => false
  | String a r => Ascii.eqb a "K" || has_K r
  end.

(** A key function for the sample runs: the bytes of the FEN string
    read as a number in base 256. *)
Fixpoint bytes_as_number (s : string) : Z :=
  match s with
  | EmptyString => 1
  | String a r => Z.of_nat (nat_of_ascii a) + 256 * bytes_as_number r
  end.

Definition sample_setup : PositionSetup := {| material_key := bytes_as_number |}.

(** The assignments that the constructor makes for a list of calls, in
    the order it makes them. *)
Definition bindings {P : PositionSetup} (l : list (EndgameType * string))
  : list (Key * Binding) :=
  flat_map (fun x => match key (snd x) WHITE, key (snd x) BLACK with
                     | Some kw, Some kb =>
                         [(kw, (fst x, WHITE)); (kb, (fst x, BLACK))]
                     | _, _ => []
                     end) l.

(** A sequence of assignments to a map. *)
Definition assign_all (l : list (Key * Binding)) (m : Map) : Map :=
  fold_left (fun m kv => assign (fst kv) (snd kv) m) l m.

End Registry.

(** 4k3/8/8/4P3/8/8/3B4/4K2n w: bishop and e-pawn against knight, the
    weak king on the pawn's file in front of it. *)
Definition blockaded_e_pawn : Position :=
  mk_position WHITE [(WHITE, KING, sq 4 1); (WHITE, BISHOP, sq 3 2);
                     (WHITE, PAWN, sq 4 5); (BLACK, KING, sq 4 8);
                     (BLACK, KNIGHT, sq 7 1)].

(** n3k3/8/8/8/8/8/8/R3K3 w: rook against knight with the knight four
    files from its king. *)
Definition rook_vs_far_knight : Position :=
  mk_position WHITE [(WHITE, KING, sq 4 1); (WHITE, ROOK, sq 0 1);
                     (BLACK, KING, sq 4 8); (BLACK, KNIGHT, sq 0 8)].

(** A move generator that finds no move anywhere. *)
Definition never_a_move : Collaborators := {|
  probe_kpk := fun _ _ _ _ => false;
  legal_moves := fun _ => 0%nat
|}.

(** ** The KPK evaluator on the board *)

(** What the spec says of normalize, in coordinates: the square is
    mirrored horizontally (file f becomes file 7 - f) when the strong
    pawn's file lies in the right half of the board (files E to H), and
    mirrored vertically (rank r becomes rank 7 - r) when strongSide is
    BLACK. *)
Definition normalize_spec (pos : Position) (strongSide : Color)
           (square : Square) : Square :=
  let file := if FILE_E <=? file_of (list_at pos PAWN strongSide 0)
              then FILE_H - file_of square
              else file_of square in
  let rank := match strongSide with
              | WHITE => rank_of square
              | BLACK => RANK_8 - rank_of square
              end in
  make_square file rank.

(** A stand-in bitbase that knows a single won position, the strong
    king on d6 in front of its pawn on d5 against the king on d8 (won
    whoever is to move), and reports no win anywhere else. *)
Definition king_in_front_on_d6 : Collaborators := {|
  probe_kpk := fun whiteKingSquare pawnSquare blackKingSquare _ =>
    (whiteKingSquare =? sq 3 6) && (pawnSquare =? sq 3 5)
    && (blackKingSquare =? sq 3 8);
  legal_moves := fun _ => 1%nat
|}.

(** 8/8/8/8/4p3/4k3/8/4K3 w: Black has the pawn, on e4 behind its king
    on e3, and White is to move.  Seen with Black as White and the pawn
    on the left half, the strong king is on d6, the pawn on d5 and the
    weak king on d8. *)
Definition black_e_pawn : Position :=
  mk_position WHITE [(WHITE, KING, sq 4 1); (BLACK, KING, sq 4 3);
                     (BLACK, PAWN, sq 4 4)].

(** 6k1/8/8/8/4P3/7b/8/2B1K3 w: bishop and e-pawn against a bishop of
    the other colour, the pawn on its fourth rank and the weak king
    away from the pawn's file. *)
Definition opposite_bishops_e_pawn : Position :=
  mk_position WHITE [(WHITE, KING, sq 4 1); (WHITE, BISHOP, sq 2 1);
                     (WHITE, PAWN, sq 4 4); (BLACK, KING, sq 6 8);
                     (BLACK, BISHOP, sq 7 3)].

(** 8/8/4k3/4P3/4P3/7b/8/2B1K3 w: bishops of opposite colours, doubled
    e-pawns, the weak king on the light square in front of them. *)
Definition doubled_e_pawns : Position :=
  mk_position WHITE [(WHITE, KING, sq 4 1); (WHITE, BISHOP, sq 2 1);
                     (WHITE, PAWN, sq 4 4); (WHITE, PAWN, sq 4 5);
                     (BLACK, KING, sq 4 6); (BLACK, BISHOP, sq 7 3)].

(** ** Arithmetic of squares *)

Ltac bool_prop :=
  repeat match goal with
  | H : _ && _ = true |- _ => apply andb_true_iff in H; destruct H
  | H : _ || _ = false |- _ => apply orb_false_iff in H; destruct H
  | H : negb _ = true |- _ => apply negb_true_iff in H
  | H : negb _ = false |- _ => apply negb_false_iff in H
  | H : context [(_ >=? _)] |- _ => rewrite Z.geb_leb in H
  | H : context [(_ >? _)] |- _ => rewrite Z.gtb_ltb in H
  | H : (_ =? _) = true |- _ => apply Z.eqb_eq in H
  | H : (_ =? _) = false |- _ => apply Z.eqb_neq in H
  | H : (_ <=? _) = true |- _ => apply Z.leb_le in H
  | H : (_ <=? _) = false |- _ => apply Z.leb_gt in H
  | H : (_ <? _) = true |- _ => apply Z.ltb_lt in H
  | H : (_ <? _) = false |- _ => apply Z.ltb_ge in H
  end.

Lemma is_ok_range (s : Square) : is_ok s = true <-> 0 <= s < 64.
Proof.
  unfold is_ok, SQ_A1, SQUARE_NB. rewrite andb_true_iff, Z.leb_le, Z.ltb_lt.
  tauto.
Qed.

Lemma squares_complete (s : Square) : is_ok s = true -> In s squares.
Proof.
  intros H. apply is_ok_range in H. unfold squares.
  apply in_map_iff. exists (Z.to_nat s). split; [lia|].
  apply in_seq. lia.
Qed.

(** Checking a decidable property of one square on the whole board. *)
Lemma on_every_square (P : Square -> bool) :
  forallb P squares = true -> forall s, is_ok s = true -> P s = true.
Proof.
  intros H s Hs. rewrite forallb_forall in H. auto using squares_complete.
Qed.

Lemma on_every_pair (P : Square -> Square -> bool) :
  forallb (fun a => forallb (P a) squares) squares = true ->
  forall a b, is_ok a = true -> is_ok b = true -> P a b = true.
Proof.
  intros H a b Ha Hb.
  apply (on_every_square (P a)); [|exact Hb].
  apply (on_every_square (fun a => forallb (P a) squares) H a Ha).
Qed.

Lemma file_of_range (s : Square) : 0 <= file_of s <= 7.
Proof.
  unfold file_of.
  assert (E : Z.land s 7 = s mod 8) by (apply (Z.land_ones s 3); lia).
  rewrite E. pose proof (Z.mod_pos_bound s 8). lia.
Qed.

Lemma rank_of_range (s : Square) : is_ok s = true -> 0 <= rank_of s <= 7.
Proof.
  intros H. apply is_ok_range in H. unfold rank_of.
  rewrite Z.shiftr_div_pow2 by lia. change (2 ^ 3) with 8.
  split; [apply Z.div_pos; lia|].
  assert (s / 8 < 8) by (apply Z.div_lt_upper_bound; lia). lia.
Qed.

Lemma square_decompose (s : Square) : s = 8 * rank_of s + file_of s.
Proof.
  unfold rank_of, file_of. change 7 with (Z.ones 3).
  rewrite Z.land_ones, Z.shiftr_div_pow2 by lia. change (2 ^ 3) with 8.
  apply Z.div_mod. lia.
Qed.

Lemma distance_int_nonneg (x y : Z) : 0 <= distance_int x y.
Proof. unfold distance_int. destruct (Z.ltb_spec x y); lia. Qed.

Lemma distance_int_abs (x y : Z) : distance_int x y = Z.abs (x - y).
Proof. unfold distance_int. destruct (Z.ltb_spec x y); lia. Qed.

Lemma distance_nonneg (a b : Square) : 0 <= distance a b.
Proof.
  unfold distance, distance_file.
  pose proof (distance_int_nonneg (file_of a) (file_of b)). lia.
Qed.

Lemma distance_refl (a : Square) : distance a a = 0.
Proof.
  unfold distance, distance_file, distance_rank.
  rewrite !distance_int_abs. lia.
Qed.

Lemma distance_upper (a b : Square) :
  is_ok a = true -> is_ok b = true -> distance a b <= 7.
Proof.
  intros Ha Hb. unfold distance, distance_file, distance_rank.
  rewrite !distance_int_abs.
  pose proof (file_of_range a). pose proof (file_of_range b).
  pose proof (rank_of_range a Ha). pose proof (rank_of_range b Hb). lia.
Qed.

Lemma distance_zero (a b : Square) : distance a b = 0 -> a = b.
Proof.
  unfold distance, distance_file, distance_rank. rewrite !distance_int_abs.
  intros H. rewrite (square_decompose a), (square_decompose b). lia.
Qed.

Lemma distance_positive (a b : Square) : a <> b -> 1 <= distance a b.
Proof.
  intros Hne. pose proof (distance_nonneg a b).
  destruct (Z.eq_dec (distance a b) 0) as [E|E]; [|lia].
  apply distance_zero in E. contradiction.
Qed.

Lemma log2_below_64 (x : Z) : 0 <= x < 64 -> Z.log2 x < 6.
Proof.
  intros H. destruct (Z.eq_dec x 0) as [->|]; [simpl; lia|].
  apply (Z.log2_lt_pow2 x 6); lia.
Qed.

Lemma lxor_is_ok (s k : Z) :
  is_ok s = true -> 0 <= k < 64 -> is_ok (Z.lxor s k) = true.
Proof.
  intros Hs Hk. apply is_ok_range in Hs. apply is_ok_range.
  assert (H : 0 <= Z.lxor s k) by (apply Z.lxor_nonneg; lia).
  split; [exact H|].
  destruct (Z.eq_dec (Z.lxor s k) 0) as [E|E]; [lia|].
  apply (Z.log2_lt_pow2 (Z.lxor s k) 6); [lia|].
  eapply Z.le_lt_trans; [apply Z.log2_lxor; lia|].
  apply Z.max_lub_lt; apply log2_below_64; lia.
Qed.

Lemma lxor_twice (s k : Z) : Z.lxor (Z.lxor s k) k = s.
Proof. rewrite Z.lxor_assoc, Z.lxor_nilpotent, Z.lxor_0_r. reflexivity. Qed.

Lemma lxor_fixed (s k : Z) : Z.lxor s k = s -> k = 0.
Proof.
  intros H.
  assert (E : Z.lxor s (Z.lxor s k) = Z.lxor s s) by (rewrite H; reflexivity).
  rewrite <- Z.lxor_assoc, Z.lxor_nilpotent, Z.lxor_0_l in E. exact E.
Qed.

Lemma flip_is_ok (s : Square) : is_ok s = true -> is_ok (flip s) = true.
Proof. intros H. apply lxor_is_ok; [exact H|lia]. Qed.

Lemma normalize_is_ok (pos : Position) (c : Color) (s : Square) :
  is_ok s = true -> is_ok (normalize pos c s) = true.
Proof.
  intros H. unfold normalize.
  destruct (_ >=? _); destruct (Color_eqb c BLACK);
    auto using flip_is_ok, lxor_is_ok.
  - apply flip_is_ok, lxor_is_ok; [exact H|lia].
  - apply lxor_is_ok; [exact H|lia].
Qed.

Lemma mirror_coordinates (s : Square) :
  is_ok s = true ->
  file_of (Z.lxor s 7) = 7 - file_of s /\ rank_of (Z.lxor s 7) = rank_of s
  /\ file_of (flip s) = file_of s /\ rank_of (flip s) = 7 - rank_of s.
Proof.
  intros H.
  pose proof (on_every_square
    (fun s => (file_of (Z.lxor s 7) =? 7 - file_of s)
              && (rank_of (Z.lxor s 7) =? rank_of s)
              && (file_of (flip s) =? file_of s)
              && (rank_of (flip s) =? 7 - rank_of s)) eq_refl s H) as E.
  cbv beta in E. bool_prop. auto.
Qed.

Lemma Color_eqb_eq (a b : Color) : Color_eqb a b = true <-> a = b.
Proof. destruct a, b; simpl; split; congruence. Qed.

Lemma Color_eqb_opp (a : Color) : Color_eqb a (opp a) = false.
Proof. destruct a; reflexivity. Qed.

Lemma Color_eqb_sym (a b : Color) : Color_eqb a b = Color_eqb b a.
Proof. destruct a, b; reflexivity. Qed.

(** ** The symmetry normalizer *)

Section Normalizer.

Variable pos : Position.
Variable strongSide : Color.

(** the two mirrors that [normalize] applies in this position *)
Let horizontal : bool := file_of (list_at pos PAWN strongSide 0) >=? FILE_E.
Let vertical : bool := Color_eqb strongSide BLACK.

Lemma normalize_as_xor (square : Square) :
  normalize pos strongSide square
  = Z.lxor square (Z.lxor (if horizontal then 7 else 0)
                          (if vertical then 56 else 0)).
Proof.
  unfold normalize, flip, horizontal, vertical.
  destruct (_ >=? _); destruct (Color_eqb strongSide BLACK); cbv iota.
  - rewrite Z.lxor_assoc. reflexivity.
  - reflexivity.
  - reflexivity.
  - rewrite Z.lxor_0_r. reflexivity.
Qed.

Lemma normalize_twice (square : Square) :
  normalize pos strongSide (normalize pos strongSide square) = square.
Proof. rewrite !normalize_as_xor. apply lxor_twice. Qed.

Lemma normalize_fixed (square : Square) :
  normalize pos strongSide square = square <->
  horizontal = false /\ vertical = false.
Proof.
  rewrite normalize_as_xor. split.
  - intros H. apply lxor_fixed in H. revert H.
    destruct horizontal; destruct vertical; simpl;
      intros H; try discriminate H; auto.
  - intros [Hh Hv]. rewrite Hh, Hv. simpl. apply Z.lxor_0_r.
Qed.

(** C6 (as amended): [normalize] is an involution, not an idempotent
    map.  Normalizing an already normalized square with the same
    position and the same strongSide gives back the original square;
    the normalized square comes back unchanged exactly when no mirror
    applies, that is when the pawn is on files A to D and strongSide
    is WHITE.  On a square of the board the horizontal mirror sends
    file f to 7 - f when the pawn's file is E to H, and the vertical
    mirror sends rank r to 7 - r when strongSide is BLACK. *)
Theorem normalize_involution (square : Square) :
  is_ok square = true ->
  normalize pos strongSide (normalize pos strongSide square) = square
  /\ (normalize pos strongSide (normalize pos strongSide square)
        = normalize pos strongSide square
      <-> (file_of (list_at pos PAWN strongSide 0) <? FILE_E) = true
          /\ strongSide = WHITE)
  /\ file_of (normalize pos strongSide square)
       = (if file_of (list_at pos PAWN strongSide 0) >=? FILE_E
          then 7 - file_of square else file_of square)
  /\ rank_of (normalize pos strongSide square)
       = (if Color_eqb strongSide BLACK
          then 7 - rank_of square else rank_of square).
Proof.
  intros Hok. split; [apply normalize_twice|]. split.
  - rewrite normalize_twice. split.
    + intros H. symmetry in H. apply normalize_fixed in H.
      destruct H as [Hh Hv]. unfold horizontal in Hh. unfold vertical in Hv.
      rewrite Z.geb_leb in Hh. apply Z.leb_gt in Hh.
      split; [apply Z.ltb_lt; exact Hh|].
      destruct strongSide; [reflexivity|discriminate].
    + intros [Hf Hc]. symmetry. apply normalize_fixed.
      unfold horizontal, vertical. split; [|rewrite Hc; reflexivity].
      rewrite Z.geb_leb. apply Z.leb_gt. apply Z.ltb_lt. exact Hf.
  - unfold normalize.
    destruct (mirror_coordinates square Hok) as (F7 & R7 & F56 & R56).
    assert (Hok7 : is_ok (Z.lxor square 7) = true)
      by (apply lxor_is_ok; [exact Hok|lia]).
    destruct (mirror_coordinates (Z.lxor square 7) Hok7) as (_ & _ & G56 & S56).
    destruct (_ >=? _); destruct (Color_eqb strongSide BLACK);
      rewrite ?G56, ?S56, ?F56, ?R56, ?F7, ?R7; auto.
Qed.

End Normalizer.

(** C6 (as stated) fails: with the pawn on the h-file the normalized
    image of a1 is h1, and normalizing h1 again gives a1, not h1. *)
Lemma normalize_not_idempotent :
  count pawn_on_h2 PAWN WHITE = 1
  /\ normalize pawn_on_h2 WHITE SQ_A1 = SQ_H1
  /\ normalize pawn_on_h2 WHITE (normalize pawn_on_h2 WHITE SQ_A1)
     <> normalize pawn_on_h2 WHITE SQ_A1.
Proof. repeat split. vm_compute. discriminate. Qed.

Lemma normalize_involution_witness :
  is_ok SQ_A1 = true
  /\ normalize pawn_on_h2 WHITE (normalize pawn_on_h2 WHITE SQ_A1) = SQ_A1.
Proof.
  split; [reflexivity|].
  apply (normalize_involution pawn_on_h2 WHITE SQ_A1). reflexivity.
Defined.

(** ** Value evaluators *)

Lemma count_nonneg (pos : Position) (pt : PieceType) (c : Color) :
  0 <= count pos pt c.
Proof. unfold count. lia. Qed.

Lemma count_test (pos : Position) (pt : PieceType) (c : Color) :
  negb (count pos pt c =? 0) = (0 <? count pos pt c).
Proof.
  pose proof (count_nonneg pos pt c).
  destruct (Z.eqb_spec (count pos pt c) 0), (Z.ltb_spec 0 (count pos pt c));
    simpl; auto; lia.
Qed.

Lemma rook_bishop_files (s : Square) :
  is_ok s = true ->
  nonzero (bb_and_sq (Z.lor (Z.lor (Z.lor FileABB FileCBB) FileFBB) FileHBB) s)
  = (file_of s =? FILE_A) || (file_of s =? FILE_C)
    || (file_of s =? FILE_F) || (file_of s =? FILE_H).
Proof.
  intros H.
  pose proof (on_every_square
    (fun s => Bool.eqb
       (nonzero (bb_and_sq
          (Z.lor (Z.lor (Z.lor FileABB FileCBB) FileFBB) FileHBB) s))
       ((file_of s =? FILE_A) || (file_of s =? FILE_C)
        || (file_of s =? FILE_F) || (file_of s =? FILE_H))) eq_refl s H) as E.
  apply Bool.eqb_prop in E. exact E.
Qed.

Section ValueEvaluators.
Context {K : Constants} {C : Collaborators}.

Lemma sign_flip (strongSide : Color) (pos : Position) (v : Value) :
  (if Color_eqb strongSide (side_to_move pos) then v else - v)
  = for_side_to_move strongSide pos v.
Proof. unfold for_side_to_move. destruct strongSide, (side_to_move pos); reflexivity. Qed.

Lemma for_side_to_move_swap (strongSide : Color) (pos : Position) (v : Value) :
  for_side_to_move strongSide (swap_side_to_move pos) v
  = - for_side_to_move strongSide pos v.
Proof.
  unfold for_side_to_move, swap_side_to_move. simpl.
  destruct strongSide, (side_to_move pos); simpl; lia.
Qed.

(** C3: when the weak side is not stalemated, KXK returns, from the side
    to move's view, non-pawn material + pawns * PawnValueEg +
    PushToEdges[weak king] + PushClose[king distance], plus
    VALUE_KNOWN_WIN exactly when the strong side has mating material;
    with no pawn and a single minor piece the bonus is left out. *)
Theorem KXK_magnitude (strongSide : Color) (pos : Position) :
  ~ (side_to_move pos = opp strongSide /\ legal_moves pos = 0%nat) ->
  let edge := table_at PushToEdges (king_square pos (opp strongSide)) in
  let close := table_at PushClose
                 (distance (king_square pos strongSide)
                           (king_square pos (opp strongSide))) in
  KXK strongSide pos
  = for_side_to_move strongSide pos
      (non_pawn_material pos strongSide
       + count pos PAWN strongSide * PawnValueEg + edge + close
       + (if mating_material pos strongSide then VALUE_KNOWN_WIN else 0))
  /\ (count pos PAWN strongSide = 0 ->
      count pos QUEEN strongSide = 0 ->
      count pos ROOK strongSide = 0 ->
      count pos BISHOP strongSide + count pos KNIGHT strongSide = 1 ->
      mating_material pos strongSide = false
      /\ KXK strongSide pos
         = for_side_to_move strongSide pos
             (edge + close + non_pawn_material pos strongSide)).
Proof.
  intros Hns. cbv zeta.
  assert (Hguard : Color_eqb (side_to_move pos) (opp strongSide)
                   && (legal_moves pos =? 0)%nat = false).
  { apply not_true_is_false. intros H. apply andb_true_iff in H.
    destruct H as [H1 H2]. apply Hns. split.
    - apply Color_eqb_eq. exact H1.
    - apply Nat.eqb_eq. exact H2. }
  assert (Hmat : negb (count pos QUEEN strongSide =? 0)
                 || negb (count pos ROOK strongSide =? 0)
                 || (negb (count pos BISHOP strongSide =? 0)
                     && negb (count pos KNIGHT strongSide =? 0))
                 || bishop_pair pos strongSide
                 = mating_material pos strongSide).
  { unfold mating_material. rewrite !count_test.
    destruct (0 <? count pos QUEEN strongSide),
             (0 <? count pos ROOK strongSide),
             (0 <? count pos BISHOP strongSide),
             (0 <? count pos KNIGHT strongSide),
             (bishop_pair pos strongSide); reflexivity. }
  assert (Hmain : KXK strongSide pos
    = for_side_to_move strongSide pos
        (non_pawn_material pos strongSide
         + count pos PAWN strongSide * PawnValueEg
         + table_at PushToEdges (king_square pos (opp strongSide))
         + table_at PushClose
             (distance (king_square pos strongSide)
                       (king_square pos (opp strongSide)))
         + (if mating_material pos strongSide then VALUE_KNOWN_WIN else 0))).
  { unfold KXK. rewrite Hguard, sign_flip, Hmat.
    destruct (mating_material pos strongSide); f_equal; lia. }
  split; [exact Hmain|].
  intros Hp Hq Hr Hminor.
  assert (Hno : mating_material pos strongSide = false).
  { unfold mating_material, bishop_pair. rewrite Hq, Hr.
    pose proof (count_nonneg pos BISHOP strongSide).
    pose proof (count_nonneg pos KNIGHT strongSide).
    assert (E2 : (count pos BISHOP strongSide >=? 2) = false)
      by (rewrite Z.geb_leb; apply Z.leb_gt; lia).
    rewrite E2. simpl.
    destruct (Z.ltb_spec 0 (count pos BISHOP strongSide)),
             (Z.ltb_spec 0 (count pos KNIGHT strongSide));
      simpl; try reflexivity; lia. }
  split; [exact Hno|].
  rewrite Hmain, Hno, Hp. f_equal. lia.
Qed.

Lemma tempo_at_least_3 (d : Z) (b b' : bool) :
  d <> 3 -> (d >=? 3 + b2z b) = (d >=? 3 + b2z b').
Proof.
  intros H. rewrite !Z.geb_leb.
  destruct b, b'; simpl b2z; try reflexivity;
    destruct (Z.leb_spec (3 + 1) d), (Z.leb_spec (3 + 0) d);
    try reflexivity; lia.
Qed.

Lemma tempo_more_than_2 (d : Z) (b b' : bool) :
  d <> 3 -> (d >? 2 + b2z b) = (d >? 2 + b2z b').
Proof.
  intros H. rewrite !Z.gtb_ltb.
  destruct b, b'; simpl b2z; try reflexivity;
    destruct (Z.ltb_spec (2 + 1) d), (Z.ltb_spec (2 + 0) d);
    try reflexivity; lia.
Qed.

(** C2 (as amended): exchanging only the side to move negates the score
    of KBNK, KRKB, KRKN, KQKP, KQKR and KNNK (VALUE_DRAW being 0); of
    KXK when the weak side, once on move, has a legal move; of KPK when
    the bitbase gives the same verdict for both sides to move; and of
    KRKP when neither king is at distance exactly 3 from the pawn, the
    only distance at which the tempo selects another rule. *)
Theorem side_to_move_swap_negates (strongSide : Color) (pos : Position) :
  VALUE_DRAW = 0 ->
  let swapped := swap_side_to_move pos in
  let weakSide := opp strongSide in
  KBNK strongSide swapped = - KBNK strongSide pos
  /\ KRKB strongSide swapped = - KRKB strongSide pos
  /\ KRKN strongSide swapped = - KRKN strongSide pos
  /\ KQKP strongSide swapped = - KQKP strongSide pos
  /\ KQKR strongSide swapped = - KQKR strongSide pos
  /\ KNNK strongSide swapped = - KNNK strongSide pos
  /\ (legal_moves (weak_to_move strongSide pos) <> 0%nat ->
      KXK strongSide swapped = - KXK strongSide pos)
  /\ (let whiteKingSquare :=
        normalize pos strongSide (king_square pos strongSide) in
      let blackKingSquare :=
        normalize pos strongSide (king_square pos weakSide) in
      let pawnSquare :=
        normalize pos strongSide (list_at pos PAWN strongSide 0) in
      probe_kpk whiteKingSquare pawnSquare blackKingSquare WHITE
      = probe_kpk whiteKingSquare pawnSquare blackKingSquare BLACK ->
      KPK strongSide swapped = - KPK strongSide pos)
  /\ (let whiteKingSquare :=
        relative_square strongSide (king_square pos strongSide) in
      let blackKingSquare :=
        relative_square strongSide (king_square pos weakSide) in
      let pawnSquare :=
        relative_square strongSide (list_at pos PAWN weakSide 0) in
      distance blackKingSquare pawnSquare <> 3 ->
      distance whiteKingSquare pawnSquare <> 3 ->
      KRKP strongSide swapped = - KRKP strongSide pos).
Proof.
  intros Hdraw. cbv zeta.
  repeat match goal with |- _ /\ _ => split end.
  - unfold KBNK. rewrite !sign_flip. apply for_side_to_move_swap.
  - unfold KRKB. rewrite !sign_flip. apply for_side_to_move_swap.
  - unfold KRKN. rewrite !sign_flip. apply for_side_to_move_swap.
  - unfold KQKP. rewrite !sign_flip. apply for_side_to_move_swap.
  - unfold KQKR. rewrite !sign_flip. apply for_side_to_move_swap.
  - unfold KNNK. lia.
  - intros Hmove. unfold KXK. rewrite !sign_flip.
    assert (G1 : Color_eqb (side_to_move (swap_side_to_move pos)) (opp strongSide)
                 && (legal_moves (swap_side_to_move pos) =? 0)%nat = false).
    { change (side_to_move (swap_side_to_move pos))
        with (opp (side_to_move pos)).
      unfold weak_to_move in Hmove.
      destruct strongSide, (side_to_move pos) eqn:E; simpl in Hmove |- *;
        try reflexivity; apply Nat.eqb_neq; exact Hmove. }
    assert (G2 : Color_eqb (side_to_move pos) (opp strongSide)
                 && (legal_moves pos =? 0)%nat = false).
    { unfold weak_to_move in Hmove.
      destruct strongSide, (side_to_move pos) eqn:E; simpl in Hmove |- *;
        try reflexivity; apply Nat.eqb_neq; exact Hmove. }
    rewrite G1, G2. apply for_side_to_move_swap.
  - intros Hprobe. unfold KPK. rewrite !sign_flip.
    change (normalize (swap_side_to_move pos)) with (normalize pos).
    change (king_square (swap_side_to_move pos)) with (king_square pos).
    change (list_at (swap_side_to_move pos)) with (list_at pos).
    set (wk := normalize pos strongSide (king_square pos strongSide)) in *.
    set (bk := normalize pos strongSide (king_square pos (opp strongSide))) in *.
    set (p := normalize pos strongSide (list_at pos PAWN strongSide 0)) in *.
    assert (E : probe_kpk wk p bk
                  (if Color_eqb strongSide (side_to_move (swap_side_to_move pos))
                   then WHITE else BLACK)
                = probe_kpk wk p bk
                    (if Color_eqb strongSide (side_to_move pos)
                     then WHITE else BLACK)).
    { destruct (Color_eqb strongSide (side_to_move (swap_side_to_move pos))),
               (Color_eqb strongSide (side_to_move pos)); congruence. }
    rewrite E.
    destruct (probe_kpk wk p bk
                (if Color_eqb strongSide (side_to_move pos)
                 then WHITE else BLACK)); simpl.
    + apply for_side_to_move_swap.
    + lia.
  - intros Hbk Hwk. unfold KRKP. rewrite !sign_flip.
    change (king_square (swap_side_to_move pos)) with (king_square pos).
    change (list_at (swap_side_to_move pos)) with (list_at pos).
    rewrite (tempo_at_least_3 _
               (Color_eqb (side_to_move (swap_side_to_move pos)) (opp strongSide))
               (Color_eqb (side_to_move pos) (opp strongSide)) Hbk).
    rewrite (tempo_more_than_2 _
               (Color_eqb (side_to_move (swap_side_to_move pos)) strongSide)
               (Color_eqb (side_to_move pos) strongSide) Hwk).
    apply for_side_to_move_swap.
Qed.

Lemma list_at_in (pos : Position) (pt : PieceType) (c : Color) (i : nat) :
  Z.of_nat i < count pos pt c -> In (list_at pos pt c i) (pieceList pos c pt).
Proof. unfold count, list_at. intros H. apply nth_In. lia. Qed.

Lemma all_squares_in (pos : Position) (pt : PieceType) (c : Color) (s : Square) :
  In s (pieceList pos c pt) -> In s (all_squares pos).
Proof.
  intros H. unfold all_squares. apply in_flat_map. exists c.
  split; [destruct c; simpl; auto|].
  apply in_flat_map. exists pt. split; [destruct pt; simpl; auto 7|exact H].
Qed.

Lemma well_formed_square (pos : Position) (pt : PieceType) (c : Color) (s : Square) :
  well_formed pos = true -> In s (pieceList pos c pt) -> is_ok s = true.
Proof.
  unfold well_formed. intros H Hin. bool_prop.
  match goal with
  | Hall : forallb is_ok _ = true |- _ =>
      rewrite forallb_forall in Hall; apply Hall
  end.
  eapply all_squares_in; eauto.
Qed.

Lemma well_formed_list_at (pos : Position) (pt : PieceType) (c : Color) (i : nat) :
  well_formed pos = true -> Z.of_nat i < count pos pt c ->
  is_ok (list_at pos pt c i) = true.
Proof.
  intros H Hi. eapply well_formed_square; [exact H|].
  apply list_at_in. exact Hi.
Qed.

Lemma well_formed_king (pos : Position) (c : Color) :
  well_formed pos = true -> is_ok (king_square pos c) = true.
Proof.
  intros H. unfold king_square. apply well_formed_list_at; [exact H|].
  unfold well_formed in H. bool_prop. destruct c; simpl; lia.
Qed.

Lemma well_formed_pawn_rank (pos : Position) (c : Color) (s : Square) :
  well_formed pos = true -> In s (pieceList pos c PAWN) ->
  RANK_2 <= rank_of s <= RANK_7.
Proof.
  unfold well_formed. intros H Hin. bool_prop.
  match goal with
  | Hall : forallb (fun _ => _ && _) _ = true |- _ =>
      rewrite forallb_forall in Hall;
      assert (Hs := Hall s ltac:(apply in_or_app; destruct c; auto))
  end.
  cbv beta in Hs. bool_prop. lia.
Qed.

Lemma verify_material_count (pos : Position) (c : Color) (v : Value) (n : Z) :
  verify_material pos c v n = true -> count pos PAWN c = n.
Proof. unfold verify_material. intros H. bool_prop. assumption. Qed.

(** C7 (as amended): KQKP returns, from the side to move's view,
    PushClose[king distance] plus QueenValueEg - PawnValueEg, the
    difference being withheld exactly when the weak pawn is on its
    seventh relative rank on file A, C, F or H (not only a rook file)
    with the weak king at distance 1 from it. *)
Theorem KQKP_material_withheld (strongSide : Color) (pos : Position) :
  well_formed pos = true ->
  verify_material pos strongSide QueenValueMg 0 = true ->
  verify_material pos (opp strongSide) VALUE_ZERO 1 = true ->
  let weakSide := opp strongSide in
  let pawnSquare := list_at pos PAWN weakSide 0 in
  let close := table_at PushClose
                 (distance (king_square pos strongSide)
                           (king_square pos weakSide)) in
  KQKP strongSide pos
  = for_side_to_move strongSide pos
      (close + (if KQKP_fortress weakSide pawnSquare (king_square pos weakSide)
                then 0 else QueenValueEg - PawnValueEg)).
Proof.
  intros Hok _ Hweak. cbv zeta.
  assert (Hp : is_ok (list_at pos PAWN (opp strongSide) 0) = true).
  { apply well_formed_list_at; [exact Hok|].
    rewrite (verify_material_count _ _ _ _ Hweak). simpl. lia. }
  unfold KQKP. rewrite sign_flip, (rook_bishop_files _ Hp).
  unfold KQKP_fortress. f_equal.
  destruct (relative_rank (opp strongSide) (list_at pos PAWN (opp strongSide) 0)
              =? RANK_7);
    destruct (distance (king_square pos (opp strongSide))
                       (list_at pos PAWN (opp strongSide) 0) =? 1);
    destruct ((file_of (list_at pos PAWN (opp strongSide) 0) =? FILE_A)
              || (file_of (list_at pos PAWN (opp strongSide) 0) =? FILE_C)
              || (file_of (list_at pos PAWN (opp strongSide) 0) =? FILE_F)
              || (file_of (list_at pos PAWN (opp strongSide) 0) =? FILE_H));
    simpl; lia.
Qed.

End ValueEvaluators.

(** *** The Value evaluators on sample positions *)

Lemma KXK_magnitude_witness :
  ~ (side_to_move bishop_only = BLACK
     /\ legal_moves (Collaborators := always_win) bishop_only = 0%nat)
  /\ KXK (K := types_h) (C := always_win) WHITE bishop_only = 836 + 70 + 10.
Proof.
  assert (H : ~ (side_to_move bishop_only = BLACK
                 /\ legal_moves (Collaborators := always_win) bishop_only
                    = 0%nat)).
  { intros [H _]. discriminate H. }
  split; [exact H|].
  exact (proj1 (@KXK_magnitude types_h always_win WHITE bishop_only H)).
Defined.

(** C2 (as stated) fails: in KRKP the tempo picks the rule.  With White
    to move the fall-back rule gives 200; with Black to move the
    advanced-pawn rule gives 80 - 8 * 3 = 56, returned as -56. *)
Lemma swap_does_not_negate_KRKP :
  verify_material (K := types_h) rook_vs_a_pawn WHITE (RookValueMg (Constants := types_h)) 0 = true
  /\ verify_material (K := types_h) rook_vs_a_pawn BLACK (VALUE_ZERO (Constants := types_h)) 1 = true
  /\ KRKP (K := types_h) WHITE rook_vs_a_pawn = 200
  /\ KRKP (K := types_h) WHITE (swap_side_to_move rook_vs_a_pawn) = -56
  /\ KRKP (K := types_h) WHITE (swap_side_to_move rook_vs_a_pawn)
     <> - KRKP (K := types_h) WHITE rook_vs_a_pawn.
Proof. repeat split. vm_compute. discriminate. Qed.

Lemma side_to_move_swap_negates_witness :
  VALUE_DRAW (Constants := types_h) = 0
  /\ KQKR (K := types_h) WHITE (swap_side_to_move queen_vs_rook)
     = - KQKR (K := types_h) WHITE queen_vs_rook.
Proof.
  split; [reflexivity|].
  destruct (@side_to_move_swap_negates types_h always_win WHITE queen_vs_rook
              eq_refl) as (_ & _ & _ & _ & H & _).
  exact H.
Defined.

(** C7 (as stated) fails: the c-pawn is not on a rook file, yet the
    material difference is withheld and only PushClose[5] = 40 is
    returned. *)
Lemma KQKP_withholds_on_c_file :
  well_formed queen_vs_c_pawn = true
  /\ verify_material (K := types_h) queen_vs_c_pawn WHITE (QueenValueMg (Constants := types_h)) 0 = true
  /\ verify_material (K := types_h) queen_vs_c_pawn BLACK (VALUE_ZERO (Constants := types_h)) 1 = true
  /\ file_of (list_at queen_vs_c_pawn PAWN BLACK 0) = FILE_C
  /\ KQKP (K := types_h) WHITE queen_vs_c_pawn = 40
  /\ KQKP_as_claimed (K := types_h) WHITE queen_vs_c_pawn = 40 + (2558 - 258)
  /\ KQKP (K := types_h) WHITE queen_vs_c_pawn
     <> KQKP_as_claimed (K := types_h) WHITE queen_vs_c_pawn.
Proof. repeat split. vm_compute. discriminate. Qed.

Lemma KQKP_material_withheld_witness :
  well_formed queen_vs_c_pawn = true
  /\ verify_material (K := types_h) queen_vs_c_pawn WHITE (QueenValueMg (Constants := types_h)) 0 = true
  /\ verify_material (K := types_h) queen_vs_c_pawn BLACK (VALUE_ZERO (Constants := types_h)) 1 = true
  /\ KQKP (K := types_h) WHITE queen_vs_c_pawn = 40.
Proof.
  repeat (split; [reflexivity|]).
  exact (@KQKP_material_withheld types_h WHITE queen_vs_c_pawn
           eq_refl eq_refl eq_refl).
Defined.

(** ** Bitboards of piece lists *)

Lemma bb_of_list_disjoint (l : list Square) (m : Bitboard) :
  (forall a, In a l -> Z.land (SquareBB a) m = 0) ->
  Z.land (bb_of_list l) m = 0.
Proof.
  induction l as [|a l IH]; intros H; simpl.
  - reflexivity.
  - rewrite Z.land_lor_distr_l, (H a), IH; auto with datatypes.
Qed.

Lemma relative_rank_value (c : Color) (s : Square) :
  is_ok s = true ->
  relative_rank c s = match c with
                      | WHITE => rank_of s
                      | BLACK => 7 - rank_of s
                      end.
Proof.
  intros H. destruct c.
  - exact (proj1 (Z.eqb_eq _ _)
      (on_every_square (fun s => relative_rank WHITE s =? rank_of s)
                       eq_refl s H)).
  - exact (proj1 (Z.eqb_eq _ _)
      (on_every_square (fun s => relative_rank BLACK s =? 7 - rank_of s)
                       eq_refl s H)).
Qed.

(** No square of the second to seventh rank lies in the passed-pawn
    mask of a pawn on its seventh relative rank. *)
Lemma seventh_rank_mask (c : Color) (s a : Square) :
  is_ok s = true -> is_ok a = true ->
  relative_rank c s = RANK_7 ->
  RANK_2 <= rank_of a <= RANK_7 ->
  Z.land (SquareBB a) (passed_pawn_mask c s) = 0.
Proof.
  intros Hs Ha Hr Hrank.
  assert (E : forall c,
    forallb (fun s => forallb (fun a =>
      implb ((relative_rank c s =? RANK_7)
             && (RANK_2 <=? rank_of a) && (rank_of a <=? RANK_7))
            (Z.land (SquareBB a) (passed_pawn_mask c s) =? 0))
      squares) squares = true)
    by (intros []; vm_compute; reflexivity).
  pose proof (on_every_pair _ (E c) s a Hs Ha) as P. cbv beta in P.
  apply Z.eqb_eq.
  destruct (Z.land (SquareBB a) (passed_pawn_mask c s) =? 0); [reflexivity|].
  rewrite implb_false_r in P. apply negb_true_iff in P.
  apply andb_false_iff in P. destruct P as [P|P].
  - apply andb_false_iff in P. destruct P as [P|P]; bool_prop; lia.
  - bool_prop. lia.
Qed.

Lemma seventh_rank_pawn_passed (pos : Position) (c : Color) (s : Square) :
  well_formed pos = true -> is_ok s = true ->
  relative_rank c s = RANK_7 -> pawn_passed pos c s = true.
Proof.
  intros Hok Hs Hr. unfold pawn_passed, pieces_of, nonzero.
  rewrite bb_of_list_disjoint; [reflexivity|].
  intros a Ha. apply seventh_rank_mask; auto.
  - eapply well_formed_square; eauto.
  - eapply well_formed_pawn_rank; eauto.
Qed.

(** ** ScaleFactor evaluators *)

Section KRPPKRP_properties.
Context {K : Constants}.

Variable strongSide : Color.
Variable pos : Position.

Let weakSide : Color := opp strongSide.
Let whitePawnSquare1 : Square := list_at pos PAWN strongSide 0.
Let whitePawnSquare2 : Square := list_at pos PAWN strongSide 1.
Let blackKingSquare : Square := king_square pos weakSide.
Let rank : Rank := Z.max (relative_rank strongSide whitePawnSquare1)
                         (relative_rank strongSide whitePawnSquare2).

Hypothesis legal : well_formed pos = true.
Hypothesis two_pawns : count pos PAWN strongSide = 2.

Lemma strong_pawn_relative_rank (i : nat) :
  (i < 2)%nat ->
  RANK_2 <= relative_rank strongSide (list_at pos PAWN strongSide i) <= RANK_7.
Proof.
  intros Hi.
  assert (Hin : In (list_at pos PAWN strongSide i) (pieceList pos strongSide PAWN))
    by (apply list_at_in; lia).
  pose proof (well_formed_pawn_rank _ _ _ legal Hin) as Hr.
  rewrite relative_rank_value by (eapply well_formed_square; eauto).
  unfold RANK_2, RANK_7 in *. destruct strongSide; lia.
Qed.

Lemma unpassed_pawn_below_seventh (i : nat) :
  (i < 2)%nat ->
  pawn_passed pos strongSide (list_at pos PAWN strongSide i) = false ->
  RANK_2 <= relative_rank strongSide (list_at pos PAWN strongSide i) <= RANK_6.
Proof.
  intros Hi Hnp. pose proof (strong_pawn_relative_rank i Hi) as Hr.
  destruct (Z.eq_dec (relative_rank strongSide (list_at pos PAWN strongSide i))
                     RANK_7) as [E|E].
  - rewrite seventh_rank_pawn_passed in Hnp; [discriminate| exact legal | | exact E].
    apply well_formed_list_at; [exact legal|lia].
  - unfold RANK_2, RANK_6, RANK_7 in *. lia.
Qed.

Lemma table_rank_in_range :
  pawn_passed pos strongSide whitePawnSquare1 = false ->
  pawn_passed pos strongSide whitePawnSquare2 = false ->
  RANK_2 <= rank <= RANK_6.
Proof.
  intros H1 H2.
  pose proof (unpassed_pawn_below_seventh 0 ltac:(lia) H1).
  pose proof (unpassed_pawn_below_seventh 1 ltac:(lia) H2).
  unfold rank, whitePawnSquare1, whitePawnSquare2. lia.
Qed.

Lemma KRPPKRP_unfold :
  KRPPKRP strongSide pos
  = if pawn_passed pos strongSide whitePawnSquare1
       || pawn_passed pos strongSide whitePawnSquare2
    then Returns SCALE_FACTOR_NONE
    else if (distance_file blackKingSquare whitePawnSquare1 <=? 1)
            && (distance_file blackKingSquare whitePawnSquare2 <=? 1)
            && (relative_rank strongSide blackKingSquare >? rank)
    then if rank =? RANK_2 then Returns 10
         else if rank =? RANK_3 then Returns 10
         else if rank =? RANK_4 then Returns 15
         else if rank =? RANK_5 then Returns 20
         else if rank =? RANK_6 then Returns 40
         else AssertionFailure
    else Returns SCALE_FACTOR_NONE.
Proof. reflexivity. Qed.

Lemma table_lookup :
  RANK_2 <= rank <= RANK_6 ->
  exists v, In (rank, v) KRPPKRP_table
            /\ (if rank =? RANK_2 then Returns 10
                else if rank =? RANK_3 then Returns 10
                else if rank =? RANK_4 then Returns 15
                else if rank =? RANK_5 then Returns 20
                else if rank =? RANK_6 then Returns 40
                else AssertionFailure) = Returns v.
Proof.
  intros H. unfold RANK_2, RANK_6 in H.
  assert (E : rank = RANK_2 \/ rank = RANK_3 \/ rank = RANK_4
              \/ rank = RANK_5 \/ rank = RANK_6)
    by (unfold RANK_2, RANK_3, RANK_4, RANK_5, RANK_6; lia).
  destruct E as [E|[E|[E|[E|E]]]]; rewrite E; simpl.
  - exists 10. auto.
  - exists 10. auto.
  - exists 15. auto.
  - exists 20. auto 6.
  - exists 40. auto 7.
Qed.

(** C4: with a passed strong pawn KRPPKRP returns SCALE_FACTOR_NONE;
    otherwise, when the weak king is within one file of both strong
    pawns and its relative rank is above that of the more advanced
    pawn, it returns the entry of the table 2:10, 3:10, 4:15, 5:20,
    6:40 at that pawn's relative rank; otherwise SCALE_FACTOR_NONE. *)
Theorem KRPPKRP_graded :
  verify_material pos weakSide RookValueMg 1 = true ->
  non_pawn_material pos strongSide = RookValueMg ->
  let passed := pawn_passed pos strongSide whitePawnSquare1
                || pawn_passed pos strongSide whitePawnSquare2 in
  let king_in_front :=
    (distance_file blackKingSquare whitePawnSquare1 <=? 1)
    && (distance_file blackKingSquare whitePawnSquare2 <=? 1)
    && (rank <? relative_rank strongSide blackKingSquare) in
  (passed = true -> KRPPKRP strongSide pos = Returns SCALE_FACTOR_NONE)
  /\ (passed = false -> king_in_front = true ->
      exists v, In (rank, v) KRPPKRP_table
                /\ KRPPKRP strongSide pos = Returns v)
  /\ (passed = false -> king_in_front = false ->
      KRPPKRP strongSide pos = Returns SCALE_FACTOR_NONE).
Proof.
  intros _ _. cbv zeta. rewrite KRPPKRP_unfold, Z.gtb_ltb.
  split; [|split].
  - intros ->. reflexivity.
  - intros Hp Hk. rewrite Hp, Hk.
    apply orb_false_iff in Hp. destruct Hp as [H1 H2].
    apply table_lookup, table_rank_in_range; assumption.
  - intros -> ->. reflexivity.
Qed.

(** C5: in a well-formed position the assertion of the switch is never
    reached: when neither strong pawn is passed the selected rank is
    between RANK_2 and RANK_6, because a strong pawn on its seventh
    relative rank is always passed. *)
Theorem KRPPKRP_assertion_unreachable :
  verify_material pos weakSide RookValueMg 1 = true ->
  non_pawn_material pos strongSide = RookValueMg ->
  KRPPKRP strongSide pos <> AssertionFailure
  /\ (pawn_passed pos strongSide whitePawnSquare1 = false ->
      pawn_passed pos strongSide whitePawnSquare2 = false ->
      RANK_2 <= rank <= RANK_6)
  /\ (forall s, In s (pieceList pos strongSide PAWN) ->
      relative_rank strongSide s = RANK_7 ->
      pawn_passed pos strongSide s = true).
Proof.
  intros _ _. split; [|split].
  - rewrite KRPPKRP_unfold.
    destruct (pawn_passed pos strongSide whitePawnSquare1) eqn:H1;
      [discriminate|].
    destruct (pawn_passed pos strongSide whitePawnSquare2) eqn:H2;
      [discriminate|].
    simpl orb. cbv iota.
    destruct (_ && _); [|discriminate].
    destruct (table_lookup (table_rank_in_range H1 H2)) as (v & _ & E).
    rewrite E. discriminate.
  - apply table_rank_in_range.
  - intros s Hin Hr. apply seventh_rank_pawn_passed; auto.
    eapply well_formed_square; eauto.
Qed.

End KRPPKRP_properties.

Lemma own_file_mask (a : Square) :
  is_ok a = true -> Z.land (SquareBB a) (bb_not (file_bb (file_of a))) = 0.
Proof.
  intros H.
  exact (proj1 (Z.eqb_eq _ _)
    (on_every_square
       (fun a => Z.land (SquareBB a) (bb_not (file_bb (file_of a))) =? 0)
       eq_refl a H)).
Qed.

Lemma queening_square_facts (f : File) :
  0 <= f <= 7 ->
  is_ok (make_square f RANK_8) = true
  /\ rank_of (make_square f RANK_8) = RANK_8
  /\ file_of (make_square f RANK_8) = f.
Proof.
  intros H.
  assert (E : f = 0 \/ f = 1 \/ f = 2 \/ f = 3 \/ f = 4 \/ f = 5 \/ f = 6 \/ f = 7)
    by lia.
  destruct E as [E|[E|[E|[E|[E|[E|[E|E]]]]]]]; subst f; repeat split.
Qed.

Section ScaleFactorEvaluators.
Context {K : Constants} {C : Collaborators}.

(** C9: with all strong pawns on one rook file, the strong bishop on the
    colour opposite to the queening square and the weak king within
    distance 1 of that square, KBPsK returns SCALE_FACTOR_DRAW; nothing
    is asked of the weak side's material. *)
Theorem KBPsK_rook_file_draw (strongSide : Color) (pos : Position)
        (pawnFile : File) :
  well_formed pos = true ->
  non_pawn_material pos strongSide = BishopValueMg ->
  1 <= count pos PAWN strongSide ->
  pawnFile = FILE_A \/ pawnFile = FILE_H ->
  (forall s, In s (pieceList pos strongSide PAWN) -> file_of s = pawnFile) ->
  let queeningSquare :=
    relative_square strongSide (make_square pawnFile RANK_8) in
  opposite_colors queeningSquare (list_at pos BISHOP strongSide 0) = true ->
  distance queeningSquare (king_square pos (opp strongSide)) <= 1 ->
  KBPsK strongSide pos = SCALE_FACTOR_DRAW.
Proof.
  intros Hok _ Hcount Hfile Hall queeningSquare Hopp Hdist.
  assert (Hf : file_of (list_at pos PAWN strongSide 0) = pawnFile)
    by (apply Hall, list_at_in; simpl; lia).
  assert (Hmask : Z.land (pieces_of pos strongSide PAWN)
                         (bb_not (file_bb pawnFile)) = 0).
  { apply bb_of_list_disjoint. intros a Ha.
    rewrite <- (Hall a Ha). apply own_file_mask.
    eapply well_formed_square; eauto. }
  assert (Hrook : (pawnFile =? FILE_A) || (pawnFile =? FILE_H) = true)
    by (destruct Hfile as [-> | ->]; reflexivity).
  unfold KBPsK. rewrite Hf, Hmask, Hrook. simpl nonzero. cbv iota. simpl andb.
  fold queeningSquare. rewrite Hopp.
  apply Z.leb_le in Hdist. rewrite Hdist. reflexivity.
Qed.

(** C8 (as amended): with the pawn on its seventh rank, the strong rook
    behind it on its file and the strong king closer to the queening
    square than the weak king by more than 2 - tempo, KRPKR returns
    SCALE_FACTOR_MAX - 2 * (strong king's distance to the queening
    square) provided also that the pawn is not an a-pawn and that this
    distance is smaller than the weak king's distance to the strong
    rook plus tempo.  The factor is at most SCALE_FACTOR_MAX, strictly
    smaller unless the strong king stands on the queening square, and
    strictly decreasing in the strong king's distance. *)
Theorem KRPKR_supported_seventh (strongSide : Color) (pos pos' : Position) :
  rook_behind_seventh_rank_pawn strongSide pos ->
  rook_not_harassed strongSide pos ->
  rook_behind_seventh_rank_pawn strongSide pos' ->
  rook_not_harassed strongSide pos' ->
  KRPKR strongSide pos
  = SCALE_FACTOR_MAX - 2 * king_to_queening_square strongSide pos
  /\ KRPKR strongSide pos <= SCALE_FACTOR_MAX
  /\ (normalize pos strongSide (king_square pos strongSide)
      <> make_square
           (file_of (normalize pos strongSide (list_at pos PAWN strongSide 0)))
           RANK_8 ->
      KRPKR strongSide pos < SCALE_FACTOR_MAX)
  /\ (king_to_queening_square strongSide pos
      < king_to_queening_square strongSide pos' ->
      KRPKR strongSide pos' < KRPKR strongSide pos).
Proof.
  assert (Hvalue : forall p,
    rook_behind_seventh_rank_pawn strongSide p ->
    rook_not_harassed strongSide p ->
    KRPKR strongSide p
    = SCALE_FACTOR_MAX - 2 * king_to_queening_square strongSide p).
  { intros p (Hrank & Hrf & Hbehind & Hcloser) (Hfile & Hsafe).
    unfold king_to_queening_square. unfold KRPKR.
    set (wk := normalize p strongSide (king_square p strongSide)) in *.
    set (bk := normalize p strongSide (king_square p (opp strongSide))) in *.
    set (wr := normalize p strongSide (list_at p ROOK strongSide 0)) in *.
    set (wp := normalize p strongSide (list_at p PAWN strongSide 0)) in *.
    set (br := normalize p strongSide (list_at p ROOK (opp strongSide) 0)) in *.
    set (tempo := b2z (Color_eqb (side_to_move p) strongSide)) in *.
    set (qs := make_square (file_of wp) RANK_8) in *.
    assert (Htempo : 0 <= tempo <= 1)
      by (unfold tempo; destruct (Color_eqb _ _); simpl; lia).
    pose proof (distance_nonneg wk qs) as Hd.
    rewrite Hrank.
    replace (RANK_7 <=? RANK_5) with false by reflexivity.
    replace (RANK_7 =? RANK_6) with false by reflexivity.
    replace (RANK_7 >=? RANK_6) with true by reflexivity.
    replace (RANK_7 =? RANK_7) with true by reflexivity.
    simpl andb.
    assert (E3 : (bk =? qs) = false).
    { apply Z.eqb_neq. intros E. rewrite E, distance_refl in Hcloser. lia. }
    assert (E4 : (wp =? SQ_A7) = false).
    { apply Z.eqb_neq. intros E. apply Hfile. rewrite E. reflexivity. }
    assert (E6a : negb (file_of wp =? FILE_A) = true)
      by (apply negb_true_iff, Z.eqb_neq; exact Hfile).
    assert (E6b : (file_of wr =? file_of wp) = true)
      by (apply Z.eqb_eq; exact Hrf).
    assert (E6c : negb (wr =? qs) = true).
    { apply negb_true_iff, Z.eqb_neq. intros E.
      destruct (queening_square_facts (file_of wp) (file_of_range wp))
        as (_ & Hqr & _).
      fold qs in Hqr. rewrite E, Hqr, Hrank in Hbehind.
      unfold RANK_7, RANK_8 in Hbehind. lia. }
    assert (E6d : (distance wk qs <? distance bk qs - 2 + tempo) = true)
      by (apply Z.ltb_lt; exact Hcloser).
    assert (E6e : (distance wk qs <? distance bk wr + tempo) = true)
      by (apply Z.ltb_lt; exact Hsafe).
    rewrite E3, E4, E6a, E6b, E6c, E6d, E6e. reflexivity. }
  intros H1 H2 H1' H2'.
  pose proof (Hvalue pos H1 H2) as E.
  pose proof (Hvalue pos' H1' H2') as E'.
  assert (Hd : 0 <= king_to_queening_square strongSide pos)
    by apply distance_nonneg.
  repeat split; try lia.
  intros Hne.
  assert (1 <= king_to_queening_square strongSide pos)
    by (apply distance_positive; exact Hne).
  lia.
Qed.

Lemma distinct_NoDup (l : list Square) : distinct l = true -> NoDup l.
Proof.
  induction l as [|x r IH]; simpl; intros H.
  - constructor.
  - apply andb_true_iff in H. destruct H as [Hx Hr].
    constructor; [|auto].
    intros Hin. apply negb_true_iff in Hx.
    assert (E : existsb (Z.eqb x) r = true)
      by (apply existsb_exists; exists x; split; [exact Hin|apply Z.eqb_refl]).
    congruence.
Qed.

(** No king stands on the square of a pawn. *)
Lemma king_off_pawn (pos : Position) (c c' : Color) (s : Square) :
  well_formed pos = true ->
  In s (pieceList pos c PAWN) -> king_square pos c' <> s.
Proof.
  intros Hok Hp Heq.
  assert (Hk : In s (pieceList pos c' KING)).
  { rewrite <- Heq. apply list_at_in.
    unfold well_formed in Hok. bool_prop. destruct c'; lia. }
  assert (Hnd : NoDup (all_squares pos)).
  { apply distinct_NoDup. unfold well_formed in Hok. bool_prop. assumption. }
  pose proof (proj1 (NoDup_count_occ Z.eq_dec (all_squares pos)) Hnd s) as Hc.
  apply (count_occ_In Z.eq_dec) in Hp.
  apply (count_occ_In Z.eq_dec) in Hk.
  unfold all_squares in Hc. simpl flat_map in Hc.
  rewrite !count_occ_app in Hc.
  unfold Square in *. destruct c, c'; lia.
Qed.

(** Follow the cascade of rules from the outside, one test at a time. *)
Ltac split_ifs :=
  repeat match goal with
  | |- draw_or_none (if ?c then _ else _) => destruct c eqn:?
  | |- draw_or_none (match (if ?c then _ else _) with pair _ _ => _ end) =>
      destruct c eqn:?
  | |- graded_among _ (if ?c then _ else _) => destruct c eqn:?
  end.

Ltac sentinel_or_draw :=
  split_ifs;
  lazymatch goal with
  | |- draw_or_none SCALE_FACTOR_NONE => right; reflexivity
  | |- draw_or_none SCALE_FACTOR_DRAW => left; reflexivity
  end.

(** The tests passed on the way are not needed for the bounds. *)
Ltac forget_tests :=
  repeat match goal with
  | H : _ = true |- _ => clear H
  | H : _ = false |- _ => clear H
  end.

Section Range.

Variable strongSide : Color.
Variable pos : Position.
Hypothesis draw_is_0 : SCALE_FACTOR_DRAW = 0.
Hypothesis max_is_128 : SCALE_FACTOR_MAX = 128.
Hypothesis legal : well_formed pos = true.

Lemma KBPsK_draw_or_none : draw_or_none (KBPsK strongSide pos).
Proof. unfold KBPsK. sentinel_or_draw. Qed.

Lemma KQKRPs_draw_or_none : draw_or_none (KQKRPs strongSide pos).
Proof. unfold KQKRPs. sentinel_or_draw. Qed.

Lemma KPsK_draw_or_none : draw_or_none (KPsK strongSide pos).
Proof. unfold KPsK. sentinel_or_draw. Qed.

Lemma KBPKB_draw_or_none : draw_or_none (KBPKB strongSide pos).
Proof. unfold KBPKB. sentinel_or_draw. Qed.

Lemma KBPPKB_draw_or_none : draw_or_none (KBPPKB strongSide pos).
Proof. unfold KBPPKB. sentinel_or_draw. Qed.

Lemma KBPKN_draw_or_none : draw_or_none (KBPKN strongSide pos).
Proof. unfold KBPKN. sentinel_or_draw. Qed.

Lemma KNPK_draw_or_none : draw_or_none (KNPK strongSide pos).
Proof. unfold KNPK. sentinel_or_draw. Qed.

Lemma KPKP_draw_or_none : draw_or_none (KPKP strongSide pos).
Proof. unfold KPKP. sentinel_or_draw. Qed.

Lemma KRPKB_graded : graded_among [8; 24; 48] (KRPKB strongSide pos).
Proof.
  unfold KRPKB. split_ifs;
    lazymatch goal with
    | |- graded_among _ SCALE_FACTOR_NONE => left; reflexivity
    | |- graded_among _ _ =>
        right; split; [unfold graded; forget_tests; lia|simpl; auto]
    end.
Qed.

Lemma KRPPKRP_graded_values :
  count pos PAWN strongSide = 2 ->
  exists v, KRPPKRP strongSide pos = Returns v
            /\ graded_among [10; 15; 20; 40] v.
Proof.
  intros Hcount. rewrite KRPPKRP_unfold.
  destruct (pawn_passed pos strongSide (list_at pos PAWN strongSide 0)) eqn:H1;
    [exists SCALE_FACTOR_NONE; split; [reflexivity|left; reflexivity]|].
  destruct (pawn_passed pos strongSide (list_at pos PAWN strongSide 1)) eqn:H2;
    [exists SCALE_FACTOR_NONE; split; [reflexivity|left; reflexivity]|].
  simpl orb. cbv iota.
  destruct (_ && _);
    [|exists SCALE_FACTOR_NONE; split; [reflexivity|left; reflexivity]].
  destruct (table_lookup strongSide pos
              (table_rank_in_range strongSide pos legal Hcount H1 H2))
    as (v & Hin & E).
  exists v. split; [exact E|]. right.
  unfold KRPPKRP_table in Hin. simpl in Hin.
  repeat (destruct Hin as [Hin|Hin];
          [inversion Hin; split; [unfold graded; lia|simpl; auto]|]).
  contradiction.
Qed.

(** The weak king is not on the square of the pawn. *)
Lemma king_to_pawn_distance :
  count pos PAWN strongSide = 1 ->
  1 <= distance (king_square pos (opp strongSide))
                (list_at pos PAWN strongSide 0) <= 7.
Proof.
  intros Hcount.
  assert (Hin : In (list_at pos PAWN strongSide 0) (pieceList pos strongSide PAWN))
    by (apply list_at_in; simpl; lia).
  pose proof (king_off_pawn pos strongSide (opp strongSide) _ legal Hin) as Hne.
  split; [apply distance_positive; exact Hne|].
  apply distance_upper.
  - apply well_formed_king, legal.
  - eapply well_formed_square; eauto.
Qed.

Lemma KNPKB_graded :
  count pos PAWN strongSide = 1 ->
  KNPKB strongSide pos = SCALE_FACTOR_NONE
  \/ (KNPKB strongSide pos
      = distance (king_square pos (opp strongSide))
                 (list_at pos PAWN strongSide 0)
      /\ 1 <= KNPKB strongSide pos
      /\ graded (KNPKB strongSide pos)).
Proof.
  intros Hcount. pose proof (king_to_pawn_distance Hcount).
  unfold KNPKB. destruct (nonzero _); [right|left; reflexivity].
  unfold graded. split; [reflexivity|]. lia.
Qed.

Lemma KRPKR_drawn :
  KRPKR_draw_rule strongSide pos = true ->
  KRPKR strongSide pos = SCALE_FACTOR_DRAW.
Proof.
  unfold KRPKR_draw_rule, KRPKR. cbv zeta.
  repeat lazymatch goal with
  | |- _ -> (if ?c then SCALE_FACTOR_DRAW else _) = _ =>
      destruct c; [reflexivity|]
  end.
  intros H. discriminate H.
Qed.

Lemma KRPKR_graded :
  count pos PAWN strongSide = 1 ->
  let whiteKingSquare := normalize pos strongSide (king_square pos strongSide) in
  let blackKingSquare :=
    normalize pos strongSide (king_square pos (opp strongSide)) in
  let whitePawnSquare := normalize pos strongSide (list_at pos PAWN strongSide 0) in
  let queeningSquare := make_square (file_of whitePawnSquare) RANK_8 in
  KRPKR_draw_rule strongSide pos = false ->
  KRPKR strongSide pos = SCALE_FACTOR_NONE
  \/ (graded (KRPKR strongSide pos)
      /\ ((KRPKR strongSide pos
           = SCALE_FACTOR_MAX - 2 * distance whiteKingSquare queeningSquare
           /\ 114 <= KRPKR strongSide pos)
          \/ (KRPKR strongSide pos
              = SCALE_FACTOR_MAX
                - 8 * distance whitePawnSquare queeningSquare
                - 2 * distance whiteKingSquare queeningSquare
              /\ 58 <= KRPKR strongSide pos)
          \/ KRPKR strongSide pos = 10
          \/ (KRPKR strongSide pos
              = 24 - 2 * distance whiteKingSquare blackKingSquare
              /\ 10 <= KRPKR strongSide pos <= 18))).
Proof.
  intros Hcount. cbv zeta. unfold KRPKR_draw_rule, KRPKR. cbv zeta.
  set (wk := normalize pos strongSide (king_square pos strongSide)).
  set (bk := normalize pos strongSide (king_square pos (opp strongSide))).
  set (wr := normalize pos strongSide (list_at pos ROOK strongSide 0)).
  set (wp := normalize pos strongSide (list_at pos PAWN strongSide 0)).
  set (br := normalize pos strongSide (list_at pos ROOK (opp strongSide) 0)).
  set (tempo := b2z (Color_eqb (side_to_move pos) strongSide)).
  set (qs := make_square (file_of wp) RANK_8).
  assert (Hwk : is_ok wk = true)
    by (apply normalize_is_ok, well_formed_king, legal).
  assert (Hbk : is_ok bk = true)
    by (apply normalize_is_ok, well_formed_king, legal).
  assert (Hwp : is_ok wp = true)
    by (apply normalize_is_ok, well_formed_list_at; [exact legal|simpl; lia]).
  assert (Hqs : is_ok qs = true)
    by (apply queening_square_facts, file_of_range).
  pose proof (distance_nonneg wk qs).
  pose proof (distance_upper wk qs Hwk Hqs).
  pose proof (distance_nonneg wp qs).
  pose proof (distance_upper wp qs Hwp Hqs).
  pose proof (distance_upper wk bk Hwk Hbk).
  repeat lazymatch goal with
  | |- _ -> (if ?c then SCALE_FACTOR_DRAW else _) = _ \/ _ =>
      destruct c; [intros Hrule; cbn [orb] in Hrule; discriminate Hrule|]
  end.
  intros _.
  repeat lazymatch goal with
  | |- (if ?c then _ else _) = _ \/ _ => destruct c eqn:?
  end;
    lazymatch goal with
    | |- SCALE_FACTOR_NONE = _ \/ _ => left; reflexivity
    | |- _ => right
    end;
    try match goal with
    | H : _ && (distance wk bk >? 2) = true |- _ =>
        apply andb_true_iff in H; destruct H as [_ H];
        rewrite Z.gtb_ltb in H; apply Z.ltb_lt in H; revert H
    end;
    forget_tests; intros; unfold graded;
    (split;
     [lia
     |first [left; split; [reflexivity|lia]
            |right; left; split; [reflexivity|lia]
            |right; right; left; reflexivity
            |right; right; right; split; [reflexivity|lia]]]).
Qed.

(** C10: in a well-formed position, SCALE_FACTOR_DRAW being 0 and
    SCALE_FACTOR_MAX 128, the eight evaluators without a grading rule
    return SCALE_FACTOR_DRAW or the sentinel, and every value returned
    by a grading rule is above SCALE_FACTOR_DRAW and at most
    SCALE_FACTOR_MAX: KRPKB returns the sentinel or 8, 24 or 48;
    KRPPKRP the sentinel or 10, 15, 20 or 40; KNPKB the sentinel or the
    weak king's distance to the pawn, which is at least 1; and KRPKR
    returns SCALE_FACTOR_DRAW exactly by one of its five draw rules and
    otherwise the sentinel or one of its graded formulas, each of which
    stays at 10 or more. *)
Theorem scale_factors_in_range :
  draw_or_none (KBPsK strongSide pos)
  /\ draw_or_none (KQKRPs strongSide pos)
  /\ draw_or_none (KPsK strongSide pos)
  /\ draw_or_none (KBPKB strongSide pos)
  /\ draw_or_none (KBPPKB strongSide pos)
  /\ draw_or_none (KBPKN strongSide pos)
  /\ draw_or_none (KNPK strongSide pos)
  /\ draw_or_none (KPKP strongSide pos)
  /\ graded_among [8; 24; 48] (KRPKB strongSide pos)
  /\ (count pos PAWN strongSide = 2 ->
      exists v, KRPPKRP strongSide pos = Returns v
                /\ graded_among [10; 15; 20; 40] v)
  /\ (count pos PAWN strongSide = 1 ->
      KNPKB strongSide pos = SCALE_FACTOR_NONE
      \/ (KNPKB strongSide pos
          = distance (king_square pos (opp strongSide))
                     (list_at pos PAWN strongSide 0)
          /\ 1 <= KNPKB strongSide pos
          /\ graded (KNPKB strongSide pos)))
  /\ (count pos PAWN strongSide = 1 ->
      let whiteKingSquare :=
        normalize pos strongSide (king_square pos strongSide) in
      let blackKingSquare :=
        normalize pos strongSide (king_square pos (opp strongSide)) in
      let whitePawnSquare :=
        normalize pos strongSide (list_at pos PAWN strongSide 0) in
      let queeningSquare := make_square (file_of whitePawnSquare) RANK_8 in
      (KRPKR_draw_rule strongSide pos = true ->
       KRPKR strongSide pos = SCALE_FACTOR_DRAW)
      /\ (KRPKR_draw_rule strongSide pos = false ->
          KRPKR strongSide pos = SCALE_FACTOR_NONE
          \/ (graded (KRPKR strongSide pos)
              /\ ((KRPKR strongSide pos
                   = SCALE_FACTOR_MAX
                     - 2 * distance whiteKingSquare queeningSquare
                   /\ 114 <= KRPKR strongSide pos)
                  \/ (KRPKR strongSide pos
                      = SCALE_FACTOR_MAX
                        - 8 * distance whitePawnSquare queeningSquare
                        - 2 * distance whiteKingSquare queeningSquare
                      /\ 58 <= KRPKR strongSide pos)
                  \/ KRPKR strongSide pos = 10
                  \/ (KRPKR strongSide pos
                      = 24 - 2 * distance whiteKingSquare blackKingSquare
                      /\ 10 <= KRPKR strongSide pos <= 18))))).
Proof.
  repeat match goal with |- _ /\ _ => split end;
    auto using KBPsK_draw_or_none, KQKRPs_draw_or_none, KPsK_draw_or_none,
      KBPKB_draw_or_none, KBPPKB_draw_or_none, KBPKN_draw_or_none,
      KNPK_draw_or_none, KPKP_draw_or_none, KRPKB_graded,
      KRPPKRP_graded_values, KNPKB_graded.
  intros Hcount. cbv zeta. split.
  - apply KRPKR_drawn.
  - apply (KRPKR_graded Hcount).
Qed.

End Range.

End ScaleFactorEvaluators.

(** *** The ScaleFactor evaluators on sample positions *)

Lemma KRPPKRP_graded_witness :
  well_formed rooks_and_pawns = true
  /\ count rooks_and_pawns PAWN WHITE = 2
  /\ exists v, In (RANK_4, v) KRPPKRP_table
               /\ KRPPKRP (K := types_h) WHITE rooks_and_pawns = Returns v.
Proof.
  split; [reflexivity|]. split; [reflexivity|].
  exact (proj1 (proj2 (@KRPPKRP_graded types_h WHITE rooks_and_pawns
                         eq_refl eq_refl eq_refl eq_refl))
               eq_refl eq_refl).
Defined.

Lemma KRPPKRP_assertion_unreachable_witness :
  well_formed rooks_and_pawns = true
  /\ count rooks_and_pawns PAWN WHITE = 2
  /\ KRPPKRP (K := types_h) WHITE rooks_and_pawns <> AssertionFailure.
Proof.
  split; [reflexivity|]. split; [reflexivity|].
  exact (proj1 (@KRPPKRP_assertion_unreachable types_h WHITE rooks_and_pawns
                  eq_refl eq_refl eq_refl eq_refl)).
Defined.

(** C8 (as stated) fails: the pawn is on b7 with the rook behind it on
    b1 and the strong king is closer to b8 than the weak king by more
    than 2 - tempo, but the weak king attacks the rook and KRPKR
    returns SCALE_FACTOR_NONE, which is not below SCALE_FACTOR_MAX. *)
Lemma KRPKR_harassed_rook_not_graded :
  well_formed harassed_rook = true
  /\ rook_behind_seventh_rank_pawn WHITE harassed_rook
  /\ KRPKR (K := types_h) WHITE harassed_rook
     = SCALE_FACTOR_NONE (Constants := types_h)
  /\ ~ (KRPKR (K := types_h) WHITE harassed_rook
        < SCALE_FACTOR_MAX (Constants := types_h)).
Proof.
  split; [reflexivity|]. split; [|split].
  - unfold rook_behind_seventh_rank_pawn. repeat split.
  - reflexivity.
  - vm_compute. discriminate.
Qed.

Lemma KRPKR_supported_seventh_witness :
  rook_behind_seventh_rank_pawn WHITE supported_pawn_king_c7
  /\ rook_not_harassed WHITE supported_pawn_king_c7
  /\ KRPKR (K := types_h) WHITE supported_pawn_king_c7 = 128 - 2 * 1
  /\ KRPKR (K := types_h) WHITE supported_pawn_king_d6
     < KRPKR (K := types_h) WHITE supported_pawn_king_c7.
Proof.
  assert (B1 : rook_behind_seventh_rank_pawn WHITE supported_pawn_king_c7)
    by (unfold rook_behind_seventh_rank_pawn; repeat split).
  assert (S1 : rook_not_harassed WHITE supported_pawn_king_c7)
    by (unfold rook_not_harassed; split; [discriminate|reflexivity]).
  assert (B2 : rook_behind_seventh_rank_pawn WHITE supported_pawn_king_d6)
    by (unfold rook_behind_seventh_rank_pawn; repeat split).
  assert (S2 : rook_not_harassed WHITE supported_pawn_king_d6)
    by (unfold rook_not_harassed; split; [discriminate|reflexivity]).
  destruct (@KRPKR_supported_seventh types_h WHITE
              supported_pawn_king_c7 supported_pawn_king_d6 B1 S1 B2 S2)
    as (E & _ & _ & Hdec).
  split; [exact B1|]. split; [exact S1|]. split; [exact E|].
  apply Hdec. reflexivity.
Defined.

Lemma KBPsK_rook_file_draw_witness :
  well_formed wrong_bishop = true
  /\ count wrong_bishop KNIGHT BLACK = 1
  /\ count wrong_bishop PAWN BLACK = 1
  /\ KBPsK (K := types_h) WHITE wrong_bishop
     = SCALE_FACTOR_DRAW (Constants := types_h).
Proof.
  repeat (split; [reflexivity|]).
  apply (@KBPsK_rook_file_draw types_h WHITE wrong_bishop FILE_A).
  - reflexivity.
  - reflexivity.
  - vm_compute. discriminate.
  - left. reflexivity.
  - intros s Hs. vm_compute in Hs.
    destruct Hs as [<-|[<-|[]]]; reflexivity.
  - reflexivity.
  - vm_compute. discriminate.
Defined.

(** Two runs: the pawn on b7 supported by rook and king, where no draw
    rule of KRPKR applies and the graded 126 comes out; and the knight
    and a-pawn against the bishop, where KNPKB returns the distance 3. *)
Lemma scale_factors_in_range_witness :
  SCALE_FACTOR_DRAW (Constants := types_h) = 0
  /\ SCALE_FACTOR_MAX (Constants := types_h) = 128
  /\ well_formed supported_pawn_king_c7 = true
  /\ count supported_pawn_king_c7 PAWN WHITE = 1
  /\ KRPKR_draw_rule WHITE supported_pawn_king_c7 = false
  /\ graded (K := types_h) (KRPKR (K := types_h) WHITE supported_pawn_king_c7)
  /\ well_formed knight_pawn_vs_bishop = true
  /\ count knight_pawn_vs_bishop PAWN WHITE = 1
  /\ 1 <= KNPKB (K := types_h) WHITE knight_pawn_vs_bishop.
Proof.
  repeat (split; [reflexivity|]).
  split; [|repeat (split; [reflexivity|])].
  - destruct (@scale_factors_in_range types_h always_win WHITE
                supported_pawn_king_c7 eq_refl eq_refl eq_refl)
      as (_ & _ & _ & _ & _ & _ & _ & _ & _ & _ & _ & H).
    destruct (proj2 (H eq_refl) eq_refl) as [E|[G _]];
      [discriminate E|exact G].
  - destruct (@scale_factors_in_range types_h always_win WHITE
                knight_pawn_vs_bishop eq_refl eq_refl eq_refl)
      as (_ & _ & _ & _ & _ & _ & _ & _ & _ & _ & H & _).
    destruct (H eq_refl) as [E|(_ & G & _)];
      [discriminate E|exact G].
Defined.

(** ** Board symmetries and the evaluators that normalize *)

Lemma opp_involutive (c : Color) : opp (opp c) = c.
Proof. destruct c; reflexivity. Qed.

Lemma nth_map_in_range (f : Square -> Square) (l : list Square) (i : nat) :
  (i < length l)%nat -> nth i (map f l) SQ_NONE = f (nth i l SQ_NONE).
Proof.
  intros H. rewrite (nth_indep (map f l) SQ_NONE (f SQ_NONE)).
  - apply map_nth.
  - rewrite length_map. exact H.
Qed.

Lemma list_at_mirror_files (pos : Position) (pt : PieceType) (c : Color) (i : nat) :
  Z.of_nat i < count pos pt c ->
  list_at (mirror_files pos) pt c i = Z.lxor (list_at pos pt c i) 7.
Proof.
  unfold count, list_at. intros H. simpl pieceList.
  apply (nth_map_in_range (fun s => Z.lxor s 7)). lia.
Qed.

Lemma list_at_flip_colors (pos : Position) (pt : PieceType) (c : Color) (i : nat) :
  Z.of_nat i < count pos pt c ->
  list_at (flip_colors pos) pt (opp c) i = flip (list_at pos pt c i).
Proof.
  unfold count, list_at. intros H. simpl pieceList. rewrite opp_involutive.
  apply (nth_map_in_range flip). lia.
Qed.

Lemma list_at_flip_colors_opp (pos : Position) (pt : PieceType) (c : Color)
      (i : nat) :
  Z.of_nat i < count pos pt (opp c) ->
  list_at (flip_colors pos) pt c i = flip (list_at pos pt (opp c) i).
Proof.
  intros H. rewrite <- (list_at_flip_colors pos pt (opp c) i H).
  rewrite opp_involutive. reflexivity.
Qed.

Lemma well_formed_one_king (pos : Position) (c : Color) :
  well_formed pos = true -> 0 < count pos KING c.
Proof. unfold well_formed. intros H. bool_prop. destruct c; lia. Qed.

Lemma normalize_coordinates (pos : Position) (c : Color) (s : Square) :
  is_ok s = true ->
  file_of (normalize pos c s)
  = (if file_of (list_at pos PAWN c 0) >=? FILE_E
     then 7 - file_of s else file_of s)
  /\ rank_of (normalize pos c s) = relative_rank c s.
Proof.
  intros Hok. rewrite (relative_rank_value c s Hok). unfold normalize.
  destruct (mirror_coordinates s Hok) as (F7 & R7 & F56 & R56).
  assert (Hok7 : is_ok (Z.lxor s 7) = true)
    by (apply lxor_is_ok; [exact Hok|lia]).
  destruct (mirror_coordinates (Z.lxor s 7) Hok7) as (_ & _ & G56 & S56).
  destruct (_ >=? _); destruct c; simpl Color_eqb; cbv iota;
    rewrite ?G56, ?S56, ?F56, ?R56, ?F7, ?R7; auto.
Qed.

(** X1: in a well-formed position with one strong pawn, [normalize]
    does what its comment promises: the pawn lands on files A to D, and
    every square of the board lands on a square of the board whose rank
    is the rank seen from strongSide. *)
Theorem normalize_canonical (pos : Position) (strongSide : Color) (s : Square) :
  well_formed pos = true ->
  count pos PAWN strongSide = 1 ->
  is_ok s = true ->
  file_of (normalize pos strongSide (list_at pos PAWN strongSide 0)) <= FILE_D
  /\ is_ok (normalize pos strongSide s) = true
  /\ rank_of (normalize pos strongSide s) = relative_rank strongSide s.
Proof.
  intros Hwf Hcount Hs.
  assert (Hp : is_ok (list_at pos PAWN strongSide 0) = true)
    by (apply well_formed_list_at; [exact Hwf|simpl; lia]).
  split; [|split].
  - rewrite (proj1 (normalize_coordinates pos strongSide _ Hp)).
    pose proof (file_of_range (list_at pos PAWN strongSide 0)).
    unfold FILE_D, FILE_E. rewrite Z.geb_leb.
    destruct (Z.leb_spec 4 (file_of (list_at pos PAWN strongSide 0))); lia.
  - apply normalize_is_ok. exact Hs.
  - apply normalize_coordinates. exact Hs.
Qed.

Lemma normalize_canonical_witness :
  well_formed pawn_on_h2 = true
  /\ count pawn_on_h2 PAWN WHITE = 1
  /\ file_of (normalize pawn_on_h2 WHITE (list_at pawn_on_h2 PAWN WHITE 0))
     <= FILE_D.
Proof.
  split; [reflexivity|]. split; [reflexivity|].
  exact (proj1 (normalize_canonical pawn_on_h2 WHITE SQ_A1
                  eq_refl eq_refl eq_refl)).
Defined.

(** ** KPK in board terms *)

(** On the board [normalize] is the mirroring that the spec describes. *)
Lemma normalize_meets_spec (pos : Position) (c : Color) (s : Square) :
  is_ok (list_at pos PAWN c 0) = true -> is_ok s = true ->
  normalize pos c s = normalize_spec pos c s.
Proof.
  intros Hp Hs.
  change (normalize pos c s) with (normalize_by (list_at pos PAWN c 0) c s).
  unfold normalize_spec. cbv zeta. apply Z.eqb_eq. destruct c.
  - exact (on_every_pair
      (fun p s => normalize_by p WHITE s
                  =? make_square (if FILE_E <=? file_of p
                                  then FILE_H - file_of s else file_of s)
                                 (rank_of s))
      eq_refl _ _ Hp Hs).
  - exact (on_every_pair
      (fun p s => normalize_by p BLACK s
                  =? make_square (if FILE_E <=? file_of p
                                  then FILE_H - file_of s else file_of s)
                                 (RANK_8 - rank_of s))
      eq_refl _ _ Hp Hs).
Qed.

Section KPK_on_the_board.
Context {K : Constants} {C : Collaborators}.

(** C1: in a well-formed position with the material of KPK (strong
    side: king and exactly one pawn; weak side: the lone king), the KPK
    evaluator probes the bitbase at the three squares mirrored as the
    spec describes (files mirrored when the pawn is on files E to H,
    ranks mirrored when strongSide is BLACK), which put the pawn on
    files A to D, and with WHITE when strongSide is to move (BLACK
    otherwise); without a win it returns VALUE_DRAW, with a win
    VALUE_KNOWN_WIN + PawnValueEg + the rank index of the mirrored
    pawn, which is the pawn's rank seen from strongSide, negated when
    the weak side is to move. *)
Theorem KPK_bitbase_score (strongSide : Color) (pos : Position) :
  well_formed pos = true ->
  verify_material pos strongSide VALUE_ZERO 1 = true ->
  verify_material pos (opp strongSide) VALUE_ZERO 0 = true ->
  let whiteKingSquare := normalize_spec pos strongSide (king_square pos strongSide) in
  let blackKingSquare :=
    normalize_spec pos strongSide (king_square pos (opp strongSide)) in
  let pawnSquare := normalize_spec pos strongSide (list_at pos PAWN strongSide 0) in
  let us := match strongSide, side_to_move pos with
            | WHITE, WHITE | BLACK, BLACK => WHITE
            | _, _ => BLACK
            end in
  KPK strongSide pos
  = (if probe_kpk whiteKingSquare pawnSquare blackKingSquare us
     then for_side_to_move strongSide pos
            (VALUE_KNOWN_WIN + PawnValueEg + rank_of pawnSquare)
     else VALUE_DRAW)
  /\ file_of pawnSquare <= FILE_D
  /\ rank_of pawnSquare
     = relative_rank strongSide (list_at pos PAWN strongSide 0)
  /\ RANK_2 <= rank_of pawnSquare <= RANK_7.
Proof.
  intros Hwf Hstrong _. cbv zeta.
  pose proof (verify_material_count _ _ _ _ Hstrong) as Hcount.
  assert (Hp : is_ok (list_at pos PAWN strongSide 0) = true)
    by (apply well_formed_list_at; [exact Hwf|simpl; lia]).
  assert (Hin : In (list_at pos PAWN strongSide 0) (pieceList pos strongSide PAWN))
    by (apply list_at_in; simpl; lia).
  pose proof (well_formed_pawn_rank pos strongSide _ Hwf Hin) as Hrank.
  rewrite <- !normalize_meets_spec
    by (try exact Hp; apply well_formed_king; exact Hwf).
  destruct (normalize_coordinates pos strongSide _ Hp) as [Hfile Hrel].
  split; [|split; [|split]].
  - unfold KPK. rewrite sign_flip.
    assert (E : (if Color_eqb strongSide (side_to_move pos) then WHITE else BLACK)
                = match strongSide, side_to_move pos with
                  | WHITE, WHITE | BLACK, BLACK => WHITE
                  | _, _ => BLACK
                  end)
      by (destruct strongSide, (side_to_move pos); reflexivity).
    rewrite E. destruct (probe_kpk _ _ _ _); reflexivity.
  - rewrite Hfile.
    pose proof (file_of_range (list_at pos PAWN strongSide 0)).
    unfold FILE_D, FILE_E. rewrite Z.geb_leb.
    destruct (Z.leb_spec 4 (file_of (list_at pos PAWN strongSide 0))); lia.
  - exact Hrel.
  - rewrite Hrel, (relative_rank_value strongSide _ Hp).
    unfold RANK_2, RANK_7 in *. destruct strongSide; lia.
Qed.

End KPK_on_the_board.

(** Black has the pawn, on file E, and White is to move: the squares
    e3, e4 and e1 are probed as d6, d5 and d8 with BLACK to move, the
    single position the stand-in bitbase knows as won, and the score is
    that of a pawn on its fifth rank, negated. *)
Lemma KPK_bitbase_score_witness :
  well_formed black_e_pawn = true
  /\ verify_material (K := types_h) black_e_pawn BLACK 0 1 = true
  /\ verify_material (K := types_h) black_e_pawn WHITE 0 0 = true
  /\ KPK (K := types_h) (C := king_in_front_on_d6) BLACK black_e_pawn
     = - (10000 + 258 + 4).
Proof.
  split; [reflexivity|]. split; [reflexivity|]. split; [reflexivity|].
  exact (proj1 (@KPK_bitbase_score types_h king_in_front_on_d6 BLACK
                  black_e_pawn eq_refl eq_refl eq_refl)).
Defined.

Section Symmetry.
Context {K : Constants} {C : Collaborators}.

Variable pos : Position.
Variable strongSide : Color.
Hypothesis legal : well_formed pos = true.
Hypothesis one_pawn : count pos PAWN strongSide = 1.

Lemma pawn_on_board : is_ok (list_at pos PAWN strongSide 0) = true.
Proof. apply well_formed_list_at; [exact legal|rewrite one_pawn; simpl; lia]. Qed.

Lemma normalize_mirror_files (s : Square) :
  normalize (mirror_files pos) strongSide (Z.lxor s 7)
  = normalize pos strongSide s.
Proof.
  rewrite !normalize_as_xor.
  rewrite list_at_mirror_files by (rewrite one_pawn; simpl; lia).
  destruct (mirror_coordinates _ pawn_on_board) as (F7 & _).
  rewrite F7. pose proof (file_of_range (list_at pos PAWN strongSide 0)) as R.
  rewrite !Z.geb_leb. unfold FILE_E.
  destruct (Z.leb_spec 4 (file_of (list_at pos PAWN strongSide 0)));
    destruct (Z.leb_spec 4 (7 - file_of (list_at pos PAWN strongSide 0)));
    try lia; destruct (Color_eqb strongSide BLACK);
    rewrite Z.lxor_assoc; reflexivity.
Qed.

Lemma normalize_flip_colors (s : Square) :
  normalize (flip_colors pos) (opp strongSide) (flip s)
  = normalize pos strongSide s.
Proof.
  rewrite !normalize_as_xor.
  rewrite list_at_flip_colors by (rewrite one_pawn; simpl; lia).
  destruct (mirror_coordinates _ pawn_on_board) as (_ & _ & F56 & _).
  rewrite F56. unfold flip.
  destruct (_ >=? _); destruct strongSide; simpl Color_eqb; cbv iota;
    rewrite Z.lxor_assoc; reflexivity.
Qed.

Lemma normalize_mirror_at (pt : PieceType) (c : Color) :
  0 < count pos pt c ->
  normalize (mirror_files pos) strongSide (list_at (mirror_files pos) pt c 0)
  = normalize pos strongSide (list_at pos pt c 0).
Proof.
  intros H. rewrite list_at_mirror_files by (simpl; lia).
  apply normalize_mirror_files.
Qed.

Lemma normalize_flip_at (pt : PieceType) (c : Color) :
  0 < count pos pt c ->
  normalize (flip_colors pos) (opp strongSide)
            (list_at (flip_colors pos) pt (opp c) 0)
  = normalize pos strongSide (list_at pos pt c 0).
Proof.
  intros H. rewrite list_at_flip_colors by (simpl; lia).
  apply normalize_flip_colors.
Qed.

Lemma flipped_side_to_move (c : Color) :
  Color_eqb (opp c) (side_to_move (flip_colors pos))
  = Color_eqb c (side_to_move pos).
Proof. simpl. destruct c, (side_to_move pos); reflexivity. Qed.

Lemma flipped_side_to_move_sym (c : Color) :
  Color_eqb (side_to_move (flip_colors pos)) (opp c)
  = Color_eqb (side_to_move pos) c.
Proof. simpl. destruct c, (side_to_move pos); reflexivity. Qed.

(** X2: the evaluators that normalize do not see a left-right mirror of
    the board: KPK, KPKP, KNPK and KRPKR return the same on the
    mirrored position (the bitbase is asked the same question). *)
Theorem mirror_files_invariance :
  KPK strongSide (mirror_files pos) = KPK strongSide pos
  /\ KPKP strongSide (mirror_files pos) = KPKP strongSide pos
  /\ KNPK strongSide (mirror_files pos) = KNPK strongSide pos
  /\ (0 < count pos ROOK strongSide -> 0 < count pos ROOK (opp strongSide) ->
      KRPKR strongSide (mirror_files pos) = KRPKR strongSide pos).
Proof.
  pose proof (well_formed_one_king pos strongSide legal) as Hk1.
  pose proof (well_formed_one_king pos (opp strongSide) legal) as Hk2.
  assert (Hp : 0 < count pos PAWN strongSide) by (rewrite one_pawn; lia).
  repeat split.
  - unfold KPK, king_square.
    rewrite !normalize_mirror_at by assumption. reflexivity.
  - unfold KPKP, king_square.
    rewrite !normalize_mirror_at by assumption. reflexivity.
  - unfold KNPK, king_square.
    rewrite !normalize_mirror_at by assumption. reflexivity.
  - intros Hr1 Hr2. unfold KRPKR, king_square.
    rewrite !normalize_mirror_at by assumption. reflexivity.
Qed.

(** X3: exchanging the colours (with the board flipped vertically and
    the other side to move) and the strong side does not change what
    KPK, KPKP, KNPK and KRPKR return. *)
Theorem flip_colors_invariance :
  KPK (opp strongSide) (flip_colors pos) = KPK strongSide pos
  /\ KPKP (opp strongSide) (flip_colors pos) = KPKP strongSide pos
  /\ KNPK (opp strongSide) (flip_colors pos) = KNPK strongSide pos
  /\ (0 < count pos ROOK strongSide -> 0 < count pos ROOK (opp strongSide) ->
      KRPKR (opp strongSide) (flip_colors pos) = KRPKR strongSide pos).
Proof.
  pose proof (well_formed_one_king pos strongSide legal) as Hk1.
  pose proof (well_formed_one_king pos (opp strongSide) legal) as Hk2.
  assert (Hp : 0 < count pos PAWN strongSide) by (rewrite one_pawn; lia).
  assert (Hopp : forall pt,
    normalize (flip_colors pos) (opp strongSide)
              (list_at (flip_colors pos) pt (opp (opp strongSide)) 0)
    = normalize (flip_colors pos) (opp strongSide)
                (list_at (flip_colors pos) pt strongSide 0))
    by (intros pt; rewrite opp_involutive; reflexivity).
  assert (Hweak : forall pt, 0 < count pos pt (opp strongSide) ->
    normalize (flip_colors pos) (opp strongSide)
              (list_at (flip_colors pos) pt strongSide 0)
    = normalize pos strongSide (list_at pos pt (opp strongSide) 0)).
  { intros pt H. rewrite <- (normalize_flip_at pt (opp strongSide) H).
    rewrite opp_involutive. reflexivity. }
  repeat split.
  - unfold KPK, king_square. rewrite opp_involutive.
    rewrite !normalize_flip_at, Hweak, flipped_side_to_move by assumption.
    reflexivity.
  - unfold KPKP, king_square. rewrite opp_involutive.
    rewrite !normalize_flip_at, Hweak, flipped_side_to_move by assumption.
    reflexivity.
  - unfold KNPK, king_square. rewrite opp_involutive.
    rewrite !normalize_flip_at, Hweak by assumption.
    reflexivity.
  - intros Hr1 Hr2. unfold KRPKR, king_square. rewrite opp_involutive.
    rewrite !normalize_flip_at, !Hweak, flipped_side_to_move_sym by assumption.
    reflexivity.
Qed.

End Symmetry.

Lemma mirror_files_invariance_witness :
  well_formed supported_pawn_king_c7 = true
  /\ count supported_pawn_king_c7 PAWN WHITE = 1
  /\ KRPKR (K := types_h) WHITE (mirror_files supported_pawn_king_c7) = 126.
Proof.
  split; [reflexivity|]. split; [reflexivity|].
  destruct (@mirror_files_invariance types_h always_win
              supported_pawn_king_c7 WHITE eq_refl eq_refl)
    as (_ & _ & _ & H).
  exact (H eq_refl eq_refl).
Defined.

Lemma flip_colors_invariance_witness :
  well_formed supported_pawn_king_c7 = true
  /\ count supported_pawn_king_c7 PAWN WHITE = 1
  /\ KRPKR (K := types_h) BLACK (flip_colors supported_pawn_king_c7) = 126.
Proof.
  split; [reflexivity|]. split; [reflexivity|].
  destruct (@flip_colors_invariance types_h always_win
              supported_pawn_king_c7 WHITE eq_refl eq_refl)
    as (_ & _ & _ & H).
  exact (H eq_refl eq_refl).
Defined.

(** ** The mating tables and the Value evaluators built on them *)

Lemma table_at_nonneg (t : list Z) (i : Z) :
  Forall (fun x => 0 <= x) t -> 0 <= table_at t i.
Proof.
  intros H. unfold table_at. rewrite Forall_forall in H.
  destruct (nth_in_or_default (Z.to_nat i) t 0) as [Hin|E].
  - apply H. exact Hin.
  - rewrite E. lia.
Qed.

Lemma PushToEdges_nonneg (i : Z) : 0 <= table_at PushToEdges i.
Proof. apply table_at_nonneg. unfold PushToEdges. repeat constructor; lia. Qed.

Lemma PushToCorners_nonneg (i : Z) : 0 <= table_at PushToCorners i.
Proof. apply table_at_nonneg. unfold PushToCorners. repeat constructor; lia. Qed.

Lemma PushClose_nonneg (i : Z) : 0 <= table_at PushClose i.
Proof. apply table_at_nonneg. unfold PushClose. repeat constructor; lia. Qed.

Lemma PushAway_nonneg (i : Z) : 0 <= table_at PushAway i.
Proof. apply table_at_nonneg. unfold PushAway. repeat constructor; lia. Qed.

Lemma PushToEdges_range (s : Square) :
  is_ok s = true ->
  20 <= table_at PushToEdges s <= 100
  /\ (table_at PushToEdges s = 100 <-> is_corner s = true).
Proof.
  intros H.
  pose proof (on_every_square
    (fun s => (20 <=? table_at PushToEdges s)
              && (table_at PushToEdges s <=? 100)
              && Bool.eqb (table_at PushToEdges s =? 100) (is_corner s))
    eq_refl s H) as E.
  cbv beta in E. apply andb_true_iff in E. destruct E as [E1 E2].
  apply Bool.eqb_prop in E2. bool_prop. split; [lia|].
  rewrite <- E2. symmetry. apply Z.eqb_eq.
Qed.

Lemma PushAway_range (a b : Square) :
  is_ok a = true -> is_ok b = true ->
  0 <= table_at PushAway (distance a b) <= 100.
Proof.
  intros Ha Hb.
  pose proof (on_every_pair
    (fun a b => (0 <=? table_at PushAway (distance a b))
                && (table_at PushAway (distance a b) <=? 100))
    eq_refl a b Ha Hb) as E.
  cbv beta in E. bool_prop. lia.
Qed.

Lemma distance_flip (a b : Square) :
  is_ok a = true -> is_ok b = true ->
  distance (flip a) (flip b) = distance a b
  /\ distance (Z.lxor a 7) (Z.lxor b 7) = distance a b.
Proof.
  intros Ha Hb.
  pose proof (on_every_pair
    (fun a b => (distance (flip a) (flip b) =? distance a b)
                && (distance (Z.lxor a 7) (Z.lxor b 7) =? distance a b))
    eq_refl a b Ha Hb) as E.
  cbv beta in E. bool_prop. auto.
Qed.

(** The corner term of KBNK for a bishop and a weak king. *)
Lemma corner_term (bishop loser : Square) :
  is_ok bishop = true -> is_ok loser = true ->
  let T := fun b l => table_at PushToCorners
                        (if opposite_colors b SQ_A1 then flip l else l) in
  110 <= T bishop loser <= 200
  /\ (T bishop loser = 200
      <-> is_corner loser = true /\ opposite_colors loser bishop = false)
  /\ T (Z.lxor bishop 7) (Z.lxor loser 7) = T bishop loser
  /\ T (flip bishop) (flip loser) = T bishop loser.
Proof.
  intros Hb Hl T.
  pose proof (on_every_pair
    (fun b l => (110 <=? T b l) && (T b l <=? 200)
                && Bool.eqb (T b l =? 200)
                            (is_corner l && negb (opposite_colors l b))
                && (T (Z.lxor b 7) (Z.lxor l 7) =? T b l)
                && (T (flip b) (flip l) =? T b l))
    eq_refl bishop loser Hb Hl) as E.
  cbv beta in E.
  apply andb_true_iff in E. destruct E as [E E5].
  apply andb_true_iff in E. destruct E as [E E4].
  apply andb_true_iff in E. destruct E as [E E3].
  apply Bool.eqb_prop in E3. bool_prop.
  split; [lia|]. split; [|auto].
  rewrite <- Z.eqb_eq, E3, andb_true_iff, negb_true_iff. tauto.
Qed.

Section MatingEvaluators.
Context {K : Constants} {C : Collaborators}.

Variable pos : Position.
Variable strongSide : Color.
Hypothesis legal : well_formed pos = true.

Let winner : Square := king_square pos strongSide.
Let loser : Square := king_square pos (opp strongSide).

Lemma KBNK_unfold :
  0 < count pos BISHOP strongSide ->
  KBNK strongSide pos
  = for_side_to_move strongSide pos
      (VALUE_KNOWN_WIN + table_at PushClose (distance winner loser)
       + table_at PushToCorners
           (if opposite_colors (list_at pos BISHOP strongSide 0) SQ_A1
            then flip loser else loser)).
Proof.
  intros Hb. unfold KBNK. rewrite sign_flip. fold winner. fold loser.
  f_equal. f_equal. f_equal. f_equal.
  destruct (opposite_colors _ _); [|reflexivity].
  apply distance_flip; apply well_formed_king; exact legal.
Qed.

(** X4: KBNK drives the weak king to a corner of the bishop's colour:
    its score is VALUE_KNOWN_WIN + PushClose[king distance] + a corner
    term between 110 and 200, and the term is 200 exactly when the weak
    king stands on a corner square of the colour of the bishop's
    square. *)
Theorem KBNK_right_corner :
  0 < count pos BISHOP strongSide ->
  exists term,
    KBNK strongSide pos
    = for_side_to_move strongSide pos
        (VALUE_KNOWN_WIN + table_at PushClose (distance winner loser) + term)
    /\ 110 <= term <= 200
    /\ (term = 200 <->
        is_corner loser = true
        /\ opposite_colors loser (list_at pos BISHOP strongSide 0) = false).
Proof.
  intros Hb.
  assert (Hbs : is_ok (list_at pos BISHOP strongSide 0) = true)
    by (apply well_formed_list_at; [exact legal|simpl; lia]).
  assert (Hl : is_ok loser = true) by (apply well_formed_king; exact legal).
  destruct (corner_term _ _ Hbs Hl) as (R & Hmax & _).
  eexists. split; [apply KBNK_unfold; exact Hb|]. split; assumption.
Qed.

(** X5: KBNK returns the same on the left-right mirrored position and
    on the position with the colours exchanged, although both
    symmetries change the colour of the bishop's square. *)
Theorem KBNK_symmetric :
  0 < count pos BISHOP strongSide ->
  KBNK strongSide (mirror_files pos) = KBNK strongSide pos
  /\ KBNK (opp strongSide) (flip_colors pos) = KBNK strongSide pos.
Proof.
  intros Hb.
  pose proof (well_formed_one_king pos strongSide legal) as Hk1.
  pose proof (well_formed_one_king pos (opp strongSide) legal) as Hk2.
  assert (Hbs : is_ok (list_at pos BISHOP strongSide 0) = true)
    by (apply well_formed_list_at; [exact legal|simpl; lia]).
  assert (Hw : is_ok winner = true) by (apply well_formed_king; exact legal).
  assert (Hl : is_ok loser = true) by (apply well_formed_king; exact legal).
  destruct (corner_term _ _ Hbs Hl) as (_ & _ & Tm & Tf).
  destruct (distance_flip winner loser Hw Hl) as (Df & Dm).
  rewrite (KBNK_unfold Hb). split.
  - unfold KBNK, king_square. rewrite sign_flip.
    rewrite !list_at_mirror_files by (simpl; lia).
    fold (king_square pos strongSide). fold (king_square pos (opp strongSide)).
    fold winner. fold loser.
    change (for_side_to_move strongSide (mirror_files pos))
      with (for_side_to_move strongSide pos).
    f_equal. rewrite <- Tm. f_equal. f_equal. f_equal.
    destruct (opposite_colors (Z.lxor (list_at pos BISHOP strongSide 0) 7)
                              SQ_A1).
    + rewrite (proj1 (distance_flip _ _ (lxor_is_ok _ 7 Hw ltac:(lia))
                                       (lxor_is_ok _ 7 Hl ltac:(lia)))).
      exact Dm.
    + exact Dm.
  - unfold KBNK, king_square. rewrite sign_flip, opp_involutive.
    rewrite (list_at_flip_colors pos KING strongSide 0) by (simpl; lia).
    rewrite (list_at_flip_colors pos BISHOP strongSide 0) by (simpl; lia).
    rewrite (list_at_flip_colors_opp pos KING strongSide 0) by (simpl; lia).
    fold (king_square pos strongSide). fold (king_square pos (opp strongSide)).
    fold winner. fold loser.
    assert (Es : for_side_to_move (opp strongSide) (flip_colors pos)
                 = for_side_to_move strongSide pos).
    { unfold for_side_to_move. simpl.
      destruct strongSide, (side_to_move pos); reflexivity. }
    rewrite Es. f_equal. rewrite <- Tf. f_equal. f_equal. f_equal.
    destruct (opposite_colors (flip (list_at pos BISHOP strongSide 0)) SQ_A1).
    + rewrite (proj1 (distance_flip _ _ (flip_is_ok _ Hw) (flip_is_ok _ Hl))).
      exact Df.
    + exact Df.
Qed.

(** X7: KRKB and KRKN are drawish: the magnitude of KRKB is
    PushToEdges[weak king], between 20 and 100 and equal to 100 exactly
    with the weak king in a corner; that of KRKN is between 20 and
    200. *)
Theorem KRKB_KRKN_drawish :
  (exists m, KRKB strongSide pos = for_side_to_move strongSide pos m
             /\ 20 <= m <= 100
             /\ (m = 100 <-> is_corner loser = true))
  /\ (0 < count pos KNIGHT (opp strongSide) ->
      exists m, KRKN strongSide pos = for_side_to_move strongSide pos m
                /\ 20 <= m <= 200).
Proof.
  assert (Hl : is_ok loser = true) by (apply well_formed_king; exact legal).
  destruct (PushToEdges_range loser Hl) as (R & Hc).
  split.
  - eexists. split; [unfold KRKB; rewrite sign_flip; reflexivity|].
    fold loser. split; assumption.
  - intros Hn.
    assert (Hkn : is_ok (list_at pos KNIGHT (opp strongSide) 0) = true)
      by (apply well_formed_list_at; [exact legal|simpl; lia]).
    pose proof (PushAway_range _ _ Hl Hkn) as Ra.
    eexists. split; [unfold KRKN; rewrite sign_flip; reflexivity|].
    fold loser. lia.
Qed.

End MatingEvaluators.

Lemma KBNK_right_corner_witness :
  well_formed bishop_and_knight = true
  /\ 0 < count bishop_and_knight BISHOP WHITE
  /\ exists term,
       KBNK (K := types_h) WHITE bishop_and_knight
       = for_side_to_move WHITE bishop_and_knight (10000 + 100 + term)
       /\ 110 <= term <= 200.
Proof.
  split; [reflexivity|]. split; [reflexivity|].
  destruct (@KBNK_right_corner types_h bishop_and_knight WHITE
              eq_refl eq_refl) as (term & E & R & _).
  exists term. split; [exact E|exact R].
Defined.

Lemma KBNK_symmetric_witness :
  well_formed bishop_and_knight = true
  /\ 0 < count bishop_and_knight BISHOP WHITE
  /\ KBNK (K := types_h) WHITE (mirror_files bishop_and_knight) = 10300
  /\ KBNK (K := types_h) BLACK (flip_colors bishop_and_knight) = 10300.
Proof.
  split; [reflexivity|]. split; [reflexivity|].
  destruct (@KBNK_symmetric types_h bishop_and_knight WHITE eq_refl eq_refl)
    as (E1 & E2).
  split; [exact E1|exact E2].
Defined.

Lemma KRKB_KRKN_drawish_witness :
  well_formed rook_vs_knight = true
  /\ 0 < count rook_vs_knight KNIGHT BLACK
  /\ exists m, KRKN WHITE rook_vs_knight
               = for_side_to_move WHITE rook_vs_knight m
               /\ 20 <= m <= 200.
Proof.
  split; [reflexivity|]. split; [reflexivity|].
  exact (proj2 (KRKB_KRKN_drawish rook_vs_knight WHITE eq_refl) eq_refl).
Defined.

Lemma for_side_to_move_zero (strongSide : Color) (pos : Position) :
  for_side_to_move strongSide pos 0 = 0.
Proof. unfold for_side_to_move. destruct strongSide, (side_to_move pos); reflexivity. Qed.

Lemma relative_square_on_board (c : Color) (s : Square) :
  is_ok s = true ->
  is_ok (relative_square c s) = true
  /\ rank_of (relative_square c s) = relative_rank c s.
Proof.
  intros H. split.
  - unfold relative_square. apply lxor_is_ok; [exact H|destruct c; simpl; lia].
  - destruct c.
    + exact (proj1 (Z.eqb_eq _ _)
        (on_every_square
           (fun s => rank_of (relative_square WHITE s) =? relative_rank WHITE s)
           eq_refl s H)).
    + exact (proj1 (Z.eqb_eq _ _)
        (on_every_square
           (fun s => rank_of (relative_square BLACK s) =? relative_rank BLACK s)
           eq_refl s H)).
Qed.

Lemma PushClose_decreasing (d1 d2 : Z) :
  2 <= d1 -> d1 < d2 -> d2 <= 7 ->
  table_at PushClose d2 < table_at PushClose d1.
Proof.
  intros H1 H12 H2.
  assert (E1 : d1 = 2 \/ d1 = 3 \/ d1 = 4 \/ d1 = 5 \/ d1 = 6) by lia.
  assert (E2 : d2 = 3 \/ d2 = 4 \/ d2 = 5 \/ d2 = 6 \/ d2 = 7) by lia.
  destruct E1 as [E1|[E1|[E1|[E1|E1]]]]; subst d1;
    destruct E2 as [E2|[E2|[E2|[E2|E2]]]]; subst d2;
    try lia; reflexivity.
Qed.

Section SignOfValues.
Context {K : Constants} {C : Collaborators}.

Variable pos : Position.
Variable strongSide : Color.
Hypothesis values : plausible_values.
Hypothesis legal : well_formed pos = true.

Lemma KXK_favours : favours_strong_side strongSide pos (KXK strongSide pos).
Proof.
  destruct values as (Hd & Hw & Hp & Hr & Hn & Hb & Hrm & Hq).
  unfold KXK. destruct (_ && _).
  - exists 0. rewrite for_side_to_move_zero. split; [lia|exact Hd].
  - rewrite sign_flip. eexists. split; [|reflexivity].
    pose proof (count_nonneg pos PAWN strongSide).
    pose proof (count_nonneg pos KNIGHT strongSide).
    pose proof (count_nonneg pos BISHOP strongSide).
    pose proof (count_nonneg pos ROOK strongSide).
    pose proof (count_nonneg pos QUEEN strongSide).
    pose proof (PushToEdges_nonneg (king_square pos (opp strongSide))).
    pose proof (PushClose_nonneg (distance (king_square pos strongSide)
                                           (king_square pos (opp strongSide)))).
    unfold non_pawn_material. destruct (_ || _); nia.
Qed.

Lemma KRKP_favours :
  0 < count pos PAWN (opp strongSide) ->
  favours_strong_side strongSide pos (KRKP strongSide pos).
Proof.
  intros Hpawn.
  destruct values as (Hd & Hw & Hp & Hr & Hn & Hb & Hrm & Hq).
  unfold KRKP. rewrite sign_flip. eexists. split; [|reflexivity].
  set (wk := relative_square strongSide (king_square pos strongSide)).
  set (bk := relative_square strongSide (king_square pos (opp strongSide))).
  set (p := relative_square strongSide (list_at pos PAWN (opp strongSide) 0)).
  assert (Hwk : is_ok wk = true)
    by (apply relative_square_on_board, well_formed_king, legal).
  assert (Hp0 : is_ok (list_at pos PAWN (opp strongSide) 0) = true)
    by (apply well_formed_list_at; [exact legal|simpl; lia]).
  destruct (relative_square_on_board strongSide _ Hp0) as (Hpok & Hprank).
  fold p in Hpok, Hprank.
  assert (Hrank : RANK_2 <= rank_of p <= RANK_7).
  { rewrite Hprank, relative_rank_value by exact Hp0.
    pose proof (well_formed_pawn_rank pos (opp strongSide) _ legal
                  (list_at_in pos PAWN (opp strongSide) 0 ltac:(simpl; lia))).
    unfold RANK_2, RANK_7 in *. destruct strongSide; lia. }
  assert (Hps : is_ok (p + DELTA_S) = true).
  { apply is_ok_range. apply is_ok_range in Hpok.
    pose proof (square_decompose p). pose proof (file_of_range p).
    unfold RANK_2, DELTA_S in *. lia. }
  pose proof (distance_upper wk p Hwk Hpok).
  pose proof (distance_upper wk (p + DELTA_S) Hwk Hps).
  pose proof (distance_nonneg bk (p + DELTA_S)).
  pose proof (distance_nonneg p (make_square (file_of p) RANK_1)).
  repeat match goal with
  | |- 0 <= (if ?c then _ else _) => destruct c
  end; lia.
Qed.

(** X6: with plausible constants and a well-formed position no Value
    evaluator scores against the strong side: each returns a magnitude
    that is not negative, negated only when the weak side is to
    move. *)
Theorem values_favour_strong_side :
  favours_strong_side strongSide pos (KXK strongSide pos)
  /\ favours_strong_side strongSide pos (KBNK strongSide pos)
  /\ favours_strong_side strongSide pos (KPK strongSide pos)
  /\ (0 < count pos PAWN (opp strongSide) ->
      favours_strong_side strongSide pos (KRKP strongSide pos))
  /\ favours_strong_side strongSide pos (KRKB strongSide pos)
  /\ favours_strong_side strongSide pos (KRKN strongSide pos)
  /\ favours_strong_side strongSide pos (KQKP strongSide pos)
  /\ favours_strong_side strongSide pos (KQKR strongSide pos)
  /\ favours_strong_side strongSide pos (KNNK strongSide pos).
Proof.
  pose proof values as (Hd & Hw & Hp & Hr & Hn & Hb & Hrm & Hq).
  split; [exact KXK_favours|].
  split.
  { unfold KBNK. rewrite sign_flip. eexists. split; [|reflexivity].
    match goal with
    | |- 0 <= _ + table_at PushClose ?d + table_at PushToCorners ?s =>
        pose proof (PushClose_nonneg d); pose proof (PushToCorners_nonneg s)
    end. lia. }
  split.
  { unfold KPK. destruct (negb _).
    - exists 0. rewrite for_side_to_move_zero. split; [lia|exact Hd].
    - rewrite sign_flip. eexists. split; [|reflexivity].
      assert (0 <= rank_of (normalize pos strongSide
                              (list_at pos PAWN strongSide 0))).
      { unfold rank_of. apply Z.shiftr_nonneg.
        rewrite normalize_as_xor. apply Z.lxor_nonneg.
        split; intros _.
        - destruct (_ >=? _), (Color_eqb strongSide BLACK); simpl; lia.
        - unfold list_at.
          destruct (nth_in_or_default 0 (pieceList pos strongSide PAWN) SQ_NONE)
            as [Hin|E].
          + pose proof (well_formed_square pos PAWN strongSide _ legal Hin) as Hs.
            apply is_ok_range in Hs. lia.
          + rewrite E. unfold SQ_NONE. lia. }
      lia. }
  split; [exact KRKP_favours|].
  split.
  { unfold KRKB. rewrite sign_flip. eexists. split; [|reflexivity].
    apply PushToEdges_nonneg. }
  split.
  { unfold KRKN. rewrite sign_flip. eexists. split; [|reflexivity].
    match goal with
    | |- 0 <= table_at PushToEdges ?s + table_at PushAway ?d =>
        pose proof (PushToEdges_nonneg s); pose proof (PushAway_nonneg d)
    end. lia. }
  split.
  { unfold KQKP. rewrite sign_flip. eexists. split; [|reflexivity].
    match goal with
    | |- 0 <= (if _ then table_at PushClose ?d + _ else _) =>
        pose proof (PushClose_nonneg d)
    end.
    destruct (_ || _); lia. }
  split.
  { unfold KQKR. rewrite sign_flip. eexists. split; [|reflexivity].
    match goal with
    | |- 0 <= _ - _ + table_at PushToEdges ?s + table_at PushClose ?d =>
        pose proof (PushToEdges_nonneg s); pose proof (PushClose_nonneg d)
    end. lia. }
  unfold KNNK. exists 0. rewrite for_side_to_move_zero. split; [lia|exact Hd].
Qed.

End SignOfValues.

Lemma values_favour_strong_side_witness :
  plausible_values (K := types_h)
  /\ well_formed rook_vs_a_pawn = true
  /\ favours_strong_side WHITE rook_vs_a_pawn
       (KRKP (K := types_h) WHITE rook_vs_a_pawn).
Proof.
  assert (V : plausible_values (K := types_h))
    by (unfold plausible_values; simpl; lia).
  split; [exact V|]. split; [reflexivity|].
  destruct (@values_favour_strong_side types_h always_win rook_vs_a_pawn WHITE
              V eq_refl) as (_ & _ & _ & H & _).
  apply H. reflexivity.
Defined.

(** X8: KQKR rewards the approach of the strong king: of two
    well-formed positions with the weak king on the same square, the
    strong side to move and kings that are not adjacent, the one with
    the smaller king distance gets the strictly higher score. *)
Theorem KQKR_prefers_close_kings {K : Constants} (strongSide : Color)
        (pos pos' : Position) :
  well_formed pos = true -> well_formed pos' = true ->
  side_to_move pos = strongSide -> side_to_move pos' = strongSide ->
  king_square pos (opp strongSide) = king_square pos' (opp strongSide) ->
  let d := distance (king_square pos strongSide)
                    (king_square pos (opp strongSide)) in
  let d' := distance (king_square pos' strongSide)
                     (king_square pos' (opp strongSide)) in
  2 <= d -> d < d' ->
  KQKR strongSide pos' < KQKR strongSide pos.
Proof.
  intros Hwf Hwf' Hs Hs' Hking d d' H2 Hlt.
  assert (Hd' : d' <= 7)
    by (apply distance_upper; apply well_formed_king; exact Hwf').
  pose proof (PushClose_decreasing d d' H2 Hlt Hd') as Hclose.
  unfold KQKR. rewrite !sign_flip. unfold for_side_to_move.
  rewrite Hs, Hs'. fold d. fold d'. rewrite <- Hking.
  destruct strongSide; lia.
Qed.

Lemma KQKR_prefers_close_kings_witness :
  well_formed queen_vs_rook_close = true
  /\ well_formed queen_vs_rook = true
  /\ KQKR (K := types_h) WHITE queen_vs_rook
     < KQKR (K := types_h) WHITE queen_vs_rook_close.
Proof.
  split; [reflexivity|]. split; [reflexivity|].
  apply (@KQKR_prefers_close_kings types_h WHITE
           queen_vs_rook_close queen_vs_rook); reflexivity.
Defined.

(** ** The ScaleFactor evaluators in board terms *)

Lemma normalize_is_normalize_by (pos : Position) (c : Color) (s : Square) :
  normalize pos c s = normalize_by (list_at pos PAWN c 0) c s.
Proof. reflexivity. Qed.

(** The normalized pawn is on file A exactly for a rook pawn. *)
Lemma normalized_rook_file (c : Color) (p : Square) :
  is_ok p = true ->
  (file_of (normalize_by p c p) =? FILE_A)
  = (file_of p =? FILE_A) || (file_of p =? FILE_H).
Proof.
  intros H. destruct c.
  - exact (Bool.eqb_prop _ _ (on_every_square
      (fun p => Bool.eqb (file_of (normalize_by p WHITE p) =? FILE_A)
                         ((file_of p =? FILE_A) || (file_of p =? FILE_H)))
      eq_refl p H)).
  - exact (Bool.eqb_prop _ _ (on_every_square
      (fun p => Bool.eqb (file_of (normalize_by p BLACK p) =? FILE_A)
                         ((file_of p =? FILE_A) || (file_of p =? FILE_H)))
      eq_refl p H)).
Qed.

Section PawnEndings.
Context {K : Constants} {C : Collaborators}.

Variable pos : Position.
Variable strongSide : Color.
Hypothesis legal : well_formed pos = true.
Hypothesis one_pawn : count pos PAWN strongSide = 1.

Let pawnSquare : Square := list_at pos PAWN strongSide 0.

Lemma strong_pawn_on_board : is_ok pawnSquare = true.
Proof. apply well_formed_list_at; [exact legal|rewrite one_pawn; simpl; lia]. Qed.

(** X9: KPKP keeps its hands off an advanced pawn: when the strong pawn
    is on its fifth relative rank or beyond and not on a rook file the
    result is SCALE_FACTOR_NONE whatever the bitbase holds; otherwise
    the bitbase alone decides between SCALE_FACTOR_NONE and
    SCALE_FACTOR_DRAW. *)
Theorem KPKP_advanced_pawn :
  let advanced :=
    (RANK_5 <=? relative_rank strongSide pawnSquare)
    && negb ((file_of pawnSquare =? FILE_A) || (file_of pawnSquare =? FILE_H)) in
  (advanced = true -> KPKP strongSide pos = SCALE_FACTOR_NONE)
  /\ (advanced = false ->
      KPKP strongSide pos
      = if probe_kpk (normalize pos strongSide (king_square pos strongSide))
                     (normalize pos strongSide pawnSquare)
                     (normalize pos strongSide (king_square pos (opp strongSide)))
                     (if Color_eqb strongSide (side_to_move pos)
                      then WHITE else BLACK)
        then SCALE_FACTOR_NONE else SCALE_FACTOR_DRAW).
Proof.
  cbv zeta.
  pose proof strong_pawn_on_board as Hp.
  assert (E : (rank_of (normalize pos strongSide pawnSquare) >=? RANK_5)
              && negb (file_of (normalize pos strongSide pawnSquare) =? FILE_A)
              = (RANK_5 <=? relative_rank strongSide pawnSquare)
                && negb ((file_of pawnSquare =? FILE_A)
                         || (file_of pawnSquare =? FILE_H))).
  { rewrite (proj2 (normalize_coordinates pos strongSide _ Hp)).
    rewrite Z.geb_leb. f_equal. f_equal.
    rewrite normalize_is_normalize_by. fold pawnSquare.
    apply normalized_rook_file. exact Hp. }
  unfold KPKP. fold pawnSquare. rewrite E.
  split; intros ->; reflexivity.
Qed.

(** The test of KNPK on a pawn and a king square, and the same in board
    terms. *)
Lemma KNPK_test (c : Color) (p k : Square) :
  is_ok p = true -> is_ok k = true ->
  (normalize_by p c p =? SQ_A7) && (distance SQ_A8 (normalize_by p c k) <=? 1)
  = ((file_of p =? FILE_A) || (file_of p =? FILE_H))
    && (relative_rank c p =? RANK_7)
    && (distance (queening_square c p) k <=? 1).
Proof.
  intros Hp Hk.
  assert (E : forall c,
    forallb (fun p => forallb (fun k =>
      Bool.eqb ((normalize_by p c p =? SQ_A7)
                && (distance SQ_A8 (normalize_by p c k) <=? 1))
               (((file_of p =? FILE_A) || (file_of p =? FILE_H))
                && (relative_rank c p =? RANK_7)
                && (distance (queening_square c p) k <=? 1)))
      squares) squares = true)
    by (intros []; vm_compute; reflexivity).
  exact (Bool.eqb_prop _ _ (on_every_pair _ (E c) p k Hp Hk)).
Qed.

(** X10: KNPK in board terms: it returns SCALE_FACTOR_DRAW exactly when
    the pawn is a rook pawn on its seventh relative rank and the weak
    king is within distance 1 of the pawn's promotion square; otherwise
    SCALE_FACTOR_NONE. *)
Theorem KNPK_rook_pawn_draw :
  KNPK strongSide pos
  = if ((file_of pawnSquare =? FILE_A) || (file_of pawnSquare =? FILE_H))
       && (relative_rank strongSide pawnSquare =? RANK_7)
       && (distance (queening_square strongSide pawnSquare)
                    (king_square pos (opp strongSide)) <=? 1)
    then SCALE_FACTOR_DRAW else SCALE_FACTOR_NONE.
Proof.
  unfold KNPK. rewrite !normalize_is_normalize_by. fold pawnSquare.
  rewrite KNPK_test; [reflexivity|exact strong_pawn_on_board|].
  apply well_formed_king. exact legal.
Qed.

End PawnEndings.

Lemma KPKP_advanced_pawn_witness :
  well_formed advanced_e_pawn = true
  /\ count advanced_e_pawn PAWN WHITE = 1
  /\ KPKP (K := types_h) (C := always_win) WHITE advanced_e_pawn
     = SCALE_FACTOR_NONE (Constants := types_h).
Proof.
  split; [reflexivity|]. split; [reflexivity|].
  exact (proj1 (@KPKP_advanced_pawn types_h always_win advanced_e_pawn WHITE
                  eq_refl eq_refl) eq_refl).
Defined.

Lemma KNPK_rook_pawn_draw_witness :
  well_formed knight_and_h_pawn = true
  /\ count knight_and_h_pawn PAWN WHITE = 1
  /\ KNPK (K := types_h) WHITE knight_and_h_pawn
     = SCALE_FACTOR_DRAW (Constants := types_h).
Proof.
  split; [reflexivity|]. split; [reflexivity|].
  exact (@KNPK_rook_pawn_draw types_h knight_and_h_pawn WHITE eq_refl eq_refl).
Defined.

(** *** Bitboard tests as statements about the piece lists *)

Lemma bb_of_list_land_zero (l : list Square) (m : Bitboard) :
  Z.land (bb_of_list l) m = 0 <->
  forall a, In a l -> Z.land (SquareBB a) m = 0.
Proof.
  split; [|apply bb_of_list_disjoint].
  induction l as [|x l IH]; simpl; intros H a Ha; [contradiction|].
  rewrite Z.land_lor_distr_l in H. apply Z.lor_eq_0_iff in H.
  destruct H as [Hx Hl]. destruct Ha as [<-|Ha]; auto.
Qed.

Lemma bb_of_list_land_nonzero (l : list Square) (m : Bitboard) :
  Z.land (bb_of_list l) m <> 0 ->
  exists a, In a l /\ Z.land (SquareBB a) m <> 0.
Proof.
  induction l as [|x l IH]; simpl; intros H.
  - exfalso. apply H. reflexivity.
  - rewrite Z.land_lor_distr_l in H.
    destruct (Z.eq_dec (Z.land (SquareBB x) m) 0) as [E|E].
    + rewrite E, Z.lor_0_l in H. destruct (IH H) as (a & Ha & Hm).
      exists a. auto.
    + exists x. auto.
Qed.

Lemma nonzero_false (b : Bitboard) : nonzero b = false <-> b = 0.
Proof. unfold nonzero. rewrite negb_false_iff. apply Z.eqb_eq. Qed.

Lemma nonzero_true (b : Bitboard) : nonzero b = true <-> b <> 0.
Proof. unfold nonzero. rewrite negb_true_iff. apply Z.eqb_neq. Qed.

(** One square against the masks that the evaluators use. *)
Lemma square_on_file (a b : Square) :
  is_ok a = true -> is_ok b = true ->
  (Z.land (SquareBB a) (bb_not (file_bb (file_of b))) =? 0)
  = (file_of a =? file_of b).
Proof.
  intros Ha Hb.
  exact (Bool.eqb_prop _ _ (on_every_pair
    (fun a b => Bool.eqb
       (Z.land (SquareBB a) (bb_not (file_bb (file_of b))) =? 0)
       (file_of a =? file_of b)) eq_refl a b Ha Hb)).
Qed.

Lemma square_masks (a : Square) :
  is_ok a = true ->
  (Z.land (SquareBB a) (bb_not FileABB) =? 0) = (file_of a =? FILE_A)
  /\ (Z.land (SquareBB a) (bb_not FileHBB) =? 0) = (file_of a =? FILE_H)
  /\ (Z.land (SquareBB a) (Z.lor FileABB FileHBB) =? 0)
     = negb ((file_of a =? FILE_A) || (file_of a =? FILE_H)).
Proof.
  intros H.
  pose proof (on_every_square
    (fun a => Bool.eqb (Z.land (SquareBB a) (bb_not FileABB) =? 0)
                       (file_of a =? FILE_A)
              && Bool.eqb (Z.land (SquareBB a) (bb_not FileHBB) =? 0)
                          (file_of a =? FILE_H)
              && Bool.eqb (Z.land (SquareBB a) (Z.lor FileABB FileHBB) =? 0)
                          (negb ((file_of a =? FILE_A) || (file_of a =? FILE_H))))
    eq_refl a H) as E.
  cbv beta in E.
  apply andb_true_iff in E. destruct E as [E E3].
  apply andb_true_iff in E. destruct E as [E1 E2].
  apply Bool.eqb_prop in E1, E2, E3. auto.
Qed.

Lemma square_in_front (c : Color) (k a : Square) :
  is_ok k = true -> is_ok a = true ->
  (Z.land (SquareBB a) (bb_not (in_front_bb c (rank_of k))) =? 0)
  = ahead_of c k a.
Proof.
  intros Hk Ha.
  assert (E : forall c,
    forallb (fun k => forallb (fun a =>
      Bool.eqb (Z.land (SquareBB a) (bb_not (in_front_bb c (rank_of k))) =? 0)
               (ahead_of c k a)) squares) squares = true)
    by (intros []; vm_compute; reflexivity).
  exact (Bool.eqb_prop _ _ (on_every_pair _ (E c) k a Hk Ha)).
Qed.

Lemma square_attacked (c : Color) (k r a : Square) :
  is_ok k = true -> is_ok r = true -> is_ok a = true ->
  (Z.land (SquareBB a) (StepAttacks_king k) =? 0) = negb (distance k a =? 1)
  /\ (Z.land (SquareBB a) (StepAttacks_pawn c r) =? 0) = negb (defends c a r).
Proof.
  intros Hk Hr Ha. split.
  - exact (Bool.eqb_prop _ _ (on_every_pair
      (fun k a => Bool.eqb (Z.land (SquareBB a) (StepAttacks_king k) =? 0)
                           (negb (distance k a =? 1))) eq_refl k a Hk Ha)).
  - assert (E : forall c,
      forallb (fun r => forallb (fun a =>
        Bool.eqb (Z.land (SquareBB a) (StepAttacks_pawn c r) =? 0)
                 (negb (defends c a r))) squares) squares = true)
      by (intros []; vm_compute; reflexivity).
    exact (Bool.eqb_prop _ _ (on_every_pair _ (E c) r a Hr Ha)).
Qed.

Lemma square_on_given_file (a : Square) (f : File) :
  is_ok a = true -> 0 <= f <= 7 ->
  (Z.land (SquareBB a) (bb_not (file_bb f)) =? 0) = (file_of a =? f).
Proof.
  intros Ha Hf.
  assert (Hok : is_ok f = true) by (apply is_ok_range; lia).
  assert (E : file_of f = f).
  { pose proof (square_decompose f) as D. pose proof (file_of_range f).
    pose proof (rank_of_range f Hok). lia. }
  pose proof (square_on_file a f Ha Hok) as H. rewrite E in H. exact H.
Qed.

Lemma all_on_file (pos : Position) (c : Color) (f : File) :
  well_formed pos = true -> 0 <= f <= 7 ->
  Z.land (pieces_of pos c PAWN) (bb_not (file_bb f)) = 0 <->
  forall p, In p (pieceList pos c PAWN) -> file_of p = f.
Proof.
  intros Hwf Hf. unfold pieces_of. rewrite bb_of_list_land_zero.
  split; intros H p Hp.
  - apply Z.eqb_eq. rewrite <- square_on_given_file; [|eauto using well_formed_square|exact Hf].
    apply Z.eqb_eq. auto.
  - apply Z.eqb_eq. rewrite square_on_given_file; [|eauto using well_formed_square|exact Hf].
    apply Z.eqb_eq. auto.
Qed.

Lemma scale_factor_choice {K : Constants} (b : bool) :
  SCALE_FACTOR_DRAW <> SCALE_FACTOR_NONE ->
  (if b then SCALE_FACTOR_DRAW else SCALE_FACTOR_NONE) = SCALE_FACTOR_DRAW
  <-> b = true.
Proof. intros H. destruct b; split; intros E; congruence. Qed.

Lemma both_masks (l : list Square) (m1 m2 : Bitboard) :
  Z.land (Z.land (bb_of_list l) m1) m2 <> 0 ->
  exists p, In p l /\ Z.land (SquareBB p) m1 <> 0
                   /\ Z.land (SquareBB p) m2 <> 0.
Proof.
  intros H. rewrite <- Z.land_assoc in H.
  destruct (bb_of_list_land_nonzero _ _ H) as (p & Hin & Hp).
  exists p. split; [exact Hin|]. split; intros E; apply Hp.
  - rewrite Z.land_assoc, E. apply Z.land_0_l.
  - rewrite (Z.land_comm m1), Z.land_assoc, E. apply Z.land_0_l.
Qed.

Lemma attacks_from_king_eq (pos : Position) (s : Square) :
  attacks_from_king pos s = StepAttacks_king s.
Proof. reflexivity. Qed.

Lemma attacks_from_pawn_eq (pos : Position) (s : Square) (c : Color) :
  attacks_from_pawn pos s c = StepAttacks_pawn c s.
Proof. reflexivity. Qed.

(** What a draw of KQKRPs says about the rook and the bitboards. *)
Lemma KQKRPs_tests {K : Constants} (pos : Position) (strongSide : Color) :
  SCALE_FACTOR_DRAW <> SCALE_FACTOR_NONE ->
  KQKRPs strongSide pos = SCALE_FACTOR_DRAW ->
  relative_rank (opp strongSide) (list_at pos ROOK (opp strongSide) 0) = RANK_3
  /\ Z.land (Z.land (bb_of_list (pieceList pos (opp strongSide) PAWN))
                    (StepAttacks_king (king_square pos (opp strongSide))))
            (StepAttacks_pawn strongSide (list_at pos ROOK (opp strongSide) 0))
     <> 0.
Proof.
  intros Hne H. unfold KQKRPs in H.
  rewrite (scale_factor_choice _ Hne) in H.
  apply andb_true_iff in H. destruct H as [H Hbb].
  apply andb_true_iff in H. destruct H as [_ Hr].
  apply Z.eqb_eq in Hr. split; [exact Hr|].
  apply nonzero_true in Hbb.
  rewrite attacks_from_king_eq, attacks_from_pawn_eq in Hbb.
  exact Hbb.
Qed.

Section FortressDraws.
Context {K : Constants}.

Variable pos : Position.
Variable strongSide : Color.
Hypothesis legal : well_formed pos = true.
Hypothesis draw_is_not_none : SCALE_FACTOR_DRAW <> SCALE_FACTOR_NONE.

Let weakSide : Color := opp strongSide.
Let pawns : list Square := pieceList pos strongSide PAWN.

(** X11: KPsK in terms of the pawns: it returns SCALE_FACTOR_DRAW
    exactly when every strong pawn is on a rank ahead of the weak king
    as the weak side sees the board, all strong pawns are on file A or
    all are on file H, and the weak king is within one file of the
    first pawn of the list. *)
Theorem KPsK_draw_iff :
  KPsK strongSide pos = SCALE_FACTOR_DRAW <->
  (forall p, In p pawns -> ahead_of weakSide (king_square pos weakSide) p = true)
  /\ ((forall p, In p pawns -> file_of p = FILE_A)
      \/ (forall p, In p pawns -> file_of p = FILE_H))
  /\ distance_file (king_square pos weakSide) (list_at pos PAWN strongSide 0) <= 1.
Proof.
  assert (Hk : is_ok (king_square pos weakSide) = true)
    by (apply well_formed_king; exact legal).
  assert (Hp : forall p, In p pawns -> is_ok p = true)
    by (intros p; apply well_formed_square; exact legal).
  unfold KPsK. fold weakSide. rewrite (scale_factor_choice _ draw_is_not_none).
  rewrite !andb_true_iff, !negb_true_iff, andb_false_iff, !nonzero_false.
  rewrite Z.leb_le.
  unfold pieces_of. fold pawns.
  change (bb_not FileABB) with (bb_not (file_bb FILE_A)).
  change (bb_not FileHBB) with (bb_not (file_bb FILE_H)).
  rewrite !bb_of_list_land_zero.
  assert (E1 : (forall a, In a pawns ->
                  Z.land (SquareBB a)
                         (bb_not (in_front_bb weakSide
                                    (rank_of (king_square pos weakSide)))) = 0)
               <-> (forall p, In p pawns ->
                      ahead_of weakSide (king_square pos weakSide) p = true)).
  { split; intros H p Hin.
    - rewrite <- square_in_front by auto. apply Z.eqb_eq. auto.
    - apply Z.eqb_eq. rewrite square_in_front by auto. auto. }
  assert (E2 : forall f, 0 <= f <= 7 ->
               (forall a, In a pawns ->
                  Z.land (SquareBB a) (bb_not (file_bb f)) = 0)
               <-> (forall p, In p pawns -> file_of p = f)).
  { intros f Hf. split; intros H p Hin.
    - apply Z.eqb_eq. rewrite <- square_on_given_file by auto.
      apply Z.eqb_eq. auto.
    - apply Z.eqb_eq. rewrite square_on_given_file by auto.
      apply Z.eqb_eq. auto. }
  rewrite E1, (E2 FILE_A), (E2 FILE_H) by (unfold FILE_A, FILE_H; lia).
  tauto.
Qed.

(** X12: KBPsK only ever draws with edge pawns: when it returns
    SCALE_FACTOR_DRAW all strong pawns stand on one file, and that file
    is A, B, G or H. *)
Theorem KBPsK_draw_needs_edge_file :
  KBPsK strongSide pos = SCALE_FACTOR_DRAW ->
  let pawnFile := file_of (list_at pos PAWN strongSide 0) in
  (pawnFile = FILE_A \/ pawnFile = FILE_B
   \/ pawnFile = FILE_G \/ pawnFile = FILE_H)
  /\ forall p, In p pawns -> file_of p = pawnFile.
Proof.
  intros H pawnFile. unfold KBPsK in H. fold pawnFile in H.
  pose proof (file_of_range (list_at pos PAWN strongSide 0)) as Hf.
  fold pawnFile in Hf.
  match type of H with
  | (if (if ?c1 then _ else false) then _ else _) = _ =>
      destruct c1 eqn:E1
  end.
  - apply andb_true_iff in E1. destruct E1 as [Ef Em].
    apply negb_true_iff, nonzero_false in Em.
    split.
    + apply orb_true_iff in Ef. destruct Ef as [Ef|Ef];
        apply Z.eqb_eq in Ef; auto.
    + apply (all_on_file pos strongSide pawnFile legal Hf). exact Em.
  - cbv iota in H.
    match type of H with
    | (if (if ?c2 then _ else false) then _ else _) = _ =>
        destruct c2 eqn:E2
    end.
    + apply andb_true_iff in E2. destruct E2 as [E2 _].
      apply andb_true_iff in E2. destruct E2 as [E2 _].
      apply andb_true_iff in E2. destruct E2 as [Ef Em].
      apply negb_true_iff, nonzero_false in Em.
      split.
      * apply orb_true_iff in Ef. destruct Ef as [Ef|Ef];
          apply Z.eqb_eq in Ef; auto.
      * apply (all_on_file pos strongSide pawnFile legal Hf).
        unfold pieces_pt in Em. rewrite Z.land_lor_distr_l in Em.
        apply Z.lor_eq_0_iff in Em.
        destruct strongSide; tauto.
    + cbv iota in H. congruence.
Qed.

(** X13: the fortress of KQKRPs needs its pawn: when it returns
    SCALE_FACTOR_DRAW the weak rook is on its third relative rank and
    some weak pawn stands next to the weak king and attacks the rook's
    square. *)
Theorem KQKRPs_draw_needs_pawn :
  0 < count pos ROOK weakSide ->
  KQKRPs strongSide pos = SCALE_FACTOR_DRAW ->
  let kingSquare := king_square pos weakSide in
  let rookSquare := list_at pos ROOK weakSide 0 in
  relative_rank weakSide rookSquare = RANK_3
  /\ exists p, In p (pieceList pos weakSide PAWN)
               /\ distance kingSquare p = 1
               /\ defends strongSide p rookSquare = true.
Proof.
  intros Hrook H.
  assert (Hk : is_ok (king_square pos weakSide) = true)
    by (apply well_formed_king; exact legal).
  assert (Hrk : is_ok (list_at pos ROOK weakSide 0) = true)
    by (apply well_formed_list_at; [exact legal|simpl; lia]).
  apply (KQKRPs_tests pos strongSide draw_is_not_none) in H.
  destruct H as (Hr & Hbb). split; [exact Hr|].
  destruct (both_masks _ _ _ Hbb) as (p & Hin & Hpk & Hpp).
  assert (Hok : is_ok p = true) by (eapply well_formed_square; eauto).
  destruct (square_attacked strongSide _ _ _ Hk Hrk Hok) as (Ak & Ap).
  exists p. split; [exact Hin|]. unfold weakSide in *.
  apply Z.eqb_neq in Hpk. apply Z.eqb_neq in Hpp.
  rewrite Hpk in Ak. rewrite Hpp in Ap.
  symmetry in Ak. symmetry in Ap.
  apply negb_false_iff in Ak. apply negb_false_iff in Ap.
  split; [apply Z.eqb_eq; exact Ak|exact Ap].
Qed.

(** X14: KRPKB only speaks about rook pawns: when it returns anything
    but SCALE_FACTOR_NONE some pawn stands on file A or H, and the
    result is 24 or 48 with the strong pawn on its fifth relative rank
    or 8 with the pawn on its sixth. *)
Theorem KRPKB_needs_rook_pawn :
  KRPKB strongSide pos <> SCALE_FACTOR_NONE ->
  (exists c p, In p (pieceList pos c PAWN)
               /\ (file_of p = FILE_A \/ file_of p = FILE_H))
  /\ let rank := relative_rank strongSide (list_at pos PAWN strongSide 0) in
     (rank = RANK_5 /\ (KRPKB strongSide pos = 24 \/ KRPKB strongSide pos = 48))
     \/ (rank = RANK_6 /\ KRPKB strongSide pos = 8).
Proof.
  intros H. unfold KRPKB in *.
  destruct (nonzero (Z.land (pieces_pt pos PAWN) (Z.lor FileABB FileHBB)))
    eqn:Hbb; [|congruence].
  split.
  - apply nonzero_true in Hbb. unfold pieces_pt in Hbb.
    rewrite Z.land_lor_distr_l in Hbb.
    assert (Hside : exists c, Z.land (pieces_of pos c PAWN)
                                     (Z.lor FileABB FileHBB) <> 0).
    { destruct (Z.eq_dec (Z.land (pieces_of pos WHITE PAWN)
                                 (Z.lor FileABB FileHBB)) 0) as [E|E].
      - exists BLACK. rewrite E, Z.lor_0_l in Hbb. exact Hbb.
      - exists WHITE. exact E. }
    destruct Hside as (c & Hc).
    destruct (bb_of_list_land_nonzero _ _ Hc) as (p & Hin & Hp).
    exists c, p. split; [exact Hin|].
    assert (Hok : is_ok p = true) by (eapply well_formed_square; eauto).
    destruct (square_masks p Hok) as (_ & _ & E).
    apply Z.eqb_neq in Hp. rewrite Hp in E.
    symmetry in E. apply negb_false_iff, orb_true_iff in E.
    destruct E as [E|E]; apply Z.eqb_eq in E; auto.
  - cbv zeta.
    match type of H with
    | (if ?c5 then _ else _) <> _ => destruct c5 eqn:E5
    end.
    + left. apply andb_true_iff in E5. destruct E5 as [E5 _].
      apply Z.eqb_eq in E5. split; [exact E5|].
      match goal with
      | |- context [if ?c then 24 else 48] => destruct c
      end; auto.
    + match type of H with
      | (if ?c6 then _ else _) <> _ => destruct c6 eqn:E6
      end; [|congruence].
      right. repeat (apply andb_true_iff in E6; destruct E6 as [E6 _]).
      apply Z.eqb_eq in E6. auto.
Qed.

End FortressDraws.

Lemma KPsK_draw_iff_witness :
  well_formed doubled_a_pawns = true
  /\ KPsK (K := types_h) WHITE doubled_a_pawns
     = SCALE_FACTOR_DRAW (Constants := types_h).
Proof.
  split; [reflexivity|].
  apply (@KPsK_draw_iff types_h doubled_a_pawns WHITE eq_refl).
  - discriminate.
  - split; [|split].
    + intros p Hp. vm_compute in Hp.
      destruct Hp as [<-|[<-|[]]]; reflexivity.
    + left. intros p Hp. vm_compute in Hp.
      destruct Hp as [<-|[<-|[]]]; reflexivity.
    + vm_compute. discriminate.
Defined.

Lemma KBPsK_draw_needs_edge_file_witness :
  well_formed wrong_bishop = true
  /\ forall p, In p (pieceList wrong_bishop WHITE PAWN) -> file_of p = FILE_A.
Proof.
  split; [reflexivity|].
  apply (@KBPsK_draw_needs_edge_file types_h wrong_bishop WHITE eq_refl).
  - discriminate.
  - reflexivity.
Defined.

Lemma KQKRPs_draw_needs_pawn_witness :
  well_formed rook_fortress = true
  /\ KQKRPs (K := types_h) WHITE rook_fortress
     = SCALE_FACTOR_DRAW (Constants := types_h)
  /\ exists p, In p (pieceList rook_fortress BLACK PAWN)
               /\ distance (king_square rook_fortress BLACK) p = 1
               /\ defends WHITE p (list_at rook_fortress ROOK BLACK 0) = true.
Proof.
  split; [reflexivity|]. split; [reflexivity|].
  apply (@KQKRPs_draw_needs_pawn types_h rook_fortress WHITE eq_refl).
  - discriminate.
  - reflexivity.
  - reflexivity.
Defined.

Lemma KRPKB_needs_rook_pawn_witness :
  well_formed rook_a_pawn_vs_bishop = true
  /\ KRPKB (K := types_h) WHITE rook_a_pawn_vs_bishop = 48
  /\ exists c p, In p (pieceList rook_a_pawn_vs_bishop c PAWN)
                 /\ (file_of p = FILE_A \/ file_of p = FILE_H).
Proof.
  split; [reflexivity|]. split; [reflexivity|].
  apply (@KRPKB_needs_rook_pawn types_h rook_a_pawn_vs_bishop WHITE eq_refl).
  vm_compute. discriminate.
Defined.

(** ** The forged FEN strings and the registry *)

Module RegistryFacts.

Import Ascii String.
Import Registry.
Local Open Scope string_scope.

Lemma find_second_K (strong weak : string) :
  has_K strong = false ->
  find "K" 1 ("K" ++ strong ++ "K" ++ weak) = Some (S (length strong)).
Proof.
  intros H. simpl. f_equal.
  induction strong as [|a r IH]; simpl in *.
  - reflexivity.
  - apply orb_false_iff in H. destruct H as [Ha Hr].
    rewrite Ha, (IH Hr). reflexivity.
Qed.

Lemma substr_at_split (a b : string) :
  substr_to (length a) (a ++ b) = a /\ substr_from (length a) (a ++ b) = b.
Proof.
  induction a as [|x r IH]; simpl.
  - split; [reflexivity|]. destruct b; reflexivity.
  - destruct IH as [I1 I2]. rewrite I1. auto.
Qed.

Lemma length_transform_tolower (s : string) :
  length (transform_tolower s) = length s.
Proof. induction s; simpl; congruence. Qed.

(** X15: what [key] forges from a code "K<strong>K<weak>" (no K inside
    <strong>): the strong side goes on the first rank and the weak side
    on the eighth, each followed by the digit 7 - (number of its
    pieces besides the king) that completes the rank; the side of
    colour [color] that is Black is written in lower case, so the
    strong side is White exactly when [color] is WHITE. *)
Theorem fenString_shape (strong weak : string) (color : Color) :
  has_K strong = false ->
  (length strong < 7)%nat -> (length weak < 7)%nat ->
  let strongSide := String "K" strong in
  let weakSide := String "K" weak in
  let digit n := ascii_of_nat (nat_of_ascii "0" + (7 - n)) in
  fenString ("K" ++ strong ++ "K" ++ weak) color
  = Some ((match color with
           | WHITE => transform_tolower weakSide
           | BLACK => weakSide
           end)
          ++ String (digit (length weak)) "/8/8/8/8/8/8/"
          ++ (match color with
              | WHITE => strongSide
              | BLACK => transform_tolower strongSide
              end)
          ++ String (digit (length strong)) " w - - 0 10").
Proof.
  intros HK Hs Hw. cbv zeta. unfold fenString.
  rewrite (find_second_K strong weak HK).
  change ("K" ++ strong ++ "K" ++ weak)
    with (String "K" strong ++ String "K" weak).
  change (S (length strong)) with (length (String "K" strong)).
  destruct (substr_at_split (String "K" strong) (String "K" weak)) as [E1 E2].
  rewrite E1, E2.
  assert (D : forall n, (n < 7)%nat ->
            empty_squares (S n) = ascii_of_nat (nat_of_ascii "0" + (7 - n))).
  { intros n Hn.
    assert (C7 : (n = 0 \/ n = 1 \/ n = 2 \/ n = 3 \/ n = 4 \/ n = 5
                  \/ n = 6)%nat) by lia.
    destruct C7 as [C7|[C7|[C7|[C7|[C7|[C7|C7]]]]]]; subst n; reflexivity. }
  destruct color; rewrite ?length_transform_tolower;
    cbn [length]; rewrite !D by assumption; reflexivity.
Qed.

Lemma fenString_shape_witness :
  fenString "KBPKN" WHITE = Some "kn6/8/8/8/8/8/8/KBP5 w - - 0 10"
  /\ fenString "KBPKN" BLACK = Some "KN6/8/8/8/8/8/8/kbp5 w - - 0 10".
Proof.
  split.
  - exact (fenString_shape "BP" "N" WHITE eq_refl
             ltac:(simpl; lia) ltac:(simpl; lia)).
  - exact (fenString_shape "BP" "N" BLACK eq_refl
             ltac:(simpl; lia) ltac:(simpl; lia)).
Defined.

(** X16: a code with no K after its first letter has no key: [find]
    returns [npos] and [substr] throws. *)
Theorem key_without_second_K {P : PositionSetup} (a : ascii) (rest : string)
        (color : Color) :
  has_K rest = false ->
  fenString (String a rest) color = None /\ key (String a rest) color = None.
Proof.
  intros H.
  assert (E : find "K" 1 (String a rest) = None).
  { simpl. induction rest as [|x r IH]; simpl in *.
    - reflexivity.
    - apply orb_false_iff in H. destruct H as [Hx Hr].
      rewrite Hx, (IH Hr). reflexivity. }
  unfold key, fenString. rewrite E. split; reflexivity.
Qed.

Lemma key_without_second_K_witness :
  key (P := sample_setup) "KQ" WHITE = None.
Proof.
  exact (proj2 (@key_without_second_K sample_setup "K" "Q" WHITE eq_refl)).
Defined.

Lemma assign_all_other (l : list (Key * Binding)) (m : Map) (k : Key) :
  ~ In k (map fst l) -> assign_all l m k = m k.
Proof.
  revert m. induction l as [|[k0 v0] r IH]; intros m H; simpl in *.
  - reflexivity.
  - unfold assign_all in *. simpl. rewrite IH by tauto.
    unfold assign. destruct (Z.eqb_spec k k0); [|reflexivity].
    exfalso. apply H. left. congruence.
Qed.

Lemma assign_all_lookup (l : list (Key * Binding)) (m : Map) (k : Key)
      (v : Binding) :
  NoDup (map fst l) -> In (k, v) l -> assign_all l m k = Some v.
Proof.
  revert m. induction l as [|[k0 v0] r IH]; intros m Hnd Hin; simpl in *.
  - contradiction.
  - inversion Hnd as [|? ? Hnot Hr]; subst.
    unfold assign_all in *. simpl.
    destruct Hin as [E|Hin].
    + inversion E; subst.
      pose proof (assign_all_other r (assign k v m) k Hnot) as O.
      unfold assign_all in O. rewrite O.
      unfold assign. rewrite Z.eqb_refl. reflexivity.
    + apply IH; assumption.
Qed.

Lemma assign_all_only (l : list (Key * Binding)) (m : Map) (k : Key)
      (v : Binding) :
  assign_all l m k = Some v -> In (k, v) l \/ m k = Some v.
Proof.
  revert m. induction l as [|[k0 v0] r IH]; intros m H.
  - right. exact H.
  - unfold assign_all in H. simpl in H.
    destruct (IH _ H) as [Hin|Hm].
    + left. right. exact Hin.
    + unfold assign in Hm. destruct (Z.eqb_spec k k0).
      * left. left. congruence.
      * right. exact Hm.
Qed.

Lemma all_distinct_NoDup (ks : list Key) :
  all_distinct (map Some ks) = true -> NoDup ks.
Proof.
  induction ks as [|k r IH]; simpl; intros H.
  - constructor.
  - apply andb_true_iff in H. destruct H as [Hk Hr].
    constructor; [|auto].
    intros Hin. apply negb_true_iff in Hk.
    assert (E : existsb (fun o => match o with
                                  | Some k' => (k' =? k)%Z
                                  | None => false
                                  end) (map Some r) = true).
    { apply existsb_exists. exists (Some k). split.
      - apply in_map. exact Hin.
      - apply Z.eqb_refl. }
    congruence.
Qed.

Section TheRegistry.
Context {P : PositionSetup}.

Lemma Endgames_ctor_maps :
  Endgames_ctor
  = Some {| m1 := assign_all (bindings value_endgames) empty_map;
            m2 := assign_all (bindings scale_endgames) empty_map |}.
Proof. reflexivity. Qed.

Lemma forged_keys_of_bindings :
  forged_keys value_endgames = map Some (map fst (bindings value_endgames))
  /\ forged_keys scale_endgames = map Some (map fst (bindings scale_endgames)).
Proof. split; reflexivity. Qed.

Lemma key_of_registered (E : EndgameType) (code : string) (c : Color) :
  In (E, code) value_endgames \/ In (E, code) scale_endgames ->
  exists k, key code c = Some k
            /\ (In (E, code) value_endgames ->
                In (k, (E, c)) (bindings value_endgames))
            /\ (In (E, code) scale_endgames ->
                In (k, (E, c)) (bindings scale_endgames)).
Proof.
  intros H.
  assert (Hcases : In (E, code) (value_endgames ++ scale_endgames))
    by (apply in_or_app; exact H).
  clear H. unfold value_endgames, scale_endgames in Hcases.
  simpl in Hcases.
  repeat (destruct Hcases as [Hcases|Hcases];
          [ inversion Hcases; subst; destruct c;
            (eexists; split; [reflexivity|];
             split; intros Hin;
             [ first [ simpl; tauto
                     | exfalso; simpl in Hin;
                       repeat (destruct Hin as [Hin|Hin];
                               [discriminate Hin|]); exact Hin ]
             | first [ simpl; tauto
                     | exfalso; simpl in Hin;
                       repeat (destruct Hin as [Hin|Hin];
                               [discriminate Hin|]); exact Hin ] ])
          | ]).
  contradiction.
Qed.

(** X17: the constructor succeeds, and when the material keys forged
    for the eight Value codes are pairwise different, and likewise
    those for the eight ScaleFactor codes, every registered
    configuration is found again under the key of its code with either
    colour, bound to that colour as strong side. *)
Theorem registry_lookup :
  all_distinct (forged_keys value_endgames) = true ->
  all_distinct (forged_keys scale_endgames) = true ->
  exists eg,
    Endgames_ctor = Some eg
    /\ (forall E code c, In (E, code) value_endgames ->
        exists k, key code c = Some k /\ m1 eg k = Some (E, c))
    /\ (forall E code c, In (E, code) scale_endgames ->
        exists k, key code c = Some k /\ m2 eg k = Some (E, c)).
Proof.
  intros Hv Hs. destruct forged_keys_of_bindings as [Fv Fs].
  rewrite Fv in Hv. rewrite Fs in Hs.
  apply all_distinct_NoDup in Hv. apply all_distinct_NoDup in Hs.
  eexists. split; [exact Endgames_ctor_maps|]. split.
  - intros E code c Hin.
    destruct (key_of_registered E code c (or_introl Hin)) as (k & Hk & Hb & _).
    exists k. split; [exact Hk|].
    cbn [m1]. apply assign_all_lookup; auto.
  - intros E code c Hin.
    destruct (key_of_registered E code c (or_intror Hin)) as (k & Hk & _ & Hb).
    exists k. split; [exact Hk|].
    cbn [m2]. apply assign_all_lookup; auto.
Qed.

Lemma bindings_registered (l : list (EndgameType * string)) (k : Key)
      (E : EndgameType) (c : Color) :
  In (k, (E, c)) (bindings l) ->
  exists code, In (E, code) l /\ key code c = Some k.
Proof.
  unfold bindings. intros H. apply in_flat_map in H.
  destruct H as ([E0 code] & Hin & Hk). simpl in Hk.
  destruct (key code WHITE) as [kw|] eqn:Ew; [|contradiction].
  destruct (key code BLACK) as [kb|] eqn:Eb; [|contradiction].
  exists code.
  destruct Hk as [Hk|[Hk|[]]]; inversion Hk; subst; auto.
Qed.

(** X18: the registry holds nothing but what the constructor adds: a
    binding found in the Value map is one of the eight Value
    configurations registered under the key of its code, a binding
    found in the ScaleFactor map one of the eight ScaleFactor
    configurations; KXK, KBPsK, KQKRPs, KPsK and KPKP are never
    found. *)
Theorem registry_only :
  exists eg,
    Endgames_ctor = Some eg
    /\ (forall k E c, m1 eg k = Some (E, c) ->
        returns_scale_factor E = false
        /\ exists code, In (E, code) value_endgames /\ key code c = Some k)
    /\ (forall k E c, m2 eg k = Some (E, c) ->
        returns_scale_factor E = true
        /\ exists code, In (E, code) scale_endgames /\ key code c = Some k)
    /\ (forall k E c, m1 eg k = Some (E, c) \/ m2 eg k = Some (E, c) ->
        E <> KXK /\ E <> KBPsK /\ E <> KQKRPs /\ E <> KPsK /\ E <> KPKP).
Proof.
  assert (Hv : forall k E c,
    assign_all (bindings value_endgames) empty_map k = Some (E, c) ->
    exists code, In (E, code) value_endgames /\ key code c = Some k).
  { intros k E c H. apply assign_all_only in H.
    destruct H as [H|H]; [|discriminate H].
    apply bindings_registered. exact H. }
  assert (Hs : forall k E c,
    assign_all (bindings scale_endgames) empty_map k = Some (E, c) ->
    exists code, In (E, code) scale_endgames /\ key code c = Some k).
  { intros k E c H. apply assign_all_only in H.
    destruct H as [H|H]; [|discriminate H].
    apply bindings_registered. exact H. }
  assert (Tv : forall E code, In (E, code) value_endgames ->
               returns_scale_factor E = false
               /\ E <> KXK /\ E <> KBPsK /\ E <> KQKRPs /\ E <> KPsK
               /\ E <> KPKP).
  { intros E code H. unfold value_endgames in H. simpl in H.
    repeat (destruct H as [H|H];
            [inversion H; subst; repeat split; discriminate|]).
    contradiction. }
  assert (Ts : forall E code, In (E, code) scale_endgames ->
               returns_scale_factor E = true
               /\ E <> KXK /\ E <> KBPsK /\ E <> KQKRPs /\ E <> KPsK
               /\ E <> KPKP).
  { intros E code H. unfold scale_endgames in H. simpl in H.
    repeat (destruct H as [H|H];
            [inversion H; subst; repeat split; discriminate|]).
    contradiction. }
  eexists. split; [exact Endgames_ctor_maps|]. cbn [m1 m2].
  split; [|split].
  - intros k E c H. destruct (Hv k E c H) as (code & Hin & Hk).
    split; [exact (proj1 (Tv E code Hin))|eauto].
  - intros k E c H. destruct (Hs k E c H) as (code & Hin & Hk).
    split; [exact (proj1 (Ts E code Hin))|eauto].
  - intros k E c [H|H].
    + destruct (Hv k E c H) as (code & Hin & _).
      exact (proj2 (Tv E code Hin)).
    + destruct (Hs k E c H) as (code & Hin & _).
      exact (proj2 (Ts E code Hin)).
Qed.

End TheRegistry.

Lemma registry_lookup_witness :
  all_distinct (forged_keys (P := sample_setup) value_endgames) = true
  /\ all_distinct (forged_keys (P := sample_setup) scale_endgames) = true
  /\ exists eg,
       Endgames_ctor (P := sample_setup) = Some eg
       /\ exists k, key (P := sample_setup) "KRPKR" BLACK = Some k
                    /\ m2 eg k = Some (KRPKR, BLACK).
Proof.
  assert (Hv : all_distinct (forged_keys (P := sample_setup) value_endgames)
               = true) by (vm_compute; reflexivity).
  assert (Hs : all_distinct (forged_keys (P := sample_setup) scale_endgames)
               = true) by (vm_compute; reflexivity).
  split; [exact Hv|]. split; [exact Hs|].
  destruct (@registry_lookup sample_setup Hv Hs) as (eg & E & _ & H2).
  exists eg. split; [exact E|].
  apply H2. unfold scale_endgames. simpl. tauto.
Defined.

End RegistryFacts.

(** ** Further properties of single evaluators *)

Lemma pair_symmetries (a b : Square) :
  is_ok a = true -> is_ok b = true ->
  (file_of (Z.lxor a 7) =? file_of (Z.lxor b 7)) = (file_of a =? file_of b)
  /\ (file_of (flip a) =? file_of (flip b)) = (file_of a =? file_of b)
  /\ opposite_colors (Z.lxor a 7) (Z.lxor b 7) = opposite_colors a b
  /\ opposite_colors (flip a) (flip b) = opposite_colors a b.
Proof.
  intros Ha Hb.
  pose proof (on_every_pair
    (fun a b =>
       Bool.eqb (file_of (Z.lxor a 7) =? file_of (Z.lxor b 7))
                (file_of a =? file_of b)
       && Bool.eqb (file_of (flip a) =? file_of (flip b))
                   (file_of a =? file_of b)
       && Bool.eqb (opposite_colors (Z.lxor a 7) (Z.lxor b 7))
                   (opposite_colors a b)
       && Bool.eqb (opposite_colors (flip a) (flip b)) (opposite_colors a b))
    eq_refl a b Ha Hb) as E.
  cbv beta in E.
  apply andb_true_iff in E. destruct E as [E E4].
  apply andb_true_iff in E. destruct E as [E E3].
  apply andb_true_iff in E. destruct E as [E1 E2].
  apply Bool.eqb_prop in E1, E2, E3, E4. auto.
Qed.

Lemma relative_rank_symmetries (c : Color) (a : Square) :
  is_ok a = true ->
  relative_rank c (Z.lxor a 7) = relative_rank c a
  /\ relative_rank (opp c) (flip a) = relative_rank c a.
Proof.
  intros Ha.
  assert (E : forall c,
    forallb (fun a => (relative_rank c (Z.lxor a 7) =? relative_rank c a)
                      && (relative_rank (opp c) (flip a) =? relative_rank c a))
            squares = true)
    by (intros []; vm_compute; reflexivity).
  pose proof (on_every_square _ (E c) a Ha) as H. cbv beta in H.
  bool_prop. auto.
Qed.

Section SingleEvaluators.
Context {K : Constants}.

Variable pos : Position.
Variable strongSide : Color.
Hypothesis legal : well_formed pos = true.

(** X19: KBPKN returns the same on the left-right mirrored position and
    on the position with the colours exchanged. *)
Theorem KBPKN_symmetric :
  0 < count pos PAWN strongSide -> 0 < count pos BISHOP strongSide ->
  KBPKN strongSide (mirror_files pos) = KBPKN strongSide pos
  /\ KBPKN (opp strongSide) (flip_colors pos) = KBPKN strongSide pos.
Proof.
  intros Hp Hb.
  pose proof (well_formed_one_king pos (opp strongSide) legal) as Hk.
  assert (Okp : is_ok (list_at pos PAWN strongSide 0) = true)
    by (apply well_formed_list_at; [exact legal|simpl; lia]).
  assert (Okb : is_ok (list_at pos BISHOP strongSide 0) = true)
    by (apply well_formed_list_at; [exact legal|simpl; lia]).
  assert (Okk : is_ok (king_square pos (opp strongSide)) = true)
    by (apply well_formed_king; exact legal).
  destruct (pair_symmetries _ _ Okk Okp) as (F7 & F56 & _ & _).
  destruct (pair_symmetries _ _ Okk Okb) as (_ & _ & O7 & O56).
  destruct (relative_rank_symmetries strongSide _ Okp) as (Rp7 & Rp56).
  destruct (relative_rank_symmetries strongSide _ Okk) as (Rk7 & Rk56).
  split.
  - unfold KBPKN, king_square.
    rewrite !list_at_mirror_files by (simpl; lia).
    fold (king_square pos (opp strongSide)).
    rewrite F7, O7, Rp7, Rk7. reflexivity.
  - unfold KBPKN, king_square. rewrite opp_involutive.
    rewrite !list_at_flip_colors by (simpl; lia).
    rewrite (list_at_flip_colors_opp pos KING strongSide 0) by (simpl; lia).
    fold (king_square pos (opp strongSide)).
    rewrite F56, O56, Rp56, Rk56. reflexivity.
Qed.

(** X20: draws of the bishop endings, each within its material.  With
    bishop and pawn against bishop, the bishops on opposite colours and
    the pawn not beyond its fifth relative rank, KBPKB returns
    SCALE_FACTOR_DRAW wherever the kings are; with bishop and two pawns
    against bishop, KBPPKB returns SCALE_FACTOR_DRAW only with bishops
    on opposite colours, the weak king on a square of the other colour
    than the strong bishop's, and the pawns at most one file apart. *)
Theorem bishop_ending_draws :
  SCALE_FACTOR_DRAW <> SCALE_FACTOR_NONE ->
  (verify_material pos strongSide BishopValueMg 1 = true ->
   verify_material pos (opp strongSide) BishopValueMg 0 = true ->
   opposite_colors (list_at pos BISHOP strongSide 0)
                   (list_at pos BISHOP (opp strongSide) 0) = true ->
   relative_rank strongSide (list_at pos PAWN strongSide 0) <= RANK_5 ->
   KBPKB strongSide pos = SCALE_FACTOR_DRAW)
  /\ (verify_material pos strongSide BishopValueMg 2 = true ->
      verify_material pos (opp strongSide) BishopValueMg 0 = true ->
      KBPPKB strongSide pos = SCALE_FACTOR_DRAW ->
      opposite_colors (list_at pos BISHOP strongSide 0)
                      (list_at pos BISHOP (opp strongSide) 0) = true
      /\ opposite_colors (king_square pos (opp strongSide))
                         (list_at pos BISHOP strongSide 0) = true
      /\ distance_file (list_at pos PAWN strongSide 0)
                       (list_at pos PAWN strongSide 1) <= 1).
Proof.
  intros Hne. split.
  - intros _ _ Hopp Hrank. unfold KBPKB. rewrite Hopp.
    apply Z.leb_le in Hrank. rewrite Hrank.
    match goal with
    | |- (if ?c then _ else _) = _ => destruct c
    end; reflexivity.
  - intros _ _. unfold KBPPKB.
    destruct (opposite_colors (list_at pos BISHOP strongSide 0)
                              (list_at pos BISHOP (opp strongSide) 0));
      cbn [negb]; cbv iota; [|congruence].
    match goal with
    | |- (let '(_, _) := (if ?c then _ else _) in _) = _ -> _ => destruct c
    end.
    + repeat match goal with
             | |- (if ?c then _ else _) = _ -> _ => destruct c eqn:?
             end; intros H; try congruence; bool_prop;
        repeat split; auto; lia.
    + repeat match goal with
             | |- (if ?c then _ else _) = _ -> _ => destruct c eqn:?
             end; intros H; try congruence; bool_prop;
        repeat split; auto; lia.
Qed.

End SingleEvaluators.

Lemma KBPKN_symmetric_witness :
  well_formed blockaded_e_pawn = true
  /\ KBPKN (K := types_h) WHITE (mirror_files blockaded_e_pawn)
     = SCALE_FACTOR_DRAW (Constants := types_h)
  /\ KBPKN (K := types_h) BLACK (flip_colors blockaded_e_pawn)
     = SCALE_FACTOR_DRAW (Constants := types_h).
Proof.
  split; [reflexivity|].
  exact (@KBPKN_symmetric types_h blockaded_e_pawn WHITE
           eq_refl eq_refl eq_refl).
Defined.

Lemma bishop_ending_draws_witness :
  SCALE_FACTOR_DRAW (Constants := types_h)
  <> SCALE_FACTOR_NONE (Constants := types_h)
  /\ well_formed opposite_bishops_e_pawn = true
  /\ well_formed doubled_e_pawns = true
  /\ verify_material (K := types_h) opposite_bishops_e_pawn WHITE 836 1 = true
  /\ verify_material (K := types_h) opposite_bishops_e_pawn BLACK 836 0 = true
  /\ KBPKB (K := types_h) WHITE opposite_bishops_e_pawn
     = SCALE_FACTOR_DRAW (Constants := types_h)
  /\ verify_material (K := types_h) doubled_e_pawns WHITE 836 2 = true
  /\ verify_material (K := types_h) doubled_e_pawns BLACK 836 0 = true
  /\ KBPPKB (K := types_h) WHITE doubled_e_pawns
     = SCALE_FACTOR_DRAW (Constants := types_h)
  /\ distance_file (list_at doubled_e_pawns PAWN WHITE 0)
                   (list_at doubled_e_pawns PAWN WHITE 1) <= 1.
Proof.
  assert (Hne : SCALE_FACTOR_DRAW (Constants := types_h)
                <> SCALE_FACTOR_NONE (Constants := types_h))
    by discriminate.
  split; [exact Hne|]. split; [reflexivity|]. split; [reflexivity|].
  split; [reflexivity|]. split; [reflexivity|]. split.
  - apply (proj1 (@bishop_ending_draws types_h opposite_bishops_e_pawn
                    WHITE Hne)).
    + reflexivity.
    + reflexivity.
    + reflexivity.
    + vm_compute. discriminate.
  - split; [reflexivity|]. split; [reflexivity|]. split; [reflexivity|].
    apply (proj2 (@bishop_ending_draws types_h doubled_e_pawns WHITE Hne));
      reflexivity.
Defined.

(** X21: with the strong side to move KXK does not depend on the move
    generator (nor on the bitbase): the stalemate test is only made
    for the weak side. *)
Theorem KXK_strong_to_move_ignores_movegen {K : Constants}
        (C1 C2 : Collaborators) (strongSide : Color) (pos : Position) :
  side_to_move pos = strongSide ->
  KXK (C := C1) strongSide pos = KXK (C := C2) strongSide pos.
Proof.
  intros H. unfold KXK. rewrite H, Color_eqb_opp. reflexivity.
Qed.

Lemma KXK_strong_to_move_ignores_movegen_witness :
  side_to_move bishop_only = WHITE
  /\ KXK (K := types_h) (C := never_a_move) WHITE bishop_only = 916.
Proof.
  split; [reflexivity|].
  rewrite (@KXK_strong_to_move_ignores_movegen types_h never_a_move always_win
             WHITE bishop_only eq_refl).
  reflexivity.
Defined.

Lemma PushAway_increasing (d1 d2 : Z) :
  0 <= d1 -> d1 < d2 -> d2 <= 7 ->
  table_at PushAway d1 < table_at PushAway d2.
Proof.
  intros H1 H12 H2.
  assert (E1 : d1 = 0 \/ d1 = 1 \/ d1 = 2 \/ d1 = 3 \/ d1 = 4 \/ d1 = 5
               \/ d1 = 6) by lia.
  assert (E2 : d2 = 1 \/ d2 = 2 \/ d2 = 3 \/ d2 = 4 \/ d2 = 5 \/ d2 = 6
               \/ d2 = 7) by lia.
  destruct E1 as [E1|[E1|[E1|[E1|[E1|[E1|E1]]]]]]; subst d1;
    destruct E2 as [E2|[E2|[E2|[E2|[E2|[E2|E2]]]]]]; subst d2;
    try lia; reflexivity.
Qed.

(** X22: KRKN rewards the separation of the weak king and its knight:
    of two well-formed positions with the weak king on the same square
    and the strong side to move, the one with the knight further from
    its king gets the strictly higher score. *)
Theorem KRKN_prefers_far_knight (strongSide : Color) (pos pos' : Position) :
  well_formed pos = true -> well_formed pos' = true ->
  0 < count pos KNIGHT (opp strongSide) ->
  0 < count pos' KNIGHT (opp strongSide) ->
  side_to_move pos = strongSide -> side_to_move pos' = strongSide ->
  king_square pos (opp strongSide) = king_square pos' (opp strongSide) ->
  distance (king_square pos (opp strongSide))
           (list_at pos KNIGHT (opp strongSide) 0)
  < distance (king_square pos' (opp strongSide))
             (list_at pos' KNIGHT (opp strongSide) 0) ->
  KRKN strongSide pos < KRKN strongSide pos'.
Proof.
  intros Hwf Hwf' Hn Hn' Hs Hs' Hking Hlt.
  assert (Hd' : distance (king_square pos' (opp strongSide))
                         (list_at pos' KNIGHT (opp strongSide) 0) <= 7).
  { apply distance_upper.
    - apply well_formed_king. exact Hwf'.
    - apply well_formed_list_at; [exact Hwf'|simpl; lia]. }
  pose proof (PushAway_increasing _ _ (distance_nonneg _ _) Hlt Hd') as Haway.
  unfold KRKN. rewrite !sign_flip. unfold for_side_to_move.
  rewrite Hs, Hs'. rewrite <- Hking in Haway |- *.
  destruct strongSide; lia.
Qed.

Lemma KRKN_prefers_far_knight_witness :
  well_formed rook_vs_knight = true
  /\ well_formed rook_vs_far_knight = true
  /\ KRKN WHITE rook_vs_knight < KRKN WHITE rook_vs_far_knight.
Proof.
  split; [reflexivity|]. split; [reflexivity|].
  apply (KRKN_prefers_far_knight WHITE rook_vs_knight rook_vs_far_knight);
    reflexivity.
Defined.
